(** * sfw-installer: the resumable download, the cache store and the update scheduler

    A shallow embedding of the TypeScript sources of SocketDev/sfw-installer.
    The repository holds two generations of the same logic:

    - the current one: [src/http.ts] and the command line entry point (both in
      [src/src/httpUtils.ts]), [src/src/resumable.ts], [util.ts]
      ([unnamed/part_000]) and [github.ts] ([unnamed/part_003]);
    - an earlier one: [unnamed/part_001] (the downloader) and
      [unnamed/part_002] (entry point with its own HTTP helpers).

    Each source file is a [Module] below; functions keep their names.
    Asynchronous functions are computations in the monad [M]: a promise that
    fulfils is [Return], one that rejects (or code that throws) is [Throw],
    one that never settles is [Pending].  The runtime (node:fs, node:https,
    node:crypto, proper-lockfile, Date, JSON) is modelled in the first part,
    from its documentation. *)

From stdpp Require Import base strings gmap list pretty.
From Stdlib Require Import ZArith Lia.
From Stdlib.Strings Require Import Ascii String Byte.

Local Open Scope string_scope.
Local Open Scope Z_scope.

(** ** JavaScript strings *)

Module JsString.

(** The ASCII white space and line terminators that [String.prototype.trim]
    removes: tab, line feed, vertical tab, form feed, carriage return, space. *)
Definition isWhiteSpace (c : ascii) : bool :=
  let n := nat_of_ascii c in
  ((9 <=? n)%nat && (n <=? 13)%nat) || (n =? 32)%nat.

Fixpoint trimStart (s : string) : string :=
  match s with
  | EmptyString => EmptyString
  | String c s' => if isWhiteSpace c then trimStart s' else s
  end.

Fixpoint trimEnd (s : string) : string :=
  match s with
  | EmptyString => EmptyString
  | String c s' =>
      match trimEnd s' with
      | EmptyString => if isWhiteSpace c then EmptyString else String c EmptyString
      | t => String c t
      end
  end.

Definition trim (s : string) : string := trimEnd (trimStart s).

Definition lowerChar (c : ascii) : ascii :=
  let n := nat_of_ascii c in
  if ((65 <=? n)%nat && (n <=? 90)%nat)%bool then ascii_of_nat (n + 32) else c.

(** [String.prototype.toLowerCase] on ASCII letters. *)
Fixpoint toLowerCase (s : string) : string :=
  match s with
  | EmptyString => EmptyString
  | String c s' => String (lowerChar c) (toLowerCase s')
  end.

(** [s.split(/c/)] for a one-character pattern: the fields between the
    occurrences of [c]; never the empty list. *)
Fixpoint split (c : ascii) (s : string) : list string :=
  match s with
  | EmptyString => [EmptyString]
  | String a s' =>
      if Ascii.eqb a c then EmptyString :: split c s'
      else match split c s' with
           | field :: fields => String a field :: fields
           | [] => [String a EmptyString]
           end
  end.

(** Truthiness of a value that is a string or [undefined]. *)
Definition truthy (v : option string) : bool :=
  match v with
  | Some s => negb (String.eqb s EmptyString)
  | None => false
  end.


End JsString.

(** ** node:path (POSIX) *)

Module Path.

Definition slash : ascii := "/"%char.

(** The backward scan of [path.dirname]: [rev_tail] is the path without its
    first character, reversed; the result is the number of characters after
    the separator that ends the directory part, if there is one. *)
Fixpoint dirname_scan (rev_tail : list ascii) (matchedSlash : bool) (seen : nat)
  : option nat :=
  match rev_tail with
  | [] => None
  | c :: rest =>
      if Ascii.eqb c slash then
        if matchedSlash then dirname_scan rest matchedSlash (S seen)
        else Some seen
      else dirname_scan rest false (S seen)
  end.

Definition dirname (path : string) : string :=
  match path with
  | EmptyString => "."
  | String c0 tail =>
      let hasRoot := Ascii.eqb c0 slash in
      let chars := list_ascii_of_string tail in
      match dirname_scan (rev chars) true 0%nat with
      | None => if hasRoot then "/" else "."
      | Some after =>
          let end_ := (String.length path - S after)%nat in
          if (hasRoot && (end_ =? 1)%nat)%bool then "//"
          else String.substring 0 end_ path
      end
  end.

(** [path.join] of segments that need no normalisation (no ".", "..",
    empty segment or doubled separator). *)
Definition join (a b : string) : string := a ++ "/" ++ b.

(** [p] lies strictly below directory [d]. *)
Definition below (d p : string) : bool := String.prefix (d ++ "/") p.

End Path.

(** ** Errors, outcomes and the monad of effects *)

(** What JavaScript code throws, or a promise is rejected with. *)
Inductive exn : Type :=
| JsError (message : string)     (** [new Error(message)] *)
| SystemError (code : string)    (** an error of node:fs, with its [code] *)
| TypeError                      (** raised by the language itself *)
| NoReason.                      (** [reject()] without an argument *)

Inductive outcome (A : Type) : Type :=
| Return (a : A)     (** returned, or promise fulfilled *)
| Throw (e : exn)    (** threw, or promise rejected *)
| Pending.           (** the awaited promise never settles *)

Arguments Return {A} a.
Arguments Throw {A} e.
Arguments Pending {A}.

Inductive node : Type :=
| File (content : list byte)
| Symlink (target : string)
| Directory.

(** What a run does to the outside, in order.  A file system call that
    throws leaves no event. *)
Inductive event : Type :=
| EvRequest (url : string) (headers : gmap string string)
| EvLock (file : string)
| EvRelease (file : string)
| EvOpen (path : string) (flags : string)
| EvWrite (path : string) (position : nat) (chunk : list byte)
| EvFsync (path : string)
| EvClose (fd : nat)
| EvUnlink (path : string)
| EvRename (oldPath newPath : string)
| EvRm (path : string)
| EvSymlink (target path : string)
| EvMkdir (path : string)
| EvWriteFile (path : string) (data : string)
| EvChmod (path : string)
| EvSpawn (command : string).

Record world : Type := World {
  files : gmap string node;   (** the file system: path to entry *)
  fds : gmap nat string;      (** open descriptors and the file each refers to *)
  next_fd : nat;
  trace : list event          (** most recent last *)
}.

Definition M (A : Type) : Type := world → outcome A * world.

Definition ret {A} (a : A) : M A := λ w, (Return a, w).
Definition throw {A} (e : exn) : M A := λ w, (Throw e, w).
Definition pending {A} : M A := λ w, (Pending, w).

Definition bind {A B} (m : M A) (k : A → M B) : M B :=
  λ w, match m w with
       | (Return a, w') => k a w'
       | (Throw e, w') => (Throw e, w')
       | (Pending, w') => (Pending, w')
       end.

Notation "'let*' x ':=' m 'in' k" := (bind m (λ x, k))
  (at level 10, x pattern, m at level 100, k at level 200).
Notation "m ';;' k" := (bind m (λ _, k))
  (at level 100, k at level 200, right associativity).

(** [try { m } catch (e) { h e }] *)
Definition try_catch {A} (m : M A) (h : exn → M A) : M A :=
  λ w, match m w with
       | (Throw e, w') => h e w'
       | r => r
       end.

(** [try { m } finally { f }]: [f] runs on both exits and a failure of [f]
    replaces the result; nothing runs while [m] has not settled. *)
Definition try_finally {A} (m : M A) (f : M unit) : M A :=
  λ w, match m w with
       | (Return a, w') => (f ;; ret a) w'
       | (Throw e, w') => (f ;; throw e) w'
       | (Pending, w') => (Pending, w')
       end.

Definition emit (e : event) : M unit :=
  λ w, (Return tt, World (files w) (fds w) (next_fd w) (trace w ++ [e])).

Definition get_files : M (gmap string node) := λ w, (Return (files w), w).

Definition put_files (fs : gmap string node) : M unit :=
  λ w, (Return tt, World fs (fds w) (next_fd w) (trace w)).

(** ** node:fs

    The file system is a map from absolute paths to entries.  Symbolic links
    are followed at the last component of a path only, and calls that create
    an entry do not ask for its parent directory: in the sources every such
    call comes after the [mkdirSync] of that directory. *)

Module Fs.

Definition ENOENT : exn := SystemError "ENOENT".
Definition EEXIST : exn := SystemError "EEXIST".
Definition EISDIR : exn := SystemError "EISDIR".
Definition EBADF : exn := SystemError "EBADF".
Definition ELOOP : exn := SystemError "ELOOP".
Definition EPERM : exn := SystemError "EPERM".

(** Follows the symbolic links at [p] (absolute targets), up to the limit of
    the operating system.  [Some q]: [q] is not a link (it may be absent). *)
Fixpoint follow (fuel : nat) (fs : gmap string node) (p : string) : option string :=
  match fs !! p with
  | Some (Symlink target) =>
      match fuel with
      | O => None
      | S fuel' => follow fuel' fs target
      end
  | _ => Some p
  end.

Definition resolve (fs : gmap string node) (p : string) : option string :=
  follow 40 fs p.

Definition existsSync (p : string) : M bool :=
  λ w, (Return match resolve (files w) p with
               | Some q => bool_decide (is_Some (files w !! q))
               | None => false
               end, w).

Definition realpathSync (p : string) : M string :=
  let* fs := get_files in
  match resolve fs p with
  | None => throw ELOOP
  | Some q => if bool_decide (is_Some (fs !! q)) then ret q else throw ENOENT
  end.

(** Does not follow a link at [p]. *)
Definition lstatSync (p : string) : M node :=
  let* fs := get_files in
  match fs !! p with
  | Some n => ret n
  | None => throw ENOENT
  end.

Definition unlinkSync (p : string) : M unit :=
  let* fs := get_files in
  match fs !! p with
  | None => throw ENOENT
  | Some Directory => throw EPERM
  | Some _ => put_files (delete p fs) ;; emit (EvUnlink p)
  end.

Definition symlinkSync (target path : string) : M unit :=
  let* fs := get_files in
  match fs !! path with
  | Some _ => throw EEXIST
  | None => put_files (<[path := Symlink target]> fs) ;; emit (EvSymlink target path)
  end.

(** [fs.rmSync(p, { recursive: true, force: true })] *)
Definition rmSync (p : string) : M unit :=
  let* fs := get_files in
  put_files (filter (λ kv, negb (String.eqb kv.1 p || Path.below p kv.1) = true) fs) ;;
  emit (EvRm p).

(** [fs.mkdirSync(p, { recursive: true })]; parent directories are not
    represented. *)
Definition mkdirSync (p : string) : M unit :=
  let* fs := get_files in
  match fs !! p with
  | Some Directory => ret tt
  | Some _ => throw EEXIST
  | None => put_files (<[p := Directory]> fs) ;; emit (EvMkdir p)
  end.

(** [fs.readFileSync(p, 'utf8')] *)
Definition readFileSync (p : string) : M string :=
  let* fs := get_files in
  match resolve fs p with
  | None => throw ELOOP
  | Some q =>
      match fs !! q with
      | Some (File content) => ret (string_of_list_byte content)
      | Some _ => throw EISDIR
      | None => throw ENOENT
      end
  end.

Definition writeFileSync (p : string) (data : string) : M unit :=
  let* fs := get_files in
  match resolve fs p with
  | None => throw ELOOP
  | Some q =>
      match fs !! q with
      | Some Directory => throw EISDIR
      | _ => put_files (<[q := File (list_byte_of_string data)]> fs) ;;
             emit (EvWriteFile p data)
      end
  end.

Definition chmodSync (p : string) : M unit :=
  let* fs := get_files in
  match resolve fs p with
  | None => throw ELOOP
  | Some q => if bool_decide (is_Some (fs !! q)) then emit (EvChmod p) else throw ENOENT
  end.

Definition new_fd (path : string) : M nat :=
  λ w, (Return (next_fd w),
        World (files w) (<[next_fd w := path]> (fds w)) (S (next_fd w)) (trace w)).

(** [fs.openSync(p, flags)] for the two read-write flags:
    - ['r+']: the file must exist; its content is kept;
    - ['w+']: the file is created if it does not exist, or truncated if it
      exists. *)
Definition openSync (p : string) (flags : string) : M nat :=
  let* fs := get_files in
  match resolve fs p with
  | None => throw ELOOP
  | Some q =>
      match fs !! q with
      | Some Directory => throw EISDIR
      | entry =>
          if String.eqb flags "w+" then
            put_files (<[q := File []]> fs) ;; emit (EvOpen p flags) ;; new_fd q
          else if String.eqb flags "r+" then
            match entry with
            | Some _ => emit (EvOpen p flags) ;; new_fd q
            | None => throw ENOENT
            end
          else throw (SystemError "ERR_INVALID_ARG_VALUE")
      end
  end.

(** The file an open descriptor refers to.  A descriptor is represented by
    the path it was opened on: the sources use a descriptor only while its
    file is still at that path, except to close it. *)
Definition fd_file (fd : nat) : M (string * list byte) :=
  λ w, match fds w !! fd with
       | Some path =>
           match files w !! path with
           | Some (File content) => (Return (path, content), w)
           | _ => (Throw EBADF, w)
           end
       | None => (Throw EBADF, w)
       end.

(** [fs.fstatSync(fd).size] *)
Definition fstatSync_size (fd : nat) : M nat :=
  let* (_, content) := fd_file fd in ret (List.length content).

(** The content after writing [chunk] at absolute offset [position]; a gap
    past the end of the file reads as zero bytes. *)
Definition write_at (content : list byte) (position : nat) (chunk : list byte)
  : list byte :=
  take position content ++ replicate (position - List.length content) x00
    ++ chunk ++ drop (position + List.length chunk) content.

(** [fs.writeSync(fd, chunk, 0, chunk.length, position)] *)
Definition writeSync (fd : nat) (chunk : list byte) (position : nat) : M nat :=
  let* (path, content) := fd_file fd in
  let* fs := get_files in
  put_files (<[path := File (write_at content position chunk)]> fs) ;;
  emit (EvWrite path position chunk) ;;
  ret (List.length chunk).

(** [fs.readSync(fd, buffer, 0, length, position)]: the bytes read. *)
Definition readSync (fd : nat) (len : nat) (position : nat) : M (list byte) :=
  let* (_, content) := fd_file fd in ret (take len (drop position content)).

Definition fsyncSync (fd : nat) : M unit :=
  let* (path, _) := fd_file fd in emit (EvFsync path).

Definition closeSync (fd : nat) : M unit :=
  λ w, match fds w !! fd with
       | Some _ =>
           (Return tt, World (files w) (delete fd (fds w)) (next_fd w)
                             (trace w ++ [EvClose fd]))
       | None => (Throw EBADF, w)
       end.

(** [fs.renameSync(oldPath, newPath)]: an existing file or link at
    [newPath] is replaced. *)
Definition renameSync (oldPath newPath : string) : M unit :=
  let* fs := get_files in
  match fs !! oldPath with
  | None => throw ENOENT
  | Some entry =>
      match fs !! newPath with
      | Some Directory => throw EISDIR
      | _ => put_files (<[newPath := entry]> (delete oldPath fs)) ;;
             emit (EvRename oldPath newPath)
      end
  end.

End Fs.

(** ** The environment of a run *)

(** What the event loop delivers while a response is being read: chunks of
    the body and, in between, the lock file's [onCompromised] callback. *)
Inductive tick : Type :=
| Data (chunk : list byte)
| LockCompromised.

Inductive stream_end : Type :=
| End                     (** 'end' *)
| StreamError (e : exn)   (** 'error' *)
| Stalled.                (** neither is ever emitted *)

Record IncomingMessage : Type := {
  statusCode : option Z;
  location : option string;    (** [headers.location] *)
  body : list tick;
  ending : stream_end
}.

Inductive reply : Type :=
| Responds (res : IncomingMessage)
| Fails (e : exn)       (** invalid URL, or an 'error' event of the request *)
| Silent.               (** the request is never answered *)

Record Asset : Type := {
  asset_name : string;
  browser_download_url : string;
  digest : string
}.

(** The fields of the release document that the sources read. *)
Record ReleaseJson : Type := {
  json_tag_name : option string;
  json_name : option string;
  json_assets : option (list Asset)    (** [None]: not an array *)
}.

Record Env : Type := {
  https_get : string → gmap string string → reply;
  createHash : string → option (list byte → string);
    (* the digest in hex of a whole input; [None]: unknown algorithm *)
  plf_lock : string → outcome unit;
  Date_now : Z;
  Date_parse : string → option Z;           (* [None]: NaN *)
  Date_toISOString : Z → string;
  JSON_parse : string → option ReleaseJson; (* [None]: SyntaxError *)
  platform : string;                        (* [process.platform] *)
  arch : string;                            (* [process.arch] *)
  INSTALL_ROOT : string;
  PACKAGE_VERSION : string
}.

(** An exception thrown inside an event listener is not caught by the
    promise under construction, which then never settles. *)
Definition in_listener {A} (m : M A) : M A :=
  λ w, match m w with
       | (Throw _, w') => (Pending, w')
       | r => r
       end.

(** ** proper-lockfile *)

Module Lockfile.
Section WithEnv.
Context (E : Env).

(** [release()] returns a promise. *)
Definition release (file : string) : M unit := emit (EvRelease file).

(** [plf.lock(file, options)] fulfils with the release function. *)
Definition lock (file : string) : M (M unit) :=
  λ w, match plf_lock E file with
       | Return _ => (emit (EvLock file) ;; ret (release file)) w
       | Throw e => (Throw e, w)
       | Pending => (Pending, w)
       end.
End WithEnv.
End Lockfile.

(** ** [util.ts] (unnamed/part_000) *)

Module Util.

(** What [swallowError] asks of the value its callback returns:
    ['catch' in v] throws a TypeError unless [v] is an object; for an object
    with a [catch] method, [v.catch(() => {})]. *)
Class JsValue (T : Type) : Type := {
  isObject : T → bool;
  catchMethod : T → option T
}.

#[global] Instance undefined_value : JsValue unit :=
  {| isObject := λ _, false; catchMethod := λ _, None |}.

#[global] Instance string_value : JsValue string :=
  {| isObject := λ _, false; catchMethod := λ _, None |}.

(** A [Promise<void>]: [p.catch(() => {})] fulfils where [p] rejects. *)
#[global] Instance promise_value : JsValue (M unit) :=
  {| isObject := λ _, true;
     catchMethod := λ p, Some (try_catch p (λ _, ret tt)) |}.

(** Lines 1-12.  The result [null] is [None]. *)
Definition swallowError {T} `{JsValue T} (cb : M T) : M (option T) :=
  λ w, match cb w with
       | (Return returnVal, w') =>
           if isObject returnVal then
             match catchMethod returnVal with
             | Some caught => (Return (Some caught), w')
             | None => (Return (Some returnVal), w')
             end
           else (Return None, w')   (* the TypeError of [in] lands in the catch block *)
       | (Throw _, w') => (Return None, w')
       | (Pending, w') => (Pending, w')
       end.

(** [await v] for [v] a promise or [null]. *)
Definition await (v : option (M unit)) : M unit :=
  match v with
  | Some p => p
  | None => ret tt
  end.

End Util.

(** ** [src/http.ts] (src/src/httpUtils.ts, lines 1-67) *)

Module Http.

Record HttpGetOptions : Type := {
  headers : option (gmap string string);
  maxRedirects : option nat;
  userAgent : option string
}.

Definition no_options : HttpGetOptions :=
  {| headers := None; maxRedirects := None; userAgent := None |}.

(** [h.location] when the response is a redirect the code is ready to
    follow, apart from the count. *)
Definition redirectTo (statusCode : Z) (location : option string) : option string :=
  if (300 <=? statusCode) && (statusCode <? 400) && JsString.truthy location
  then location else None.

Section WithEnv.
Context (E : Env).

(** [{ ...(userAgent && { 'User-Agent': userAgent }), ...headers }] *)
Definition request_headers (options : HttpGetOptions) : gmap string string :=
  default ∅ (headers options) ∪
  (if JsString.truthy (userAgent options)
   then {[ "User-Agent" := default EmptyString (userAgent options) ]} else ∅).

(** Lines 11-39.  [httpsGet(url, { ...options, maxRedirects })]: the recursive
    call passes the same options with the count lowered, so the count is the
    argument of the recursion.  [res.resume()] has no effect here. *)
Fixpoint httpsGet_with (maxRedirects : nat) (url : string) (options : HttpGetOptions)
  : M IncomingMessage :=
  emit (EvRequest url (request_headers options)) ;;
  match https_get E url (request_headers options) with
  | Fails e => throw e
  | Silent => pending
  | Responds res =>
      match statusCode res with
      | None => throw (JsError ("GET " ++ url ++ " failed with no status code"))
      | Some statusCode =>
          match redirectTo statusCode (location res), maxRedirects with
          | Some location, S maxRedirects' =>
              httpsGet_with maxRedirects' location options
          | _, _ =>
              if (statusCode <? 200) || (300 <=? statusCode) then
                throw (JsError ("GET " ++ url ++ " failed with " ++ pretty statusCode))
              else ret res
          end
      end
  end.

(** [maxRedirects = 5] by default. *)
Definition httpsGet (url : string) (options : HttpGetOptions) : M IncomingMessage :=
  httpsGet_with (default 5%nat (maxRedirects options)) url options.

(** Lines 41-51.  [{ Range: ..., ...options.headers }]: a Range among the
    caller's headers wins. *)
Definition httpsGetWithRange (url : string) (startByte : nat) (options : HttpGetOptions)
  : M IncomingMessage :=
  let rangeHeaders : gmap string string :=
    default ∅ (headers options) ∪ {[ "Range" := "bytes=" ++ pretty startByte ++ "-" ]} in
  httpsGet url {| headers := Some rangeHeaders;
                  maxRedirects := maxRedirects options;
                  userAgent := userAgent options |}.

Fixpoint text_of (ticks : list tick) : string :=
  match ticks with
  | [] => EmptyString
  | Data c :: rest => string_of_list_byte c ++ text_of rest
  | LockCompromised :: rest => text_of rest
  end.

Definition drain (res : IncomingMessage) : M string :=
  match ending res with
  | End => ret (text_of (body res))
  | StreamError e => throw e
  | Stalled => pending
  end.

Definition getText (url : string) (options : HttpGetOptions) : M string :=
  let* res := httpsGet url options in drain res.

Definition getJSON (url : string) (options : HttpGetOptions) : M ReleaseJson :=
  let* s := getText url options in
  match JSON_parse E s with
  | Some json => ret json
  | None => throw (JsError "SyntaxError")
  end.
End WithEnv.

End Http.

(** ** node:crypto *)

(** A [crypto.Hash]: the digest function of its algorithm and the bytes it
    has been fed so far. *)
Record Hash : Type := {
  hex_of : list byte → string;
  fed : list byte
}.

Definition Hash_update (hash : Hash) (data : list byte) : Hash :=
  {| hex_of := hex_of hash; fed := fed hash ++ data |}.

Definition Hash_digest_hex (hash : Hash) : string := hex_of hash (fed hash).

Definition crypto_createHash (E : Env) (algorithm : string) : M Hash :=
  match createHash E algorithm with
  | Some f => ret {| hex_of := f; fed := [] |}
  | None => throw (JsError "Digest method not supported")
  end.

(** ** [src/resumable.ts] (src/src/resumable.ts) *)

Module Resumable.

Definition buffer_length : nat := 64 * 1024.

(** The [do ... while (bytesRead > 0)] loop of [checkIntegrity]; [fuel]
    bounds the number of reads. *)
Fixpoint checkIntegrity_loop (fuel : nat) (fd : nat) (hash : Hash) (position : nat)
  : M Hash :=
  match fuel with
  | O => pending
  | S fuel' =>
      let* buffer := Fs.readSync fd buffer_length position in
      let bytesRead := List.length buffer in
      if (0 <? bytesRead)%nat then
        checkIntegrity_loop fuel' fd (Hash_update hash buffer) (position + bytesRead)
      else ret hash
  end.

(** Every read but the last returns at least one byte, so one read more
    than the file has bytes is enough. *)
Definition checkIntegrity (fd : nat) (hash : Hash) (expectedDigestHex : string) : M bool :=
  let* size := Fs.fstatSync_size fd in
  let* hash' := checkIntegrity_loop (S size) fd hash 0 in
  let digestHex := Hash_digest_hex hash' in
  ret (String.eqb digestHex expectedDigestHex).

(** Lines 25-52.  The listeners of [saveToDisk] run over the ticks of the response.
    State: [currentOffset], the flag behind [aborted()], and whether the
    'data' listener has called [reject]. *)
Fixpoint saveToDisk_data (ticks : list tick) (fd : nat) (currentOffset : nat)
    (aborted rejected : bool) : M (bool * bool) :=
  match ticks with
  | [] => ret (aborted, rejected)
  | LockCompromised :: ticks' => saveToDisk_data ticks' fd currentOffset true rejected
  | Data chunk :: ticks' =>
      if aborted then saveToDisk_data ticks' fd currentOffset aborted true
      else
        let currentChunkOffset := currentOffset in
        let currentOffset := (currentOffset + List.length chunk)%nat in
        in_listener (Fs.writeSync fd chunk currentChunkOffset) ;;
        saveToDisk_data ticks' fd currentOffset aborted rejected
  end.

(** The promise of [saveToDisk]: settled by the first [reject] or [resolve].
    [aborted] is the value of the flag when the listeners are attached; the
    listeners read it afresh at every event. *)
Definition saveToDisk (res : IncomingMessage) (fd : nat) (bytesAlreadyDownloaded : nat)
    (aborted : bool) : M unit :=
  let* (aborted, rejected) :=
    saveToDisk_data (body res) fd bytesAlreadyDownloaded aborted false in
  if rejected then throw NoReason
  else match ending res with
       | End => if aborted then throw NoReason else ret tt
       | StreamError e => throw e
       | Stalled => pending
       end.

Section WithEnv.
Context (E : Env).

(** Lines 54-75. *)
Definition downloadWithResume (url : string) (fd : nat) (bytesAlreadyDownloaded : nat)
    (aborted : bool) (hash : Hash) (expectedDigestHex : string)
    (pendingDownloadPath : string) : M IncomingMessage :=
  let* res := Http.httpsGetWithRange E url bytesAlreadyDownloaded Http.no_options in
  saveToDisk res fd bytesAlreadyDownloaded aborted ;;
  Fs.fsyncSync fd ;;
  let* intact := checkIntegrity fd hash expectedDigestHex in
  if negb intact then
    Fs.unlinkSync pendingDownloadPath ;;
    throw (JsError "Downloaded file integrity check failed")
  else
    Fs.closeSync fd ;;
    ret res.

(** Lines 77-83. *)
Definition getSizeOnDisk (fd : nat) : M nat :=
  try_catch (Fs.fstatSync_size fd) (λ _e, ret 0%nat).

(** Lines 85-124.  [response?.destroy()] in the [finally] block has no effect
    here and is left out. *)
Definition eagerAcquireLockAndDownload (url destination : string)
    (expectedDigestAlgo expectedDigestHex : string) : M unit :=
  let* hash := crypto_createHash E expectedDigestAlgo in
  let aborted := false in
  let lockfilePath := destination ++ ".lock" in
  let pendingDownloadPath := destination ++ ".dl" in
  let* release := Lockfile.lock E lockfilePath in
  let* fd := Fs.openSync pendingDownloadPath "w+" in
  let* bytesAlreadyDownloaded := getSizeOnDisk fd in
  try_finally
    (downloadWithResume url fd bytesAlreadyDownloaded aborted hash
       expectedDigestHex pendingDownloadPath)
    (let* released := Util.swallowError (ret release) in
     Util.await released ;;
     Util.swallowError (Fs.closeSync fd) ;;
     ret tt) ;;
  Fs.renameSync pendingDownloadPath destination.
End WithEnv.

End Resumable.

(** ** The earlier downloader (unnamed/part_001) *)

Module Part001.

Definition buffer_length : nat := 64 * 1024.

(** Line 38: [res.statusCode && (res.statusCode < 200 || res.statusCode >= 300)
    && res.statusCode !== 206]. *)
Definition status_rejected (statusCode : option Z) : bool :=
  match statusCode with
  | Some s => negb (s =? 0) && ((s <? 200) || (300 <=? s)) && negb (s =? 206)
  | None => false
  end.

(** Lines 42-51: the 'data' listener over the ticks of the response. *)
Fixpoint on_data (ticks : list tick) (fd : nat) (downloadedBytes : nat)
    (aborted rejected : bool) : M (bool * bool) :=
  match ticks with
  | [] => ret (aborted, rejected)
  | LockCompromised :: ticks' => on_data ticks' fd downloadedBytes true rejected
  | Data chunk :: ticks' =>
      if aborted then on_data ticks' fd downloadedBytes aborted true
      else
        let destinationOffset := downloadedBytes in
        let downloadedBytes := (downloadedBytes + List.length chunk)%nat in
        in_listener (Fs.writeSync fd chunk destinationOffset) ;;
        on_data ticks' fd downloadedBytes aborted rejected
  end.

Fixpoint digest_loop (fuel : nat) (fd : nat) (hash : Hash) (position : nat) : M Hash :=
  match fuel with
  | O => pending
  | S fuel' =>
      let* buffer := Fs.readSync fd buffer_length position in
      let bytesRead := List.length buffer in
      if (0 <? bytesRead)%nat then
        digest_loop fuel' fd (Hash_update hash buffer) (position + bytesRead)
      else ret hash
  end.

(** The 'end' listener, lines 52-81. *)
Definition on_end (fd : nat) (aborted : bool) (hash : Hash) (expectedDigestHex : string)
    (pendingDownloadPath : string) (release : M unit) : M unit :=
  if aborted then throw NoReason
  else
    let* digestHex :=
      in_listener
        (try_catch release (λ _, ret tt) ;;
         Fs.fsyncSync fd ;;
         let* size := Fs.fstatSync_size fd in
         let* hash' := digest_loop (S size) fd hash 0 in
         ret (Hash_digest_hex hash')) in
    if negb (String.eqb digestHex expectedDigestHex) then
      in_listener (Fs.unlinkSync pendingDownloadPath) ;;
      throw (JsError "Downloaded file integrity check failed")
    else
      in_listener (Fs.closeSync fd).

Section WithEnv.
Context (E : Env).

(** Lines 31-84: the promise built at line 31.  The response has no 'error'
    listener: an 'error' event is an uncaught exception. *)
Definition download (url : string) (fd : nat) (downloadedBytes : nat) (hash : Hash)
    (expectedDigestHex pendingDownloadPath : string) (release : M unit) : M unit :=
  let headers : gmap string string :=
    {[ "Range" := "bytes=" ++ pretty downloadedBytes ++ "-" ]} in
  emit (EvRequest url headers) ;;
  match https_get E url headers with
  | Fails _ => throw NoReason
  | Silent => pending
  | Responds res =>
      if status_rejected (statusCode res) then throw NoReason
      else
        let* (aborted, rejected) := on_data (body res) fd downloadedBytes false false in
        if rejected then throw NoReason
        else match ending res with
             | End => on_end fd aborted hash expectedDigestHex pendingDownloadPath release
             | StreamError _ => pending
             | Stalled => pending
             end
  end.

(** Lines 14-93.  The chain ends in [.catch(_err => {...}).catch(() => {})]:
    the first handler cleans up and returns, the second drops what the first
    throws; [$res.destroy()] has no effect here. *)
Definition eagerAcquireLockAndDownload (url destination : string)
    (expectedDigestAlgo expectedDigestHex : string) : M unit :=
  let* hash := crypto_createHash E expectedDigestAlgo in
  let lockfilePath := destination ++ ".lock" in
  let pendingDownloadPath := destination ++ ".dl" in
  let* release := Lockfile.lock E lockfilePath in
  let* fd := Fs.openSync pendingDownloadPath "w+" in
  let* downloadedBytes := try_catch (Fs.fstatSync_size fd) (λ _e, ret 0%nat) in
  try_catch
    (try_catch
       (download url fd downloadedBytes hash expectedDigestHex pendingDownloadPath release)
       (λ _err,
          try_catch release (λ _, ret tt) ;;
          Fs.closeSync fd))
    (λ _, ret tt).
End WithEnv.

End Part001.

(** ** [github.ts] (unnamed/part_003) *)

Record LatestRelease : Type := {
  tag : option string;
  name : option string;
  assets : list Asset
}.

Module Github.

Definition LATEST_API : string :=
  "https://api.github.com/repos/SocketDev/sfw-free/releases/latest".

Section WithEnv.
Context (E : Env).

Definition USER_AGENT : string := "sfw-free/" ++ PACKAGE_VERSION E.

Definition mapPlatform : string :=
  if String.eqb (platform E) "darwin" then "macos"
  else if String.eqb (platform E) "win32" then "windows"
  else if String.eqb (platform E) "linux" then "linux"
  else platform E.

Definition mapArch : string :=
  if String.eqb (arch E) "x64" then "x86_64"
  else if String.eqb (arch E) "arm64" then "arm64"
  else arch E.

Definition expectedAssetName : M string :=
  let plat := mapPlatform in
  let arch_ := mapArch in
  if String.eqb plat "windows" && String.eqb arch_ "x86_64" then
    ret "sfw-free-windows-x86_64.exe"
  else if String.eqb plat "macos" && (String.eqb arch_ "arm64" || String.eqb arch_ "x86_64")
  then ret ("sfw-free-macos-" ++ arch_)
  else if String.eqb plat "linux" && String.eqb arch_ "x86_64" then
    ret "sfw-free-linux-x86_64"
  else throw (JsError ("No published asset for " ++ platform E ++ "/" ++ arch E)).

Definition fetchLatest : M LatestRelease :=
  let* json := Http.getJSON E LATEST_API
                 {| Http.headers := None; Http.maxRedirects := None;
                    Http.userAgent := Some USER_AGENT |} in
  ret {| tag := json_tag_name json;
         name := if JsString.truthy (json_name json) then json_name json
                 else json_tag_name json;
         assets := default [] (json_assets json) |}.
End WithEnv.

Definition findAssetUrl (assets : list Asset) (name : string) : option (string * string) :=
  match List.find (λ x, String.eqb (asset_name x) name) assets with
  | None => None
  | Some a => Some (browser_download_url a, digest a)
  end.

End Github.

(** ** The entry point (src/src/httpUtils.ts, lines 69-266) *)

Record LatestBinary : Type := {
  binary_tag : option string;
  bin : string
}.

(** [const [algo, hex] = digest.trim().toLowerCase().split(/:/)] and the test
    [!algo || !hex] that follows (httpUtils.ts 188-191, part_002 220-221):
    the two fields when both are non-empty. *)
Definition digest_fields (digest : string) : option (string * string) :=
  let fields := JsString.split ":"%char (JsString.toLowerCase (JsString.trim digest)) in
  let algo := fields !! 0%nat in
  let hex := fields !! 1%nat in
  if negb (JsString.truthy algo) || negb (JsString.truthy hex) then None
  else Some (default EmptyString algo, default EmptyString hex).

Module Cli.

Definition NEXT_CHECK_FILE : string := ".sfw-cache/next-check".
Definition ONE_DAY_MS : Z := 24 * 60 * 60 * 1000.

Section WithEnv.
Context (E : Env).

Definition NEXT_CHECK_PATH : string := Path.join (INSTALL_ROOT E) NEXT_CHECK_FILE.
Definition LATEST_SYMLINK_PATH : string :=
  Path.join (Path.join (INSTALL_ROOT E) ".sfw-cache") "latest".

(** Lines 94-105. *)
Definition findValidCachedReleaseSync : M (option string) :=
  let symlinkPath := LATEST_SYMLINK_PATH in
  try_catch
    (let* linked := Fs.existsSync symlinkPath in
     if linked then
       let* binPath := Fs.realpathSync symlinkPath in
       let* present := Fs.existsSync binPath in
       if present then ret (Some binPath) else ret None
     else ret None)
    (λ _, ret None).

Definition getCachePaths (releaseName assetName : string) : string * string :=
  let cacheDir := Path.join (Path.join (INSTALL_ROOT E) ".sfw-cache") releaseName in
  let assetPath := Path.join cacheDir assetName in
  (cacheDir, assetPath).

(** Lines 113-124.  [Date.now() > nextCheck] *)
Definition shouldCheckForUpdate : M bool :=
  try_catch
    (let* data := Fs.readFileSync NEXT_CHECK_PATH in
     match Date_parse E (JsString.trim data) with
     | None => ret true
     | Some nextCheck => ret (Date_now E >? nextCheck)
     end)
    (λ _, ret true).

(** Lines 126-130. *)
Definition setNextCheckTimeSync : M unit :=
  let nextCheck := Date_now E + ONE_DAY_MS in
  Fs.mkdirSync (Path.dirname NEXT_CHECK_PATH) ;;
  Fs.writeFileSync NEXT_CHECK_PATH (Date_toISOString E nextCheck).

Definition tryClearQuarantine (p : string) : M unit :=
  if negb (String.eqb (platform E) "darwin") then ret tt
  else emit (EvSpawn "xattr").

Definition ensureExecutable (p : string) : M unit :=
  if negb (String.eqb (platform E) "win32") then
    Util.swallowError (Fs.chmodSync p) ;; ret tt
  else ret tt.

(** Lines 143-154. *)
Definition removeSymlink (symlinkPath : string) : M unit :=
  try_catch
    (Fs.lstatSync symlinkPath ;;
     Fs.unlinkSync symlinkPath)
    (λ err, match err with
            | SystemError code => if String.eqb code "ENOENT" then ret tt else throw err
            | _ => throw err
            end).

(** Lines 159-164: what [trySymlinkLatest] does once [previousBin] is set. *)
Definition repoint (previousBin : option string) (assetPath : string) : M unit :=
  (if JsString.truthy previousBin
      && negb (String.eqb (default EmptyString previousBin) assetPath)
   then Util.swallowError
          (Fs.rmSync (Path.dirname (default EmptyString previousBin))) ;; ret tt
   else ret tt) ;;
  removeSymlink LATEST_SYMLINK_PATH ;;
  Fs.symlinkSync assetPath LATEST_SYMLINK_PATH.

(** Lines 156-168. *)
Definition trySymlinkLatest (assetPath : string) : M unit :=
  try_catch
    (let* previousBin := Util.swallowError (Fs.realpathSync LATEST_SYMLINK_PATH) in
     repoint previousBin assetPath)
    (λ _e, ret tt).

(** Lines 170-204.  [path.join] throws a TypeError for a name that is not a
    string. *)
Definition downloadAndVerifyReleaseSync (release : LatestRelease) (assetName : string)
  : M LatestBinary :=
  match name release with
  | None => throw TypeError
  | Some name =>
      let (cacheDir, assetPath) := getCachePaths name assetName in
      Fs.mkdirSync cacheDir ;;
      match Github.findAssetUrl (assets release) assetName with
      | None => throw (JsError ("Latest release does not contain asset " ++ assetName))
      | Some (url, digest) =>
          match digest_fields digest with
          | None => throw (JsError "Invalid digest in release asset")
          | Some (algo, hex) =>
              let* present := Fs.existsSync assetPath in
              if present then ret {| binary_tag := Some name; bin := assetPath |}
              else
                Resumable.eagerAcquireLockAndDownload E url assetPath algo hex ;;
                ensureExecutable assetPath ;;
                tryClearQuarantine assetPath ;;
                trySymlinkLatest assetPath ;;
                ret {| binary_tag := Some name; bin := assetPath |}
          end
      end
  end.

(** The function passed to [swallowError] at lines 227-230. *)
Definition refresh (assetName : string) : M unit :=
  let* latest := Github.fetchLatest E in
  downloadAndVerifyReleaseSync latest assetName ;;
  ret tt.

(** Lines 206-233. *)
Definition ensureLatestBinary : M LatestBinary :=
  let* assetName := Github.expectedAssetName E in
  let* cached := findValidCachedReleaseSync in
  let* shouldUpdate :=
    if negb (JsString.truthy cached) then ret true else shouldCheckForUpdate in
  if negb (JsString.truthy cached) then
    setNextCheckTimeSync ;;
    let* releaseInfo :=
      try_catch (Github.fetchLatest E)
        (λ _e, throw (JsError
           "Unable to fetch latest release and no valid cached release found.")) in
    downloadAndVerifyReleaseSync releaseInfo assetName
  else
    (if shouldUpdate then
       setNextCheckTimeSync ;;
       let* attempt := Util.swallowError (ret (refresh assetName)) in
       Util.await attempt
     else ret tt) ;;
    ret {| binary_tag := Some "cached"; bin := default EmptyString cached |}.
End WithEnv.

End Cli.

(** ** The earlier entry point (unnamed/part_002) *)

Module Part002.

Definition LATEST_API : string :=
  "https://api.github.com/repos/SocketDev/firewall-release/releases/latest".
Definition NEXT_CHECK_FILE : string := ".sfw-cache/next-check".
Definition ONE_DAY_MS : Z := 24 * 60 * 60 * 1000.

(** What [ensureLatestBinarySync] returns: [{ tag, bin }] after a download,
    [{ bin }] from the cache. *)
Definition Cached (binPath : string) : LatestBinary :=
  {| binary_tag := None; bin := binPath |}.

Section WithEnv.
Context (E : Env).
(** [import { eagerAcquireLockAndDownload } from './resumable.ts'] *)
Context (eagerAcquireLockAndDownload : string → string → string → string → M unit).

Definition USER_AGENT : string := "sfw-lite/" ++ PACKAGE_VERSION E.

(** Lines 27-52. *)
Fixpoint get (url : string) (headers : gmap string string) (maxRedirects : nat)
  : M IncomingMessage :=
  let opts_headers : gmap string string := headers ∪ {[ "User-Agent" := USER_AGENT ]} in
  emit (EvRequest url opts_headers) ;;
  match https_get E url opts_headers with
  | Fails e => throw e
  | Silent => pending
  | Responds res =>
      match statusCode res with
      | None => throw (JsError ("GET " ++ url ++ " failed with no status code"))
      | Some statusCode =>
          match Http.redirectTo statusCode (location res), maxRedirects with
          | Some location, S maxRedirects' => get location headers maxRedirects'
          | _, _ =>
              if (statusCode <? 200) || (300 <=? statusCode) then
                throw (JsError ("GET " ++ url ++ " failed with " ++ pretty statusCode))
              else ret res
          end
      end
  end.

Definition getText (url : string) (headers : gmap string string) : M string :=
  let* res := get url headers 5 in Http.drain res.

Definition getJSON (url : string) (headers : gmap string string) : M ReleaseJson :=
  let* s := getText url headers in
  match JSON_parse E s with
  | Some json => ret json
  | None => throw (JsError "SyntaxError")
  end.

Definition getInstallRoot : string := INSTALL_ROOT E.

Definition getLatestSymlinkPath : string :=
  Path.join (Path.join getInstallRoot ".sfw-cache") "latest".

Definition findValidCachedReleaseSync : M (option LatestBinary) :=
  let symlinkPath := getLatestSymlinkPath in
  try_catch
    (let* linked := Fs.existsSync symlinkPath in
     if linked then
       let* binPath := Fs.realpathSync symlinkPath in
       let* present := Fs.existsSync binPath in
       if present then ret (Some (Cached binPath)) else ret None
     else ret None)
    (λ _, ret None).

Definition mapPlatform : string :=
  if String.eqb (platform E) "darwin" then "macos"
  else if String.eqb (platform E) "win32" then "windows"
  else if String.eqb (platform E) "linux" then "linux"
  else platform E.

Definition mapArch : string :=
  if String.eqb (arch E) "x64" then "x86_64"
  else if String.eqb (arch E) "arm64" then "arm64"
  else arch E.

Definition expectedAssetName : M string :=
  let plat := mapPlatform in
  let arch_ := mapArch in
  if String.eqb plat "windows" && String.eqb arch_ "x86_64" then
    ret "sfw-windows-x86_64.exe"
  else if String.eqb plat "macos" && (String.eqb arch_ "arm64" || String.eqb arch_ "x86_64")
  then ret ("sfw-macos-" ++ arch_)
  else if String.eqb plat "linux" && String.eqb arch_ "x86_64" then
    ret "sfw-linux-x86_64"
  else throw (JsError ("No published asset for " ++ platform E ++ "/" ++ arch E)).

Definition getCachePaths (releaseName assetName : string) : string * string :=
  let root := getInstallRoot in
  let cacheDir := Path.join (Path.join root ".sfw-cache") releaseName in
  let assetPath := Path.join cacheDir assetName in
  (cacheDir, assetPath).

Definition getNextCheckPath : string := Path.join getInstallRoot NEXT_CHECK_FILE.

Definition shouldCheckForUpdate : M bool :=
  let nextCheckPath := getNextCheckPath in
  try_catch
    (let* data := Fs.readFileSync nextCheckPath in
     match Date_parse E (JsString.trim data) with
     | None => ret true
     | Some nextCheck => ret (Date_now E >? nextCheck)
     end)
    (λ _, ret true).

Definition setNextCheckTimeSync : M unit :=
  let nextCheckPath := getNextCheckPath in
  let nextCheck := Date_now E + ONE_DAY_MS in
  Fs.mkdirSync (Path.dirname nextCheckPath) ;;
  Fs.writeFileSync nextCheckPath (Date_toISOString E nextCheck).

Definition fetchLatest : M LatestRelease :=
  let* json := getJSON LATEST_API ∅ in
  ret {| tag := json_tag_name json;
         name := if JsString.truthy (json_name json) then json_name json
                 else json_tag_name json;
         assets := default [] (json_assets json) |}.

Definition findAssetUrl (assets : list Asset) (name : string) : option (string * string) :=
  match List.find (λ x, String.eqb (asset_name x) name) assets with
  | None => None
  | Some a => Some (browser_download_url a, digest a)
  end.

Definition tryClearQuarantine (p : string) : M unit :=
  if negb (String.eqb (platform E) "darwin") then ret tt
  else emit (EvSpawn "xattr").

Definition ensureExecutable (p : string) : M unit :=
  if negb (String.eqb (platform E) "win32") then
    try_catch (Fs.chmodSync p) (λ _, ret tt)
  else ret tt.

(** Lines 231-246: the publication of the new binary. *)
Definition publish (assetPath : string) : M unit :=
  try_catch
    (let symlinkPath := getLatestSymlinkPath in
     let* previousBin :=
       try_catch (let* p := Fs.realpathSync symlinkPath in ret (Some p))
                 (λ _, ret None) in
     Fs.symlinkSync assetPath symlinkPath ;;
     if JsString.truthy previousBin
        && negb (String.eqb (default EmptyString previousBin) assetPath)
     then try_catch (Fs.rmSync (Path.dirname (default EmptyString previousBin)))
                    (λ _, ret tt)
     else ret tt)
    (λ _e, ret tt).

(** Lines 215-248. *)
Definition downloadAndVerifyReleaseSync (release : LatestRelease) (assetName : string)
  : M LatestBinary :=
  match name release with
  | None => throw TypeError
  | Some name =>
      let (cacheDir, assetPath) := getCachePaths name assetName in
      Fs.mkdirSync cacheDir ;;
      match findAssetUrl (assets release) assetName with
      | None => throw (JsError ("Latest release does not contain asset " ++ assetName))
      | Some (url, digest) =>
          match digest_fields digest with
          | None => throw (JsError "Invalid digest in release asset")
          | Some (algo, hex) =>
              let* present := Fs.existsSync assetPath in
              if present then ret {| binary_tag := Some name; bin := assetPath |}
              else
                eagerAcquireLockAndDownload url assetPath algo hex ;;
                ensureExecutable assetPath ;;
                tryClearQuarantine assetPath ;;
                publish assetPath ;;
                ret {| binary_tag := Some name; bin := assetPath |}
          end
      end
  end.

(** The async function started, and not awaited, at lines 267-274. *)
Definition refresh (assetName : string) : M unit :=
  try_catch
    (let* latest := fetchLatest in
     downloadAndVerifyReleaseSync latest assetName ;;
     ret tt)
    (λ _e, ret tt).

(** Lines 250-278.  The value the returned promise fulfils with, and the task
    left running in the background, if any: the async function called and not
    awaited at lines 267-274 is represented by its whole body, to be run
    later. *)
Definition ensureLatestBinarySync : M (LatestBinary * option (M unit)) :=
  let* assetName := expectedAssetName in
  let* cached := findValidCachedReleaseSync in
  let cached_bin := JsString.truthy (bin <$> cached) in
  let* shouldUpdate :=
    if negb cached_bin then ret true else shouldCheckForUpdate in
  if negb cached_bin then
    setNextCheckTimeSync ;;
    let* releaseInfo :=
      try_catch fetchLatest
        (λ _e, throw (JsError
           "Unable to fetch latest release and no valid cached release found.")) in
    let* downloaded := downloadAndVerifyReleaseSync releaseInfo assetName in
    ret (downloaded, None)
  else if shouldUpdate then
    setNextCheckTimeSync ;;
    ret (default (Cached EmptyString) cached, Some (refresh assetName))
  else ret (default (Cached EmptyString) cached, None).
End WithEnv.

End Part002.

(** ** A concrete environment

    Used where a statement is evaluated on an input: an Adler-32 checksum as
    the digest algorithm, and [Date] restricted to the format that
    [toISOString] writes. *)

Module Fixture.

Definition hexDigit (n : Z) : ascii :=
  ascii_of_nat (Z.to_nat (if n <? 10 then 48 + n else 87 + n)).

Fixpoint hex (width : nat) (n : Z) : string :=
  match width with
  | O => EmptyString
  | S width' => hex width' (n / 16) ++ String (hexDigit (n mod 16)) EmptyString
  end.

Definition adler32 (data : list byte) : string :=
  let '(a, b) :=
    fold_left (λ '(a, b) c,
                 let a' := (a + Z.of_N (Byte.to_N c)) mod 65521 in
                 (a', (b + a') mod 65521))
              data (1, 0) in
  hex 8 (b * 65536 + a).

Fixpoint digits (width : nat) (n : Z) : string :=
  match width with
  | O => EmptyString
  | S width' => digits width' (n / 10) ++ String (hexDigit (n mod 10)) EmptyString
  end.

(** Days since 1970-01-01 to year, month, day of the proleptic Gregorian
    calendar, and back. *)
Definition civil_from_days (days : Z) : Z * Z * Z :=
  let z := days + 719468 in
  let era := z / 146097 in
  let doe := z - era * 146097 in
  let yoe := (doe - doe / 1460 + doe / 36524 - doe / 146096) / 365 in
  let doy := doe - (365 * yoe + yoe / 4 - yoe / 100) in
  let mp := (5 * doy + 2) / 153 in
  let d := doy - (153 * mp + 2) / 5 + 1 in
  let m := if mp <? 10 then mp + 3 else mp - 9 in
  let y := yoe + era * 400 + (if m <=? 2 then 1 else 0) in
  (y, m, d).

Definition days_from_civil (y m d : Z) : Z :=
  let y := if m <=? 2 then y - 1 else y in
  let era := y / 400 in
  let yoe := y - era * 400 in
  let doy := (153 * (if 2 <? m then m - 3 else m + 9) + 2) / 5 + d - 1 in
  let doe := yoe * 365 + yoe / 4 - yoe / 100 + doy in
  era * 146097 + doe - 719468.

Definition toISOString (t : Z) : string :=
  let '(y, m, d) := civil_from_days (t / 86400000) in
  let ms := t mod 86400000 in
  digits 4 y ++ "-" ++ digits 2 m ++ "-" ++ digits 2 d ++ "T"
    ++ digits 2 (ms / 3600000) ++ ":" ++ digits 2 (ms / 60000 mod 60) ++ ":"
    ++ digits 2 (ms / 1000 mod 60) ++ "." ++ digits 3 (ms mod 1000) ++ "Z".

Fixpoint number (s : string) (acc : Z) : option Z :=
  match s with
  | EmptyString => Some acc
  | String c s' =>
      let n := Z.of_nat (nat_of_ascii c) in
      if (48 <=? n) && (n <=? 57) then number s' (acc * 10 + (n - 48)) else None
  end.

Definition field (s : string) (start len : nat) : option Z :=
  number (String.substring start len s) 0.

Definition parse (s : string) : option Z :=
  if negb (String.length s =? 24)%nat then None
  else
    match field s 0 4, field s 5 2, field s 8 2, field s 11 2, field s 14 2,
          field s 17 2, field s 20 3 with
    | Some y, Some m, Some d, Some hh, Some mm, Some ss, Some ms =>
        if String.eqb (String.substring 4 1 s ++ String.substring 7 1 s
                         ++ String.substring 10 1 s ++ String.substring 13 1 s
                         ++ String.substring 16 1 s ++ String.substring 19 1 s
                         ++ String.substring 23 1 s) "--T::.Z"
           && (1 <=? m) && (m <=? 12) && (1 <=? d) && (d <=? 31)
           && (hh <=? 23) && (mm <=? 59) && (ss <=? 59)
        then Some (days_from_civil y m d * 86400000
                   + hh * 3600000 + mm * 60000 + ss * 1000 + ms)
        else None
    | _, _, _, _, _, _, _ => None
    end.

End Fixture.

(** ** Scenarios

    An installation under [/opt/sfw] on linux/x64 whose cache holds release
    v1; the release source offers v2, a five-byte binary. *)

Module Scenario.

Definition root : string := "/opt/sfw".
Definition asset : string := "sfw-free-linux-x86_64".
Definition v1_dir : string := "/opt/sfw/.sfw-cache/v1".
Definition v1_bin : string := "/opt/sfw/.sfw-cache/v1/sfw-free-linux-x86_64".
Definition v2_dir : string := "/opt/sfw/.sfw-cache/v2".
Definition v2_bin : string := "/opt/sfw/.sfw-cache/v2/sfw-free-linux-x86_64".
Definition latest : string := "/opt/sfw/.sfw-cache/latest".
Definition next_check : string := "/opt/sfw/.sfw-cache/next-check".
Definition v2_url : string := "https://downloads.example/v2/sfw-free-linux-x86_64".

Definition payload : list byte := list_byte_of_string "hello".
Definition payload_hex : string := Eval vm_compute in Fixture.adler32 payload.

(** 2026-11-02T00:00:00.123Z *)
Definition now : Z := 1793577600123.

Definition release_v2 (digest : string) : ReleaseJson :=
  {| json_tag_name := Some "v2";
     json_name := None;
     json_assets := Some [ {| asset_name := asset;
                              browser_download_url := v2_url;
                              digest := digest |} ] |}.

Definition ok (status : Z) (ticks : list tick) : reply :=
  Responds {| statusCode := Some status; location := None;
              body := ticks; ending := End |}.

(** The release source: the listing at either generation's address, and the
    binary, whole or from the offset of the Range header. *)
Definition server (binary : list tick) : string → gmap string string → reply :=
  λ url headers,
    if String.eqb url Github.LATEST_API || String.eqb url Part002.LATEST_API then
      ok 200 [Data (list_byte_of_string "v2")]
    else if String.eqb url v2_url then
      match headers !! "Range" with
      | Some "bytes=3-" => ok 206 [Data (drop 3 payload)]
      | _ => ok 200 binary
      end
    else ok 404 [].

Definition env (https : string → gmap string string → reply) (digest : string) : Env :=
  {| https_get := https;
     createHash := λ algorithm,
       if String.eqb algorithm "adler32" then Some Fixture.adler32 else None;
     plf_lock := λ _, Return tt;
     Date_now := now;
     Date_parse := Fixture.parse;
     Date_toISOString := Fixture.toISOString;
     JSON_parse := λ text,
       if String.eqb text "v2" then Some (release_v2 digest) else None;
     platform := "linux";
     arch := "x64";
     INSTALL_ROOT := root;
     PACKAGE_VERSION := "1.0.0" |}.

Definition in_two_chunks : list tick :=
  [Data (take 3 payload); Data (drop 3 payload)].

(** The usual environment: the binary arrives in two chunks and its digest is
    published as it is. *)
Definition E : Env := env (server in_two_chunks) ("adler32:" ++ payload_hex).

Definition world_of (fs : gmap string node) : world :=
  {| files := fs; fds := ∅; next_fd := 3; trace := [] |}.

(** A cache holding v1, with the deadline as given. *)
Definition cache_v1 (deadline : string) : gmap string node :=
  <[next_check := File (list_byte_of_string deadline)]>
  (<[latest := Symlink v1_bin]>
  (<[v1_bin := File (list_byte_of_string "old")]>
  (<[v1_dir := Directory]>
  (<["/opt/sfw/.sfw-cache" := Directory]> ∅)))).

Definition yesterday : string := "2026-11-01T00:00:00.000Z".
Definition tomorrow : string := "2026-11-03T00:00:00.000Z".

(** An interrupted download of v2 left the first three bytes behind. *)
Definition resuming : world :=
  world_of (<[v2_bin ++ ".dl" := File (take 3 payload)]>
           (<[v2_dir := Directory]> (cache_v1 yesterday))).

Definition whole (ticks : list tick) : IncomingMessage :=
  {| statusCode := Some 200; location := None; body := ticks; ending := End |}.

(** The published digest is not the digest of the binary. *)
Definition E_wrong_digest : Env := env (server in_two_chunks) "adler32:00000000".

(** The lock is compromised between the two chunks. *)
Definition interrupted : list tick :=
  [Data (take 3 payload); LockCompromised; Data (drop 3 payload)].

(** The release source never answers. *)
Definition E_stalled : Env := env (λ _ _, Silent) ("adler32:" ++ payload_hex).


Definition listed (digest : string) : LatestRelease :=
  {| tag := Some "v2"; name := Some "v2";
     assets := [ {| asset_name := asset; browser_download_url := v2_url;
                    digest := digest |} ] |}.

End Scenario.

(** ** Vocabulary of the statements *)

(** The text of the regular file that [path] leads to, if there is one. *)
Definition stored_text (path : string) (w : world) : option string :=
  match Fs.resolve (files w) path with
  | Some q =>
      match files w !! q with
      | Some (File content) => Some (string_of_list_byte content)
      | _ => None
      end
  | None => None
  end.

(** The events a computation adds to the trace. *)
Definition events_of {A} (m : M A) (w : world) : list event :=
  drop (List.length (trace w)) (trace (m w).2).

Definition is_request (e : event) : bool :=
  match e with
  | EvRequest _ _ => true
  | _ => false
  end.

Definition add_events (w : world) (evs : list event) : world :=
  World (files w) (fds w) (next_fd w) (trace w ++ evs).

(** [follows E headers n url final]: from [url], [n] responses in a row are
    redirects that the fetcher follows when it may (a 3xx status with a
    non-empty Location); the last one leads to [final]. *)
Inductive follows (E : Env) (headers : gmap string string)
  : nat → string → string → Prop :=
| follows_here (url : string) : follows E headers 0 url url
| follows_redirect (n : nat) (url next final : string) (res : IncomingMessage)
    (status : Z) :
    https_get E url headers = Responds res →
    statusCode res = Some status →
    Http.redirectTo status (location res) = Some next →
    follows E headers n next final →
    follows E headers (S n) url final.

(** The reply to a request for [url] is a redirect of that kind. *)
Definition redirects (E : Env) (headers : gmap string string) (url : string) : Prop :=
  ∃ res status next,
    https_get E url headers = Responds res
    ∧ statusCode res = Some status
    ∧ Http.redirectTo status (location res) = Some next.

(** The three causes of failure that section 4.1 of the specification names,
    read as the only ones: more redirects than the limit, a final status
    outside 2xx/3xx, a transport-level error. *)
Definition stated_failure (E : Env) (headers : gmap string string) (limit : nat)
    (url : string) : Prop :=
  (∃ final, follows E headers limit url final ∧ redirects E headers final)
  ∨ (∃ n final res status,
        (n ≤ limit)%nat ∧ follows E headers n url final
        ∧ https_get E final headers = Responds res
        ∧ statusCode res = Some status ∧ (status < 200 ∨ 400 ≤ status))
  ∨ (∃ n final e,
        (n ≤ limit)%nat ∧ follows E headers n url final
        ∧ https_get E final headers = Fails e).

(** A server that answers every request with 304 Not Modified. *)
Definition not_modified : string → gmap string string → reply :=
  λ _ _, Responds {| statusCode := Some 304; location := None;
                     body := []; ending := End |}.

(** The bytes that the 'data' listener writes: the chunks that arrive before
    the lock is compromised. *)
Fixpoint accepted (ticks : list tick) : list byte :=
  match ticks with
  | [] => []
  | Data chunk :: ticks' => chunk ++ accepted ticks'
  | LockCompromised :: _ => []
  end.

(** The writes of these chunks, at consecutive offsets from [offset]. *)
Fixpoint writes (path : string) (offset : nat) (ticks : list tick) : list event :=
  match ticks with
  | [] => []
  | Data chunk :: ticks' =>
      EvWrite path offset chunk :: writes path (offset + List.length chunk) ticks'
  | LockCompromised :: _ => []
  end.

(** The lock is compromised at some tick. *)
Fixpoint compromised (ticks : list tick) : bool :=
  match ticks with
  | [] => false
  | Data _ :: ticks' => compromised ticks'
  | LockCompromised :: _ => true
  end.

(** A chunk arrives while the lock is compromised. *)
Fixpoint refused (ticks : list tick) (aborted : bool) : bool :=
  match ticks with
  | [] => false
  | Data _ :: ticks' => aborted || refused ticks' aborted
  | LockCompromised :: ticks' => refused ticks' true
  end.

(** The world once the lock is held and the pending file is open: both
    generations start a download this way. *)
Definition opened (w : world) (destination : string) : world :=
  World (<[destination ++ ".dl" := File []]> (files w))
        (<[next_fd w := destination ++ ".dl"]> (fds w))
        (S (next_fd w))
        (trace w ++ [EvLock (destination ++ ".lock");
                     EvOpen (destination ++ ".dl") "w+"]).

(** At [path] there is a regular file or nothing. *)
Definition file_or_absent (w : world) (path : string) : Prop :=
  match files w !! path with
  | Some (File _) | None => True
  | Some _ => False
  end.

(** The [finally] block of [eagerAcquireLockAndDownload]. *)
Definition Resumable_cleanup (lockfile : string) (fd : nat) : M unit :=
  let* released := Util.swallowError (ret (Lockfile.release lockfile)) in
  Util.await released ;;
  Util.swallowError (Fs.closeSync fd) ;;
  ret tt.

(** How a download by [src/resumable.ts] ends, from the world [w1] in which
    the pending file is open (empty) under descriptor [fd]: [fetched] is the
    outcome of the range fetch and [requests] the requests it made. *)
Definition Resumable_settles (destination : string) (fd : nat) (f : list byte → string)
    (expectedDigestHex : string) (w1 : world)
    (fetched : outcome IncomingMessage) (requests : list event) : outcome unit * world :=
  let lockfile := destination ++ ".lock" in
  let pending_path := destination ++ ".dl" in
  match fetched with
  | Throw e =>
      (Throw e, World (files w1) (delete fd (fds w1)) (next_fd w1)
                      (trace w1 ++ requests ++ [EvRelease lockfile; EvClose fd]))
  | Pending => (Pending, add_events w1 requests)
  | Return res =>
      let content := accepted (body res) in
      let fs := <[pending_path := File content]> (files w1) in
      let tr : list event :=
        (trace w1 ++ requests ++ writes pending_path 0 (body res))%list in
      let failed (e : exn) :=
        (Throw e, World fs (delete fd (fds w1)) (next_fd w1)
                        (tr ++ [EvRelease lockfile; EvClose fd])) in
      if refused (body res) false then failed NoReason
      else
        match ending res with
        | StreamError e => failed e
        | Stalled => (Pending, World fs (fds w1) (next_fd w1) tr)
        | End =>
            if compromised (body res) then failed NoReason
            else if String.eqb (f content) expectedDigestHex then
              (Return tt,
               World (<[destination := File content]> (delete pending_path fs))
                     (delete fd (fds w1)) (next_fd w1)
                     (tr ++ [EvFsync pending_path; EvClose fd; EvRelease lockfile;
                             EvRename pending_path destination]))
            else
              (Throw (JsError "Downloaded file integrity check failed"),
               World (delete pending_path fs) (delete fd (fds w1)) (next_fd w1)
                     (tr ++ [EvFsync pending_path; EvUnlink pending_path;
                             EvRelease lockfile; EvClose fd]))
        end
  end.

(** The header object that the earlier downloader builds for offset 0. *)
Definition range_zero_only : gmap string string :=
  {[ "Range" := "bytes=" ++ pretty 0%nat ++ "-" ]}.

(** The headers of the range request that a download sends for offset 0. *)
Definition range_from_zero : gmap string string :=
  Http.request_headers
    {| Http.headers := Some (∅ ∪ {[ "Range" := "bytes=" ++ pretty 0%nat ++ "-" ]});
       Http.maxRedirects := None; Http.userAgent := None |}.

(** How a download by the earlier downloader (unnamed/part_001) ends, from the
    world [w1] in which the pending file is open (empty) under [fd], given the
    reply to its one request. *)
Definition Part001_settles (url destination : string) (fd : nat) (f : list byte → string)
    (expectedDigestHex : string) (w1 : world) (answer : reply) : outcome unit * world :=
  let lockfile := destination ++ ".lock" in
  let pending_path := destination ++ ".dl" in
  let request := EvRequest url range_zero_only in
  let handled (w' : world) :=
    (Return tt, World (files w') (delete fd (fds w')) (next_fd w')
                      (trace w' ++ [EvRelease lockfile; EvClose fd])) in
  match answer with
  | Fails _ => handled (add_events w1 [request])
  | Silent => (Pending, add_events w1 [request])
  | Responds res =>
      if Part001.status_rejected (statusCode res) then handled (add_events w1 [request])
      else
        let content := accepted (body res) in
        let fs := <[pending_path := File content]> (files w1) in
        let tr : list event :=
          (trace w1 ++ [request] ++ writes pending_path 0 (body res))%list in
        let w3 := World fs (fds w1) (next_fd w1) tr in
        if refused (body res) false then handled w3
        else
          match ending res with
          | End =>
              if compromised (body res) then handled w3
              else if String.eqb (f content) expectedDigestHex then
                (Return tt,
                 World fs (delete fd (fds w1)) (next_fd w1)
                       (tr ++ [EvRelease lockfile; EvFsync pending_path; EvClose fd]))
              else
                (Return tt,
                 World (delete pending_path fs) (delete fd (fds w1)) (next_fd w1)
                       (tr ++ [EvRelease lockfile; EvFsync pending_path;
                               EvUnlink pending_path; EvRelease lockfile; EvClose fd]))
          | StreamError _ => (Pending, w3)
          | Stalled => (Pending, w3)
          end
  end.



Definition is_removal (e : event) : bool :=
  match e with
  | EvRm _ => true
  | _ => false
  end.

(** The bytes of a response body: every chunk, in order. *)
Fixpoint payload_of (ticks : list tick) : list byte :=
  match ticks with
  | [] => []
  | Data chunk :: ticks' => chunk ++ payload_of ticks'
  | LockCompromised :: ticks' => payload_of ticks'
  end.

(** The header object of the release listing request of [github.ts]. *)
Definition listing_headers (E : Env) : gmap string string :=
  {[ "User-Agent" := Github.USER_AGENT E ]}.

(** The same for the earlier entry point. *)
Definition Part002_listing_headers (E : Env) : gmap string string :=
  {[ "User-Agent" := Part002.USER_AGENT E ]}.

(** ** Further scenarios *)

Module Cases.

(** The same installation on linux/arm64, for which nothing is published. *)
Definition E_arm64 : Env :=
  {| https_get := https_get Scenario.E;
     createHash := createHash Scenario.E;
     plf_lock := plf_lock Scenario.E;
     Date_now := Date_now Scenario.E;
     Date_parse := Date_parse Scenario.E;
     Date_toISOString := Date_toISOString Scenario.E;
     JSON_parse := JSON_parse Scenario.E;
     platform := "linux";
     arch := "arm64";
     INSTALL_ROOT := INSTALL_ROOT Scenario.E;
     PACKAGE_VERSION := PACKAGE_VERSION Scenario.E |}.

(** The release source answers every request with 304. *)
Definition E_not_modified : Env :=
  Scenario.env not_modified ("adler32:" ++ Scenario.payload_hex).

(** Nothing has been installed yet. *)
Definition fresh : world := Scenario.world_of ∅.

(** The binary of v1 open under descriptor 3. *)
Definition reading : world :=
  {| files := Scenario.cache_v1 Scenario.yesterday;
     fds := {[ 3%nat := Scenario.v1_bin ]};
     next_fd := 4;
     trace := [] |}.

(** The pending path of v2 is a directory. *)
Definition blocked : world :=
  Scenario.world_of (<[Scenario.v2_bin ++ ".dl" := Directory]>
                       (Scenario.cache_v1 Scenario.yesterday)).

(** The cache already holds the binary of v2. *)
Definition has_v2 : world :=
  Scenario.world_of (<[Scenario.v2_bin := File Scenario.payload]>
                    (<[Scenario.v2_dir := Directory]>
                       (Scenario.cache_v1 Scenario.yesterday))).

(** The cache of v1 once the directory of v2 has been made. *)
Definition v2_dir_made : world :=
  {| files := <[Scenario.v2_dir := Directory]> (Scenario.cache_v1 Scenario.yesterday);
     fds := ∅;
     next_fd := 3;
     trace := [EvMkdir Scenario.v2_dir] |}.

(** The binary answered with a redirect that carries no address. *)
Definition moved : string → gmap string string → reply :=
  λ _ _, Responds {| statusCode := Some 302; location := None;
                     body := []; ending := End |}.

End Cases.

(** The tests of [mapPlatform], [mapArch] and [expectedAssetName], case by
    case. *)
Ltac platform_cases E :=
  unfold Github.expectedAssetName, Part002.expectedAssetName,
    Github.mapPlatform, Github.mapArch, Part002.mapPlatform, Part002.mapArch;
  cbn zeta;
  let Hp := fresh "Hp" in
  let Ha := fresh "Ha" in
  destruct (String.eqb_spec (platform E) "darwin") as [Hp|?];
    [rewrite Hp|
     destruct (String.eqb_spec (platform E) "win32") as [Hp|?];
       [rewrite Hp|
        destruct (String.eqb_spec (platform E) "linux") as [Hp|?];
          [rewrite Hp|
           destruct (String.eqb_spec (platform E) "windows") as [Hp|?];
             [rewrite Hp|
              destruct (String.eqb_spec (platform E) "macos") as [Hp|?];
                [rewrite Hp|]]]]];
    (destruct (String.eqb_spec (arch E) "x64") as [Ha|?];
       [rewrite Ha|
        destruct (String.eqb_spec (arch E) "arm64") as [Ha|?];
          [rewrite Ha|
           destruct (String.eqb_spec (arch E) "x86_64") as [Ha|?];
             [rewrite Ha|]]]);
    cbn -[String.append];
    repeat match goal with
           | H : ?x ≠ ?y |- context [String.eqb ?x ?y] =>
               rewrite (proj2 (String.eqb_neq x y) H)
           end;
    cbn -[String.append].

(** * Properties *)

(** ** The runtime model *)

Example toISOString_epoch : Fixture.toISOString 0 = "1970-01-01T00:00:00.000Z".
Proof. reflexivity. Qed.

Example toISOString_2026 :
  Fixture.toISOString 1793577600123 = "2026-11-02T00:00:00.123Z".
Proof. vm_compute. reflexivity. Qed.

Example parse_toISOString :
  Fixture.parse (Fixture.toISOString 1793577600123) = Some 1793577600123.
Proof. vm_compute. reflexivity. Qed.

Example parse_garbage : Fixture.parse "soon" = None.
Proof. reflexivity. Qed.

Example dirname_binary :
  Path.dirname "/opt/sfw/.sfw-cache/v1/sfw-free-linux-x86_64" = "/opt/sfw/.sfw-cache/v1".
Proof. reflexivity. Qed.

Example dirname_root : Path.dirname "/etc" = "/".
Proof. reflexivity. Qed.

Example dirname_relative : Path.dirname "file" = ".".
Proof. reflexivity. Qed.

Example dirname_trailing : Path.dirname "/a/b/" = "/a".
Proof. reflexivity. Qed.

Example trim_example : JsString.trim "  sha256:AB  " = "sha256:AB".
Proof. reflexivity. Qed.

Example split_example : JsString.split ":"%char "a:b:c" = ["a"; "b"; "c"].
Proof. reflexivity. Qed.

Example split_example_whole : JsString.split ":"%char "abc" = ["abc"].
Proof. reflexivity. Qed.

Example digest_fields_example :
  digest_fields " SHA256:ABCdef " = Some ("sha256", "abcdef").
Proof. reflexivity. Qed.

(** ** The monad *)

Lemma bind_run {A B} (m : M A) (k : A → M B) (w : world) :
  bind m k w = match m w with
               | (Return a, w') => k a w'
               | (Throw e, w') => (Throw e, w')
               | (Pending, w') => (Pending, w')
               end.
Proof. reflexivity. Qed.

Lemma bind_Return {A B} (m : M A) (k : A → M B) (w w' : world) (a : A) :
  m w = (Return a, w') → bind m k w = k a w'.
Proof. intros H. unfold bind. now rewrite H. Qed.

Lemma bind_Throw {A B} (m : M A) (k : A → M B) (w w' : world) (e : exn) :
  m w = (Throw e, w') → bind m k w = (Throw e, w').
Proof. intros H. unfold bind. now rewrite H. Qed.

Lemma bind_Pending {A B} (m : M A) (k : A → M B) (w w' : world) :
  m w = (Pending, w') → bind m k w = (Pending, w').
Proof. intros H. unfold bind. now rewrite H. Qed.

Lemma try_catch_Return {A} (m : M A) (h : exn → M A) (w w' : world) (a : A) :
  m w = (Return a, w') → try_catch m h w = (Return a, w').
Proof. intros H. unfold try_catch. now rewrite H. Qed.

Lemma try_catch_Throw {A} (m : M A) (h : exn → M A) (w w' : world) (e : exn) :
  m w = (Throw e, w') → try_catch m h w = h e w'.
Proof. intros H. unfold try_catch. now rewrite H. Qed.

(** ** Reading the deadline *)

Lemma readFileSync_stored (p : string) (w : world) :
  match stored_text p w with
  | Some data => Fs.readFileSync p w = (Return data, w)
  | None => ∃ e, Fs.readFileSync p w = (Throw e, w)
  end.
Proof.
  unfold stored_text, Fs.readFileSync, bind, get_files.
  destruct (Fs.resolve (files w) p) as [q|]; [|eexists; reflexivity].
  destruct (files w !! q) as [[content| |]|]; first [reflexivity | eexists; reflexivity].
Qed.

Lemma shouldCheckForUpdate_run (E : Env) (w : world) :
  Cli.shouldCheckForUpdate E w =
  (Return match stored_text (Cli.NEXT_CHECK_PATH E) w with
          | Some data =>
              match Date_parse E (JsString.trim data) with
              | Some nextCheck => Date_now E >? nextCheck
              | None => true
              end
          | None => true
          end, w).
Proof.
  unfold Cli.shouldCheckForUpdate.
  pose proof (readFileSync_stored (Cli.NEXT_CHECK_PATH E) w) as Hread.
  destruct (stored_text (Cli.NEXT_CHECK_PATH E) w) as [data|].
  - unfold try_catch, bind. rewrite Hread.
    destruct (Date_parse E (JsString.trim data)); reflexivity.
  - destruct Hread as [e He]. unfold try_catch, bind. now rewrite He.
Qed.

Lemma Part002_shouldCheckForUpdate_eq (E : Env) :
  Part002.shouldCheckForUpdate E = Cli.shouldCheckForUpdate E.
Proof. reflexivity. Qed.

(** C10. The deadline counts as reached exactly when the current time is
    strictly greater than the timestamp parsed from the next-check file, or
    that file is missing or unreadable, or its text does not parse as a date.
    The check always returns (it never throws) and changes nothing; both
    generations of the entry point agree. *)
Theorem C10_deadline_reached_iff (E : Env) (w : world) :
  ∃ reached : bool,
    Cli.shouldCheckForUpdate E w = (Return reached, w) ∧
    Part002.shouldCheckForUpdate E w = (Return reached, w) ∧
    (reached = true ↔
       stored_text (Cli.NEXT_CHECK_PATH E) w = None
       ∨ (∃ data, stored_text (Cli.NEXT_CHECK_PATH E) w = Some data
                  ∧ Date_parse E (JsString.trim data) = None)
       ∨ (∃ data nextCheck,
             stored_text (Cli.NEXT_CHECK_PATH E) w = Some data
             ∧ Date_parse E (JsString.trim data) = Some nextCheck
             ∧ Date_now E > nextCheck)).
Proof.
  eexists. change (Part002.shouldCheckForUpdate E) with (Cli.shouldCheckForUpdate E).
  rewrite shouldCheckForUpdate_run.
  split; [reflexivity|]. split; [reflexivity|].
  destruct (stored_text (Cli.NEXT_CHECK_PATH E) w) as [data|].
  - destruct (Date_parse E (JsString.trim data)) as [t|] eqn:Hparse.
    + split.
      * intros Hgt. right. right. exists data, t.
        apply Z.gtb_lt in Hgt. repeat split; [assumption | lia].
      * intros [Hnone | [(d & Hd & Hp) | (d & t' & Hd & Hp & Hgt)]].
        -- discriminate.
        -- congruence.
        -- assert (t' = t) by congruence. subst. apply Z.gtb_lt. lia.
    + split; [|reflexivity]. intros _. right. left. now exists data.
  - split; [|reflexivity]. intros _. now left.
Qed.

(** ** Parsing the digest *)

Lemma append_cons (a : ascii) (s t : string) : String a s ++ t = String a (s ++ t).
Proof. reflexivity. Qed.


Lemma truthy_Some (s : string) : JsString.truthy (Some s) = true ↔ s ≠ EmptyString.
Proof.
  unfold JsString.truthy. destruct (String.eqb_spec s EmptyString); simpl; split;
    congruence.
Qed.







Lemma mkdirSync_trace (p : string) (w w' : world) (o : outcome unit) :
  Fs.mkdirSync p w = (o, w') →
  trace w' = trace w ∨ trace w' = (trace w ++ [EvMkdir p])%list.
Proof.
  unfold Fs.mkdirSync, bind, get_files, put_files, emit, ret, throw.
  destruct (files w !! p) as [[| |]|]; intros H; injection H as <- <-; simpl; auto.
Qed.


(** ** The HTTP fetcher *)

Lemma add_events_nil (w : world) : add_events w [] = w.
Proof. destruct w. unfold add_events. simpl. now rewrite app_nil_r. Qed.

Lemma add_events_app (w : world) (evs evs' : list event) :
  add_events (add_events w evs) evs' = add_events w (evs ++ evs').
Proof. unfold add_events. simpl. now rewrite app_assoc. Qed.

Lemma emit_run (e : event) (w : world) : emit e w = (Return tt, add_events w [e]).
Proof. reflexivity. Qed.

Lemma events_of_add {A} (m : M A) (w : world) (evs : list event) :
  (m w).2 = add_events w evs → events_of m w = evs.
Proof.
  intros H. unfold events_of. rewrite H. simpl. now rewrite drop_app_length.
Qed.

Lemma redirectTo_Some (status : Z) (location : option string) (next : string) :
  Http.redirectTo status location = Some next →
  300 ≤ status < 400 ∧ location = Some next ∧ next ≠ EmptyString.
Proof.
  unfold Http.redirectTo.
  destruct (300 <=? status) eqn:H1; simpl; [|discriminate].
  destruct (status <? 400) eqn:H2; simpl; [|discriminate].
  destruct (JsString.truthy location) eqn:H3; [|discriminate].
  intros ->. apply truthy_Some in H3. repeat split; [lia | lia | assumption].
Qed.

(** What the fetcher makes of the reply at which it stops following. *)
Lemma httpsGet_with_run (E : Env) (options : Http.HttpGetOptions) (limit : nat) :
  ∀ (url : string) (w : world),
  ∃ (n : nat) (final : string) (requests : list event),
    (n ≤ limit)%nat
    ∧ follows E (Http.request_headers options) n url final
    ∧ (redirects E (Http.request_headers options) final → n = limit)
    ∧ (Http.httpsGet_with E limit url options w).2 = add_events w requests
    ∧ List.length requests = S n
    ∧ head requests = Some (EvRequest url (Http.request_headers options))
    ∧ Forall (λ e, ∃ u, e = EvRequest u (Http.request_headers options)) requests
    ∧ (Http.httpsGet_with E limit url options w).1 =
      match https_get E final (Http.request_headers options) with
      | Fails e => Throw e
      | Silent => Pending
      | Responds res =>
          match statusCode res with
          | None => Throw (JsError ("GET " ++ final ++ " failed with no status code"))
          | Some status =>
              if (status <? 200) || (300 <=? status)
              then Throw (JsError ("GET " ++ final ++ " failed with " ++ pretty status))
              else Return res
          end
      end.
Proof.
  set (hs := Http.request_headers options).
  assert (∀ url w, ¬ (∃ res status next, https_get E url hs = Responds res
                      ∧ statusCode res = Some status
                      ∧ Http.redirectTo status (location res) = Some next) →
          ∀ k, Http.httpsGet_with E k url options w =
               (match https_get E url hs with
                | Fails e => Throw e
                | Silent => Pending
                | Responds res =>
                    match statusCode res with
                    | None => Throw (JsError ("GET " ++ url ++ " failed with no status code"))
                    | Some status =>
                        if (status <? 200) || (300 <=? status)
                        then Throw (JsError ("GET " ++ url ++ " failed with " ++ pretty status))
                        else Return res
                    end
                end, add_events w [EvRequest url hs])) as Hstop.
  { intros url w Hno k. destruct k; simpl; rewrite bind_run, emit_run; fold hs;
      destruct (https_get E url hs) as [res| |] eqn:Hreply; try reflexivity;
      destruct (statusCode res) as [status|] eqn:Hstatus; try reflexivity;
      destruct (Http.redirectTo status (location res)) as [next|] eqn:Hto;
      try (exfalso; apply Hno; eauto 6; fail);
      unfold throw, ret; destruct ((status <? 200) || (300 <=? status)); reflexivity. }
  induction limit as [|limit IH]; intros url w.
  - exists 0%nat, url, [EvRequest url hs].
    split; [lia|]. split; [constructor|]. split; [reflexivity|].
    destruct (https_get E url hs) as [res| |] eqn:Hreply;
      simpl; rewrite bind_run, emit_run; fold hs; rewrite Hreply;
      try (repeat split; [repeat constructor; eauto]).
    destruct (statusCode res) as [status|] eqn:Hstatus;
      [|repeat split; repeat constructor; eauto].
    destruct (Http.redirectTo status (location res));
      unfold throw, ret; destruct ((status <? 200) || (300 <=? status));
      repeat split; repeat constructor; eauto.
  - destruct (https_get E url hs) as [res| |] eqn:Hreply.
    2,3: exists 0%nat, url, [EvRequest url hs];
         (split; [lia|]); (split; [constructor|]);
         (split; [intros (r & s & n & Hr & _); congruence|]);
         simpl; rewrite bind_run, emit_run; fold hs; rewrite Hreply;
         repeat split; repeat constructor; eauto.
    destruct (statusCode res) as [status|] eqn:Hstatus.
    2: { exists 0%nat, url, [EvRequest url hs].
         split; [lia|]. split; [constructor|].
         split; [intros (r & s & n & Hr & Hs & _); congruence|].
         simpl; rewrite bind_run, emit_run; fold hs; rewrite Hreply, Hstatus.
         repeat split; repeat constructor; eauto. }
    destruct (Http.redirectTo status (location res)) as [next|] eqn:Hto.
    + destruct (IH next (add_events w [EvRequest url hs]))
        as (n & final & reqs & Hle & Hfol & Hlim & Hw & Hlen & _ & Hreqs & Hout).
      exists (S n), final, (EvRequest url hs :: reqs).
      split; [lia|]. split; [econstructor; eauto|].
      split; [intros H; f_equal; auto|].
      simpl. rewrite bind_run, emit_run. fold hs. rewrite Hreply, Hstatus, Hto.
      rewrite Hw, Hout, add_events_app. simpl.
      repeat split; [now rewrite Hlen|]. constructor; eauto.
    + exists 0%nat, url, [EvRequest url hs].
      split; [lia|]. split; [constructor|].
      split; [intros (r & s & n & Hr & Hs & Hn); congruence|].
      rewrite Hstop.
      * rewrite Hreply, Hstatus. repeat split; repeat constructor; eauto.
      * intros (r & s & n & Hr & Hs & Hn). congruence.
Qed.

Lemma httpsGet_with_success (E : Env) (options : Http.HttpGetOptions) (limit : nat)
    (url : string) (w : world) (res : IncomingMessage) (status : Z) :
  https_get E url (Http.request_headers options) = Responds res →
  statusCode res = Some status →
  200 ≤ status < 300 →
  Http.httpsGet_with E limit url options w
  = (Return res, add_events w [EvRequest url (Http.request_headers options)]).
Proof.
  intros Hreply Hstatus Hrange.
  assert (Http.redirectTo status (location res) = None) as Hto.
  { unfold Http.redirectTo. destruct (300 <=? status) eqn:H; [lia|reflexivity]. }
  assert ((status <? 200) || (300 <=? status) = false) as Hok.
  { apply orb_false_iff. split; [apply Z.ltb_ge | apply Z.leb_gt]; lia. }
  destruct limit; simpl; rewrite bind_run, emit_run, Hreply, Hstatus, Hto, Hok;
    reflexivity.
Qed.

Lemma Part002_get_eq (E : Env) (headers : gmap string string) (limit : nat) :
  ∀ url w, Part002.get E url headers limit w
           = Http.httpsGet_with E limit url
               {| Http.headers := Some headers; Http.maxRedirects := None;
                  Http.userAgent := Some (Part002.USER_AGENT E) |} w.
Proof.
  induction limit as [|limit IH]; intros url w; simpl.
  - reflexivity.
  - rewrite !bind_run, !emit_run. unfold Http.request_headers. simpl.
    destruct (https_get E url _) as [res| |]; try reflexivity.
    destruct (statusCode res) as [status|]; try reflexivity.
    destruct (Http.redirectTo status (location res)); try reflexivity.
    apply IH.
Qed.

(** C8, as the code has it.  The fetcher follows at most [limit] redirects
    (5 unless the caller says otherwise): it makes n + 1 requests, n ≤ limit,
    each of the first n answered by a 3xx status with a non-empty Location,
    and settles on the reply to the last one, which is such a redirect only
    when the limit is used up.  It fails exactly when that last request fails
    at the transport level or its response carries no status or a status
    outside 200..299 (so also on a 3xx that has no Location or that comes
    after the limit), and fulfils with the response exactly when the status is
    in 200..299.  The byte-range variant is the same fetch with the header
    Range: bytes=<offset>- added to the caller's headers, unless these have a
    Range of their own; 200 and 206 both fulfil.  The earlier [get] is the
    same function, and the earlier downloader's own status test lets 200 and
    206 pass. *)
Theorem C8_fetch_fails_iff (E : Env) (url : string) (options : Http.HttpGetOptions)
    (w : world) :
  let limit := default 5%nat (Http.maxRedirects options) in
  let headers := Http.request_headers options in
  let out := (Http.httpsGet E url options w).1 in
  (∃ (n : nat) (final : string),
      (n ≤ limit)%nat
      ∧ follows E headers n url final
      ∧ List.length (events_of (Http.httpsGet E url options) w) = S n
      ∧ (redirects E headers final → n = limit)
      ∧ ((∃ e, out = Throw e) ↔
           (∃ e, https_get E final headers = Fails e)
           ∨ (∃ res, https_get E final headers = Responds res
                     ∧ (statusCode res = None
                        ∨ ∃ status, statusCode res = Some status
                                    ∧ (status < 200 ∨ 300 ≤ status))))
      ∧ (∀ res, out = Return res ↔
           https_get E final headers = Responds res
           ∧ ∃ status, statusCode res = Some status ∧ 200 ≤ status < 300))
  ∧ (∀ (offset : nat),
       let ranged := {| Http.headers :=
                          Some (default ∅ (Http.headers options)
                                ∪ {[ "Range" := "bytes=" ++ pretty offset ++ "-" ]});
                        Http.maxRedirects := Http.maxRedirects options;
                        Http.userAgent := Http.userAgent options |} in
       Http.httpsGetWithRange E url offset options = Http.httpsGet E url ranged
       ∧ (default ∅ (Http.headers options) !! "Range" = None →
          Http.request_headers ranged !! "Range"
          = Some ("bytes=" ++ pretty offset ++ "-"))
       ∧ (∀ res status,
            https_get E url (Http.request_headers ranged) = Responds res →
            statusCode res = Some status →
            status = 200 ∨ status = 206 →
            (Http.httpsGetWithRange E url offset options w).1 = Return res))
  ∧ (∀ hs w0, Part002.get E url hs 5 w0
              = Http.httpsGet E url
                  {| Http.headers := Some hs; Http.maxRedirects := None;
                     Http.userAgent := Some (Part002.USER_AGENT E) |} w0)
  ∧ Part001.status_rejected (Some 200) = false
  ∧ Part001.status_rejected (Some 206) = false.
Proof.
  intros limit headers out. split; [|split; [|split]].
  - destruct (httpsGet_with_run E options limit url w)
      as (n & final & reqs & Hle & Hfol & Hlim & Hw & Hlen & _ & _ & Hout).
    fold headers in Hfol, Hlim, Hout.
    exists n, final. split; [exact Hle|]. split; [exact Hfol|].
    change (Http.httpsGet E url options) with (Http.httpsGet_with E limit url options)
      in out |- *.
    split; [rewrite (events_of_add _ _ _ Hw); exact Hlen|].
    split; [exact Hlim|].
    subst out. rewrite Hout. clear Hout.
    destruct (https_get E final headers) as [res| |] eqn:Hreply.
    + destruct (statusCode res) as [status|] eqn:Hstatus.
      * destruct ((status <? 200) || (300 <=? status)) eqn:Hbad.
        -- assert (status < 200 ∨ 300 ≤ status) as Hout.
           { apply orb_true_iff in Hbad as [H|H];
               [apply Z.ltb_lt in H | apply Z.leb_le in H]; lia. }
           split.
           ++ split; [intros _|eauto]. right. exists res. split; [reflexivity|].
              right. exists status. split; assumption.
           ++ intros res'. split; [discriminate|].
              intros (Hr & s & Hs & Hrange). injection Hr as <-.
              assert (s = status) by congruence. subst s. lia.
        -- apply orb_false_iff in Hbad as [H1 H2].
           apply Z.ltb_ge in H1. apply Z.leb_gt in H2. split.
           ++ split; [intros [e He]; discriminate|].
              intros [[e He] | (r & Hr & [Hnone | (s & Hs & Hrange)])]; try discriminate.
              ** injection Hr as <-. congruence.
              ** injection Hr as <-. assert (s = status) by congruence. lia.
           ++ intros res'. split.
              ** intros H. injection H as <-. split; [reflexivity|].
                 exists status. split; [assumption|lia].
              ** intros (Hr & _). now injection Hr as <-.
      * split.
        -- split; [intros _|eauto]. right. exists res. split; [reflexivity|]. now left.
        -- intros res'. split; [discriminate|].
           intros (Hr & s & Hs & _). injection Hr as <-. congruence.
    + split.
      * split; [intros _; left; eauto | eauto].
      * intros res'. split; [discriminate|]. intros (Hr & _). discriminate.
    + split.
      * split; [intros [e He]; discriminate|].
        intros [[e He] | (r & Hr & _)]; discriminate.
      * intros res'. split; [discriminate|]. intros (Hr & _). discriminate.
  - intros offset ranged. split; [reflexivity|]. split.
    + intros Hnone. unfold Http.request_headers, ranged. simpl.
      apply lookup_union_Some_raw. left.
      apply lookup_union_Some_raw. right. split; [exact Hnone|].
      apply lookup_singleton_eq.
    + intros res status Hreply Hstatus Hok.
      change (Http.httpsGetWithRange E url offset options)
        with (Http.httpsGet E url ranged).
      unfold Http.httpsGet.
      rewrite (httpsGet_with_success E ranged _ url w res status Hreply Hstatus);
        [reflexivity | lia].
  - intros hs w0. apply Part002_get_eq.
  - split; reflexivity.
Qed.

(** C8 as stated is refuted by a 304 without Location: the fetch fails,
    although no redirect was followed, the status is inside 2xx/3xx, and the
    transport delivered the response. *)
Lemma C8_fails_on_304_without_Location :
  let E := Scenario.env not_modified "adler32:00000001" in
  (Http.httpsGet E "https://example.test/a" Http.no_options (Scenario.world_of ∅)).1
    = Throw (JsError "GET https://example.test/a failed with 304")
  ∧ ¬ stated_failure E (Http.request_headers Http.no_options) 5 "https://example.test/a".
Proof.
  intros E. split; [vm_compute; reflexivity|].
  assert (∀ n url final, follows E (Http.request_headers Http.no_options) n url final →
                         n = 0%nat) as Hnone.
  { intros n url final H. destruct H as [|n u next fin res status Hr Hs Hto _];
      [reflexivity|].
    simpl in Hr. injection Hr as <-. simpl in Hs. injection Hs as <-. discriminate. }
  intros [(final & Hfol & _) | [(n & final & res & status & _ & _ & Hr & Hs & Hrange)
                               | (n & final & e & _ & _ & Hr)]].
  - apply Hnone in Hfol. discriminate.
  - simpl in Hr. injection Hr as <-. simpl in Hs. injection Hs as <-. lia.
  - discriminate.
Qed.

(** ** The scheduler with a valid cache *)

Lemma follow_fixed (fs : gmap string node) (fuel : nat) :
  ∀ p q, Fs.follow fuel fs p = Some q → ∀ fuel', Fs.follow fuel' fs q = Some q.
Proof.
  induction fuel as [|fuel IH]; intros p q; simpl.
  - destruct (fs !! p) as [[| |]|] eqn:Hp; intros H; try discriminate;
      injection H as <-; intros []; simpl; rewrite Hp; reflexivity.
  - destruct (fs !! p) as [[|target|]|] eqn:Hp; intros H;
      try (injection H as <-; intros []; simpl; rewrite Hp; reflexivity).
    eapply IH, H.
Qed.

Lemma existsSync_run (p : string) (w : world) :
  Fs.existsSync p w
  = (Return match Fs.resolve (files w) p with
            | Some q => bool_decide (is_Some (files w !! q))
            | None => false
            end, w).
Proof. reflexivity. Qed.

Lemma findValidCachedReleaseSync_valid (E : Env) (w : world) (binPath : string) :
  Fs.resolve (files w) (Cli.LATEST_SYMLINK_PATH E) = Some binPath →
  is_Some (files w !! binPath) →
  Cli.findValidCachedReleaseSync E w = (Return (Some binPath), w).
Proof.
  intros Hres Hbin. unfold Cli.findValidCachedReleaseSync.
  apply try_catch_Return.
  assert (Fs.realpathSync (Cli.LATEST_SYMLINK_PATH E) w = (Return binPath, w)) as Hreal.
  { unfold Fs.realpathSync, bind, get_files.
    now rewrite Hres, (bool_decide_eq_true_2 _ Hbin). }
  assert (Fs.existsSync binPath w = (Return true, w)) as Hexists.
  { rewrite existsSync_run. unfold Fs.resolve in *.
    now rewrite (follow_fixed _ _ _ _ Hres), (bool_decide_eq_true_2 _ Hbin). }
  rewrite bind_run, existsSync_run, Hres, (bool_decide_eq_true_2 _ Hbin).
  rewrite (bind_Return _ _ _ _ _ Hreal), (bind_Return _ _ _ _ _ Hexists).
  reflexivity.
Qed.

Lemma Part002_findValidCachedReleaseSync_valid (E : Env) (w : world) (binPath : string) :
  Fs.resolve (files w) (Cli.LATEST_SYMLINK_PATH E) = Some binPath →
  is_Some (files w !! binPath) →
  Part002.findValidCachedReleaseSync E w = (Return (Some (Part002.Cached binPath)), w).
Proof.
  intros Hres Hbin. unfold Part002.findValidCachedReleaseSync.
  change (Part002.getLatestSymlinkPath E) with (Cli.LATEST_SYMLINK_PATH E).
  apply try_catch_Return.
  assert (Fs.realpathSync (Cli.LATEST_SYMLINK_PATH E) w = (Return binPath, w)) as Hreal.
  { unfold Fs.realpathSync, bind, get_files.
    now rewrite Hres, (bool_decide_eq_true_2 _ Hbin). }
  assert (Fs.existsSync binPath w = (Return true, w)) as Hexists.
  { rewrite existsSync_run. unfold Fs.resolve in *.
    now rewrite (follow_fixed _ _ _ _ Hres), (bool_decide_eq_true_2 _ Hbin). }
  rewrite bind_run, existsSync_run, Hres, (bool_decide_eq_true_2 _ Hbin).
  rewrite (bind_Return _ _ _ _ _ Hreal), (bind_Return _ _ _ _ _ Hexists).
  reflexivity.
Qed.

(** Both generations publish for the same platforms. *)
Lemma expectedAssetName_both (E : Env) (w : world) (assetName : string) :
  Github.expectedAssetName E w = (Return assetName, w) →
  ∃ assetName', Part002.expectedAssetName E w = (Return assetName', w).
Proof.
  unfold Github.expectedAssetName, Part002.expectedAssetName.
  change (Part002.mapPlatform E) with (Github.mapPlatform E).
  change (Part002.mapArch E) with (Github.mapArch E).
  destruct (String.eqb (Github.mapPlatform E) "windows" && String.eqb (Github.mapArch E) "x86_64");
    [eauto|].
  destruct (String.eqb (Github.mapPlatform E) "macos"
            && (String.eqb (Github.mapArch E) "arm64" || String.eqb (Github.mapArch E) "x86_64"));
    [eauto|].
  destruct (String.eqb (Github.mapPlatform E) "linux" && String.eqb (Github.mapArch E) "x86_64");
    [eauto|].
  discriminate.
Qed.

(** C6. With a valid cached entry (the latest pointer leads to a file that
    exists) and the stored deadline not yet reached (it parses and the current
    time is not past it), [ensureLatestBinary] returns the cached path at
    once and leaves the world as it was: nothing is requested, written or
    locked.  Both generations; the platform is one with a published asset. *)
Theorem C6_cached_before_deadline
    (E : Env) (download : string → string → string → string → M unit)
    (w : world) (assetName binPath data : string) (deadline : Z) :
  Github.expectedAssetName E w = (Return assetName, w) →
  Fs.resolve (files w) (Cli.LATEST_SYMLINK_PATH E) = Some binPath →
  is_Some (files w !! binPath) →
  binPath ≠ EmptyString →
  stored_text (Cli.NEXT_CHECK_PATH E) w = Some data →
  Date_parse E (JsString.trim data) = Some deadline →
  Date_now E ≤ deadline →
  Cli.ensureLatestBinary E w
    = (Return {| binary_tag := Some "cached"; bin := binPath |}, w)
  ∧ Part002.ensureLatestBinarySync E download w
    = (Return (Part002.Cached binPath, None), w)
  ∧ events_of (Cli.ensureLatestBinary E) w = []
  ∧ events_of (Part002.ensureLatestBinarySync E download) w = [].
Proof.
  intros Hasset Hres Hbin Hpath Hdata Hparse Hnow.
  assert (Cli.shouldCheckForUpdate E w = (Return false, w)) as Hcheck.
  { rewrite shouldCheckForUpdate_run, Hdata, Hparse.
    do 2 f_equal. rewrite Z.gtb_ltb. apply Z.ltb_ge. lia. }
  assert (JsString.truthy (Some binPath) = true) as Htruthy by now apply truthy_Some.
  assert (Cli.ensureLatestBinary E w
          = (Return {| binary_tag := Some "cached"; bin := binPath |}, w)) as H1.
  { unfold Cli.ensureLatestBinary.
    rewrite (bind_Return _ _ _ _ _ Hasset).
    rewrite (bind_Return _ _ _ _ _ (findValidCachedReleaseSync_valid E w binPath Hres Hbin)).
    rewrite Htruthy. simpl negb. cbv iota.
    rewrite (bind_Return _ _ _ _ _ Hcheck). reflexivity. }
  assert (Part002.ensureLatestBinarySync E download w
          = (Return (Part002.Cached binPath, None), w)) as H2.
  { unfold Part002.ensureLatestBinarySync.
    destruct (expectedAssetName_both E w assetName Hasset) as [a' Ha'].
    rewrite (bind_Return _ _ _ _ _ Ha').
    rewrite (bind_Return _ _ _ _ _
               (Part002_findValidCachedReleaseSync_valid E w binPath Hres Hbin)).
    cbn [fmap option_fmap option_map Part002.Cached bin].
    rewrite Htruthy. simpl negb. cbv iota.
    change (Part002.shouldCheckForUpdate E) with (Cli.shouldCheckForUpdate E).
    rewrite (bind_Return _ _ _ _ _ Hcheck). reflexivity. }
  split; [exact H1|]. split; [exact H2|].
  unfold events_of. rewrite H1, H2. simpl. rewrite drop_all. split; reflexivity.
Qed.

(** ** The pending file *)

Lemma write_at_end (content chunk : list byte) :
  Fs.write_at content (List.length content) chunk = (content ++ chunk)%list.
Proof.
  unfold Fs.write_at.
  rewrite take_ge, Nat.sub_diag, drop_ge by lia. simpl. now rewrite app_nil_r.
Qed.

Lemma fd_file_run (fd : nat) (path : string) (content : list byte) (w : world) :
  fds w !! fd = Some path →
  files w !! path = Some (File content) →
  Fs.fd_file fd w = (Return (path, content), w).
Proof. intros Hfd Hfile. unfold Fs.fd_file. now rewrite Hfd, Hfile. Qed.

Lemma writeSync_end (fd : nat) (path : string) (content chunk : list byte) (w : world) :
  fds w !! fd = Some path →
  files w !! path = Some (File content) →
  Fs.writeSync fd chunk (List.length content) w
  = (Return (List.length chunk),
     World (<[path := File (content ++ chunk)]> (files w)) (fds w) (next_fd w)
           (trace w ++ [EvWrite path (List.length content) chunk])).
Proof.
  intros Hfd Hfile. unfold Fs.writeSync.
  rewrite (bind_Return _ _ _ _ _ (fd_file_run _ _ _ _ Hfd Hfile)).
  rewrite write_at_end. reflexivity.
Qed.

Lemma in_listener_Return {A} (m : M A) (w w' : world) (a : A) :
  m w = (Return a, w') → in_listener m w = (Return a, w').
Proof. intros H. unfold in_listener. now rewrite H. Qed.

(** Once the lock is compromised the 'data' listener writes nothing. *)
Lemma saveToDisk_data_aborted (ticks : list tick) (fd offset : nat) :
  ∀ (rejected : bool) (w : world),
    Resumable.saveToDisk_data ticks fd offset true rejected w
    = (Return (true, rejected || refused ticks true), w).
Proof.
  induction ticks as [|[chunk|] ticks IH]; intros rejected w; simpl.
  - now rewrite orb_false_r.
  - rewrite IH. now destruct rejected.
  - apply IH.
Qed.

Lemma saveToDisk_data_run (ticks : list tick) (fd : nat) (path : string) :
  ∀ (content : list byte) (rejected : bool) (w : world),
    fds w !! fd = Some path →
    files w !! path = Some (File content) →
    Resumable.saveToDisk_data ticks fd (List.length content) false rejected w
    = (Return (compromised ticks, rejected || refused ticks false),
       World (<[path := File (content ++ accepted ticks)]> (files w)) (fds w) (next_fd w)
             (trace w ++ writes path (List.length content) ticks)).
Proof.
  induction ticks as [|[chunk|] ticks IH]; intros content rejected w Hfd Hfile; simpl.
  - rewrite !app_nil_r, orb_false_r, (insert_id _ _ _ Hfile). now destruct w.
  - rewrite bind_run, (in_listener_Return _ _ _ _ (writeSync_end _ _ _ _ _ Hfd Hfile)).
    replace (List.length content + List.length chunk)%nat
      with (List.length (content ++ chunk)) by (rewrite length_app; lia).
    rewrite (IH (content ++ chunk)%list); simpl.
    + rewrite insert_insert_eq, <- !app_assoc. simpl. reflexivity.
    + exact Hfd.
    + apply lookup_insert_eq.
  - rewrite saveToDisk_data_aborted, !app_nil_r, (insert_id _ _ _ Hfile).
    now destruct w.
Qed.

Lemma Part001_on_data_eq :
  Part001.on_data = Resumable.saveToDisk_data.
Proof. reflexivity. Qed.

Lemma Part001_digest_loop_eq :
  Part001.digest_loop = Resumable.checkIntegrity_loop.
Proof. reflexivity. Qed.

(** ** The integrity check reads the whole file *)

Lemma buffer_length_pos : (0 < Resumable.buffer_length)%nat.
Proof. unfold Resumable.buffer_length. lia. Qed.

Lemma checkIntegrity_loop_S (fuel fd : nat) (hash : Hash) (position : nat) :
  Resumable.checkIntegrity_loop (S fuel) fd hash position
  = (let* buffer := Fs.readSync fd Resumable.buffer_length position in
     let bytesRead := List.length buffer in
     if (0 <? bytesRead)%nat then
       Resumable.checkIntegrity_loop fuel fd (Hash_update hash buffer)
         (position + bytesRead)
     else ret hash).
Proof. reflexivity. Qed.

Lemma readSync_run (fd len position : nat) (path : string) (content : list byte)
    (w : world) :
  fds w !! fd = Some path →
  files w !! path = Some (File content) →
  Fs.readSync fd len position w = (Return (take len (drop position content)), w).
Proof.
  intros Hfd Hfile. unfold Fs.readSync.
  now rewrite (bind_Return _ _ _ _ _ (fd_file_run _ _ _ _ Hfd Hfile)).
Qed.

Lemma take_drop_length {A} (n : nat) (l : list A) :
  (take n l ++ drop (List.length (take n l)) l)%list = l.
Proof.
  rewrite length_take. destruct (Nat.le_ge_cases n (List.length l)).
  - rewrite Nat.min_l by lia. apply take_drop.
  - rewrite Nat.min_r, take_ge, drop_all by lia. apply app_nil_r.
Qed.

(** With more fuel than bytes left, the loop feeds the hash everything from
    [position] to the end of the file. *)
Lemma checkIntegrity_loop_run (fd : nat) (path : string) (content : list byte)
    (w : world) :
  fds w !! fd = Some path →
  files w !! path = Some (File content) →
  ∀ (fuel : nat) (hash : Hash) (position : nat),
    (List.length content - position < fuel)%nat →
    Resumable.checkIntegrity_loop fuel fd hash position w
    = (Return {| hex_of := hex_of hash; fed := fed hash ++ drop position content |}, w).
Proof.
  intros Hfd Hfile. induction fuel as [|fuel IH]; intros hash position Hfuel; [lia|].
  rewrite checkIntegrity_loop_S.
  rewrite (bind_Return _ _ _ _ _ (readSync_run _ _ _ _ _ _ Hfd Hfile)).
  cbv zeta.
  pose proof buffer_length_pos as HB.
  set (B := Resumable.buffer_length) in *. clearbody B.
  set (rest := drop position content).
  assert (List.length rest = (List.length content - position)%nat) as Hrest
    by apply length_drop.
  destruct (0 <? List.length (take B rest))%nat eqn:Hread.
  - apply Nat.ltb_lt in Hread. rewrite IH.
    + unfold Hash_update. simpl. do 3 f_equal.
      rewrite <- app_assoc. f_equal.
      rewrite <- drop_drop. fold rest. apply take_drop_length.
    + rewrite length_take in *. lia.
  - apply Nat.ltb_ge in Hread. rewrite length_take in Hread.
    assert (rest = []) as -> by (apply length_zero_iff_nil; lia).
    rewrite app_nil_r. unfold ret. now destruct hash.
Qed.

Lemma fstatSync_size_run (fd : nat) (path : string) (content : list byte) (w : world) :
  fds w !! fd = Some path →
  files w !! path = Some (File content) →
  Fs.fstatSync_size fd w = (Return (List.length content), w).
Proof.
  intros Hfd Hfile. unfold Fs.fstatSync_size.
  now rewrite (bind_Return _ _ _ _ _ (fd_file_run _ _ _ _ Hfd Hfile)).
Qed.

Lemma checkIntegrity_run (fd : nat) (path : string) (content : list byte)
    (f : list byte → string) (expectedDigestHex : string) (w : world) :
  fds w !! fd = Some path →
  files w !! path = Some (File content) →
  Resumable.checkIntegrity fd {| hex_of := f; fed := [] |} expectedDigestHex w
  = (Return (String.eqb (f content) expectedDigestHex), w).
Proof.
  intros Hfd Hfile. unfold Resumable.checkIntegrity.
  rewrite (bind_Return _ _ _ _ _ (fstatSync_size_run _ _ _ _ Hfd Hfile)).
  assert (List.length content - 0 < S (List.length content))%nat as Hfuel by lia.
  rewrite (bind_Return _ _ _ _ _
             (checkIntegrity_loop_run fd path content w Hfd Hfile _ _ _ Hfuel)).
  reflexivity.
Qed.

(** ** The download of [src/resumable.ts], case by case *)

Lemma append_length (a b : string) :
  String.length (a ++ b) = (String.length a + String.length b)%nat.
Proof.
  induction a as [|c a IH]; [reflexivity|]. rewrite append_cons. simpl. now rewrite IH.
Qed.

Lemma pending_path_fresh (destination : string) : destination ≠ destination ++ ".dl".
Proof.
  intros H. apply (f_equal String.length) in H. rewrite append_length in H.
  simpl in H. lia.
Qed.

Lemma closeSync_open (fd : nat) (path : string) (w : world) :
  fds w !! fd = Some path →
  Fs.closeSync fd w
  = (Return tt, World (files w) (delete fd (fds w)) (next_fd w) (trace w ++ [EvClose fd])).
Proof. intros H. unfold Fs.closeSync. now rewrite H. Qed.

Lemma closeSync_closed (fd : nat) (w : world) :
  fds w !! fd = None → Fs.closeSync fd w = (Throw Fs.EBADF, w).
Proof. intros H. unfold Fs.closeSync. now rewrite H. Qed.

Lemma Resumable_cleanup_open (lockfile : string) (fd : nat) (path : string) (w : world) :
  fds w !! fd = Some path →
  Resumable_cleanup lockfile fd w
  = (Return tt, World (files w) (delete fd (fds w)) (next_fd w)
                      (trace w ++ [EvRelease lockfile; EvClose fd])).
Proof.
  intros Hfd. unfold Resumable_cleanup, Util.swallowError, Util.await, bind, ret,
    try_catch, Lockfile.release, emit. simpl.
  rewrite (closeSync_open fd path); [|exact Hfd]. simpl.
  now rewrite <- app_assoc.
Qed.

Lemma Resumable_cleanup_closed (lockfile : string) (fd : nat) (w : world) :
  fds w !! fd = None →
  Resumable_cleanup lockfile fd w
  = (Return tt, World (files w) (fds w) (next_fd w) (trace w ++ [EvRelease lockfile])).
Proof.
  intros Hfd. unfold Resumable_cleanup, Util.swallowError, Util.await, bind, ret,
    try_catch, Lockfile.release, emit. simpl.
  rewrite closeSync_closed; [reflexivity|exact Hfd].
Qed.

Lemma try_finally_run {A} (m : M A) (f : M unit) (w : world) :
  try_finally m f w = match m w with
                      | (Return a, w') => (f ;; ret a) w'
                      | (Throw e, w') => (f ;; throw e) w'
                      | (Pending, w') => (Pending, w')
                      end.
Proof. reflexivity. Qed.

Lemma saveToDisk_run (res : IncomingMessage) (fd : nat) (path : string) (w : world) :
  fds w !! fd = Some path →
  files w !! path = Some (File []) →
  Resumable.saveToDisk res fd 0 false w
  = (if refused (body res) false then Throw NoReason
     else match ending res with
          | End => if compromised (body res) then Throw NoReason else Return tt
          | StreamError e => Throw e
          | Stalled => Pending
          end,
     World (<[path := File (accepted (body res))]> (files w)) (fds w) (next_fd w)
           (trace w ++ writes path 0 (body res))).
Proof.
  intros Hfd Hfile. unfold Resumable.saveToDisk.
  rewrite (bind_Return _ _ _ _ _
             (saveToDisk_data_run (body res) fd path [] false w Hfd Hfile)).
  simpl. destruct (refused (body res) false); [reflexivity|].
  destruct (ending res); [|reflexivity|reflexivity].
  destruct (compromised (body res)); reflexivity.
Qed.

Lemma Resumable_attempt_run (E : Env) (url destination : string) (fd : nat)
    (f : list byte → string) (expectedDigestHex : string) (w1 : world)
    (fetched : outcome IncomingMessage) (requests : list event) :
  fds w1 !! fd = Some (destination ++ ".dl") →
  files w1 !! (destination ++ ".dl") = Some (File []) →
  files w1 !! destination = None →
  Http.httpsGetWithRange E url 0 Http.no_options w1 = (fetched, add_events w1 requests) →
  (try_finally
     (Resumable.downloadWithResume E url fd 0 false {| hex_of := f; fed := [] |}
        expectedDigestHex (destination ++ ".dl"))
     (Resumable_cleanup (destination ++ ".lock") fd) ;;
   Fs.renameSync (destination ++ ".dl") destination) w1
  = Resumable_settles destination fd f expectedDigestHex w1 fetched requests.
Proof.
  intros Hfd Hfile Hdest Hfetch.
  set (P := destination ++ ".dl") in *. set (L := destination ++ ".lock").
  assert (destination ≠ P) as HP by apply pending_path_fresh.
  rewrite bind_run, try_finally_run. unfold Resumable.downloadWithResume.
  rewrite bind_run, Hfetch. unfold Resumable_settles. fold P L.
  destruct fetched as [res|e|].
  - (* the response arrived *)
    set (w2 := add_events w1 requests).
    assert (fds w2 !! fd = Some P) as Hfd2 by exact Hfd.
    assert (files w2 !! P = Some (File [])) as Hfile2 by exact Hfile.
    rewrite bind_run, (saveToDisk_run res fd P w2 Hfd2 Hfile2).
    set (content := accepted (body res)).
    set (w3 := World (<[P := File content]> (files w2)) (fds w2) (next_fd w2)
                     (trace w2 ++ writes P 0 (body res))).
    assert (fds w3 !! fd = Some P) as Hfd3 by exact Hfd.
    assert (files w3 !! P = Some (File content)) as Hfile3 by apply lookup_insert_eq.
    assert (∀ e, (Resumable_cleanup L fd ;; throw (A:=IncomingMessage) e) w3
                 = (Throw e, World (files w3) (delete fd (fds w3)) (next_fd w3)
                                   (trace w3 ++ [EvRelease L; EvClose fd]))) as Hfail.
    { intros e. now rewrite bind_run, (Resumable_cleanup_open L fd P w3 Hfd3). }
    destruct (refused (body res) false).
    { rewrite Hfail. simpl. now rewrite <- !app_assoc. }
    destruct (ending res) as [|e|].
    + destruct (compromised (body res)).
      { rewrite Hfail. simpl. now rewrite <- !app_assoc. }
      (* the stream completed *)
      unfold Fs.fsyncSync.
      rewrite bind_run, (bind_Return _ _ _ _ _ (fd_file_run _ _ _ _ Hfd3 Hfile3)), emit_run.
      set (w4 := add_events w3 [EvFsync P]).
      assert (fds w4 !! fd = Some P) as Hfd4 by exact Hfd.
      assert (files w4 !! P = Some (File content)) as Hfile4 by exact Hfile3.
      rewrite bind_run, (checkIntegrity_run fd P content f expectedDigestHex w4 Hfd4 Hfile4).
      destruct (String.eqb (f content) expectedDigestHex); cbn [negb].
      * (* intact *)
        rewrite bind_run, (closeSync_open fd P w4 Hfd4). unfold ret at 1.
        set (w5 := World (files w4) (delete fd (fds w4)) (next_fd w4)
                         (trace w4 ++ [EvClose fd])).
        assert (fds w5 !! fd = None) as Hfd5 by apply lookup_delete_eq.
        rewrite bind_run, (Resumable_cleanup_closed L fd w5 Hfd5). unfold ret at 1.
        unfold Fs.renameSync, bind, get_files, put_files, emit, ret. simpl.
        rewrite lookup_insert_eq, lookup_insert_ne, Hdest by (intros H; apply HP; now symmetry).
        simpl. now rewrite <- !app_assoc.
      * (* digest mismatch *)
        unfold Fs.unlinkSync.
        rewrite !bind_run. unfold get_files at 1. rewrite Hfile4.
        rewrite !bind_run. unfold put_files at 1. rewrite emit_run. unfold throw at 1.
        rewrite bind_run.
        erewrite Resumable_cleanup_open by exact Hfd.
        simpl. now rewrite <- !app_assoc.
    + rewrite Hfail. simpl. now rewrite <- !app_assoc.
    + unfold w3, w2. simpl. now rewrite <- !app_assoc.
  - (* the fetch failed *)
    rewrite bind_run, (Resumable_cleanup_open L fd P (add_events w1 requests) Hfd).
    simpl. now rewrite <- !app_assoc.
  - reflexivity.
Qed.

Lemma resolve_plain (fs : gmap string node) (p : string) :
  match fs !! p with Some (Symlink _) => False | _ => True end →
  Fs.resolve fs p = Some p.
Proof.
  unfold Fs.resolve. simpl. destruct (fs !! p) as [[| |]|]; intros H;
    first [reflexivity | contradiction].
Qed.

(** Opening the pending file with 'w+' leaves it empty, whatever it held. *)
Lemma openSync_pending (w : world) (destination : string) :
  file_or_absent w (destination ++ ".dl") →
  Fs.openSync (destination ++ ".dl") "w+"
    (add_events w [EvLock (destination ++ ".lock")])
  = (Return (next_fd w), opened w destination).
Proof.
  intros Hfile. unfold file_or_absent in Hfile.
  assert (Fs.resolve (files w) (destination ++ ".dl") = Some (destination ++ ".dl"))
    as Hres.
  { apply resolve_plain. destruct (files w !! _) as [[| |]|]; tauto. }
  unfold Fs.openSync. rewrite bind_run. unfold get_files at 1.
  change (files (add_events w [EvLock (destination ++ ".lock")])) with (files w).
  rewrite Hres.
  destruct (files w !! (destination ++ ".dl")) as [[content| |]|] eqn:Hp;
    try contradiction; simpl;
    unfold bind, put_files, emit, Fs.new_fd, opened; simpl;
    now rewrite <- !app_assoc.
Qed.

Lemma Range_from_zero : range_from_zero !! "Range" = Some "bytes=0-".
Proof. vm_compute. reflexivity. Qed.

(** A download by [src/resumable.ts], once the digest algorithm is known and
    the lock is granted: the pending file is opened empty, the fetch asks for
    the bytes from offset 0, and the rest is [Resumable_settles]. *)
Lemma Resumable_run (E : Env) (url destination algo expectedDigestHex : string)
    (f : list byte → string) (w : world) :
  createHash E algo = Some f →
  plf_lock E (destination ++ ".lock") = Return tt →
  file_or_absent w (destination ++ ".dl") →
  files w !! destination = None →
  ∃ (requests : list event),
    head requests = Some (EvRequest url range_from_zero)
    ∧ Forall (λ e, ∃ u, e = EvRequest u range_from_zero) requests
    ∧ Resumable.eagerAcquireLockAndDownload E url destination algo expectedDigestHex w
      = Resumable_settles destination (next_fd w) f expectedDigestHex
          (opened w destination)
          (Http.httpsGetWithRange E url 0 Http.no_options (opened w destination)).1
          requests.
Proof.
  intros Hhash Hlock Hfile Hdest.
  set (w1 := opened w destination).
  destruct (httpsGet_with_run E
              {| Http.headers := Some (∅ ∪ {[ "Range" := "bytes=" ++ pretty 0%nat ++ "-" ]});
                 Http.maxRedirects := None; Http.userAgent := None |} 5 url w1)
    as (n & final & requests & _ & _ & _ & Hw & _ & Hhead & Hall & _).
  exists requests. split; [exact Hhead|]. split; [exact Hall|].
  unfold Resumable.eagerAcquireLockAndDownload, crypto_createHash.
  rewrite Hhash. rewrite bind_run. unfold ret at 1.
  unfold Lockfile.lock at 1. rewrite bind_run, Hlock, bind_run, emit_run.
  unfold ret at 1.
  rewrite bind_run, (openSync_pending w destination Hfile). fold w1.
  assert (fds w1 !! next_fd w = Some (destination ++ ".dl")) as Hfd1
    by apply lookup_insert_eq.
  assert (files w1 !! (destination ++ ".dl") = Some (File [])) as Hfile1
    by apply lookup_insert_eq.
  assert (files w1 !! destination = None) as Hdest1.
  { unfold w1, opened. simpl. rewrite lookup_insert_ne; [exact Hdest|].
    intros H. now apply (pending_path_fresh destination). }
  unfold Resumable.getSizeOnDisk.
  rewrite bind_run,
    (try_catch_Return _ _ _ _ _ (fstatSync_size_run _ _ _ _ Hfd1 Hfile1)).
  apply (Resumable_attempt_run E url destination (next_fd w) f expectedDigestHex w1);
    try assumption.
  apply injective_projections; [reflexivity|exact Hw].
Qed.

(** ** The earlier downloader, case by case *)

Lemma Part001_handled (lockfile : string) (fd : nat) (path : string) (e : exn)
    (m : M unit) (w w' : world) :
  m w = (Throw e, w') →
  fds w' !! fd = Some path →
  try_catch
    (try_catch m (λ _err, try_catch (Lockfile.release lockfile) (λ _, ret tt) ;;
                          Fs.closeSync fd))
    (λ _, ret tt) w
  = (Return tt, World (files w') (delete fd (fds w')) (next_fd w')
                      (trace w' ++ [EvRelease lockfile; EvClose fd])).
Proof.
  intros Hm Hfd. unfold try_catch at 1 2. rewrite Hm.
  unfold bind, try_catch, Lockfile.release, emit. simpl.
  rewrite (closeSync_open fd path); [|exact Hfd]. simpl. now rewrite <- app_assoc.
Qed.

Lemma Part001_run (E : Env) (url destination algo expectedDigestHex : string)
    (f : list byte → string) (w : world) :
  createHash E algo = Some f →
  plf_lock E (destination ++ ".lock") = Return tt →
  file_or_absent w (destination ++ ".dl") →
  Part001.eagerAcquireLockAndDownload E url destination algo expectedDigestHex w
  = Part001_settles url destination (next_fd w) f expectedDigestHex
      (opened w destination) (https_get E url range_zero_only).
Proof.
  intros Hhash Hlock Hfile.
  set (w1 := opened w destination).
  set (P := destination ++ ".dl"). set (L := destination ++ ".lock").
  set (fd := next_fd w).
  unfold range_zero_only.
  set (hs := {[ "Range" := "bytes=" ++ pretty 0%nat ++ "-" ]} : gmap string string).
  unfold Part001.eagerAcquireLockAndDownload, crypto_createHash.
  rewrite Hhash. rewrite bind_run. unfold ret at 1.
  unfold Lockfile.lock at 1. rewrite bind_run, Hlock, bind_run, emit_run.
  unfold ret at 1.
  rewrite bind_run, (openSync_pending w destination Hfile). fold w1 P L fd.
  assert (fds w1 !! fd = Some P) as Hfd1 by apply lookup_insert_eq.
  assert (files w1 !! P = Some (File [])) as Hfile1 by apply lookup_insert_eq.
  rewrite bind_run,
    (try_catch_Return _ _ _ _ _ (fstatSync_size_run _ _ _ _ Hfd1 Hfile1)).
  change (List.length (A:=byte) []) with 0%nat.
  set (w2 := add_events w1 [EvRequest url hs]).
  assert (fds w2 !! fd = Some P) as Hfd2 by exact Hfd1.
  assert (files w2 !! P = Some (File [])) as Hfile2 by exact Hfile1.
  unfold Part001_settles, range_zero_only. fold P L hs w2.
  set (download := Part001.download E url fd 0 {| hex_of := f; fed := [] |}
                     expectedDigestHex P (Lockfile.release L)).
  assert (download w1
          = match https_get E url hs with
            | Fails _ => throw NoReason
            | Silent => pending
            | Responds res =>
                if Part001.status_rejected (statusCode res) then throw NoReason
                else
                  let* (aborted, rejected) :=
                    Part001.on_data (body res) fd 0 false false in
                  if rejected then throw NoReason
                  else match ending res with
                       | End => Part001.on_end fd aborted {| hex_of := f; fed := [] |}
                                  expectedDigestHex P (Lockfile.release L)
                       | StreamError _ => pending
                       | Stalled => pending
                       end
            end w2) as Hdownload.
  { unfold download, Part001.download. fold hs. rewrite bind_run, emit_run. fold w2.
    destruct (https_get E url hs) as [res| |]; reflexivity. }
  destruct (https_get E url hs) as [res| |] eqn:Hreply.
  - destruct (Part001.status_rejected (statusCode res)).
    { now apply (Part001_handled L fd P NoReason). }
    rewrite Part001_on_data_eq in Hdownload.
    set (content := accepted (body res)).
    set (w3 := World (<[P := File content]> (files w1)) (fds w1) (next_fd w1)
                     (trace w1 ++ [EvRequest url hs] ++ writes P 0 (body res))).
    pose proof (saveToDisk_data_run (body res) fd P [] false w2 Hfd2 Hfile2) as Hdata.
    change (List.length (A:=byte) []) with 0%nat in Hdata.
    change ([] ++ accepted (body res))%list with content in Hdata.
    change (false || refused (body res) false) with (refused (body res) false) in Hdata.
    assert (World (<[P := File content]> (files w2)) (fds w2) (next_fd w2)
                  (trace w2 ++ writes P 0 (body res)) = w3) as Hw3.
    { unfold w3, w2, add_events. simpl. rewrite insert_insert_eq.
      now rewrite <- !app_assoc. }
    rewrite Hw3 in Hdata.
    rewrite (bind_Return _ _ _ _ _ Hdata) in Hdownload. clear Hdata Hw3.
    cbv beta iota in Hdownload.
    assert (fds w3 !! fd = Some P) as Hfd3 by exact Hfd1.
    assert (files w3 !! P = Some (File content)) as Hfile3 by apply lookup_insert_eq.
    destruct (refused (body res) false).
    { now apply (Part001_handled L fd P NoReason). }
    destruct (ending res) as [|e|].
    + destruct (compromised (body res)).
      { now apply (Part001_handled L fd P NoReason). }
      (* the stream completed: the 'end' listener checks the digest *)
      unfold Part001.on_end in Hdownload.
      assert (in_listener
                (try_catch (Lockfile.release L) (λ _, ret tt) ;;
                 Fs.fsyncSync fd ;;
                 let* size := Fs.fstatSync_size fd in
                 let* hash' := Part001.digest_loop (S size) fd
                                 {| hex_of := f; fed := [] |} 0 in
                 ret (Hash_digest_hex hash')) w3
              = (Return (f content), add_events w3 [EvRelease L; EvFsync P]))
        as Hdigest.
      { apply in_listener_Return.
        rewrite bind_run. unfold try_catch, Lockfile.release. rewrite emit_run.
        set (w4 := add_events w3 [EvRelease L]).
        assert (fds w4 !! fd = Some P) as Hfd4 by exact Hfd1.
        assert (files w4 !! P = Some (File content)) as Hfile4 by exact Hfile3.
        unfold Fs.fsyncSync.
        rewrite bind_run, (bind_Return _ _ _ _ _ (fd_file_run _ _ _ _ Hfd4 Hfile4)), emit_run.
        set (w5 := add_events w4 [EvFsync P]).
        assert (fds w5 !! fd = Some P) as Hfd5 by exact Hfd1.
        assert (files w5 !! P = Some (File content)) as Hfile5 by exact Hfile3.
        rewrite (bind_Return _ _ _ _ _ (fstatSync_size_run _ _ _ _ Hfd5 Hfile5)).
        rewrite Part001_digest_loop_eq.
        assert (List.length content - 0 < S (List.length content))%nat as Hfuel by lia.
        rewrite (bind_Return _ _ _ _ _
                   (checkIntegrity_loop_run fd P content w5 Hfd5 Hfile5 _ _ _ Hfuel)).
        unfold w5, w4. rewrite add_events_app. reflexivity. }
      rewrite (bind_Return _ _ _ _ _ Hdigest) in Hdownload.
      set (w6 := add_events w3 [EvRelease L; EvFsync P]) in *.
      assert (fds w6 !! fd = Some P) as Hfd6 by exact Hfd1.
      assert (files w6 !! P = Some (File content)) as Hfile6 by exact Hfile3.
      destruct (String.eqb (f content) expectedDigestHex); cbn [negb] in Hdownload.
      * (* intact: the descriptor is closed and the promise fulfils *)
        rewrite (in_listener_Return _ _ _ _ (closeSync_open fd P w6 Hfd6)) in Hdownload.
        unfold try_catch at 1 2. fold download. rewrite Hdownload.
        simpl. now rewrite <- !app_assoc.
      * (* digest mismatch: rejected, then handled *)
        assert (in_listener (Fs.unlinkSync P) w6
                = (Return tt, World (delete P (files w6)) (fds w6) (next_fd w6)
                                    (trace w6 ++ [EvUnlink P]))) as Hunlink.
        { apply in_listener_Return. unfold Fs.unlinkSync.
          rewrite bind_run. unfold get_files at 1. now rewrite Hfile6. }
        rewrite (bind_Return _ _ _ _ _ Hunlink) in Hdownload.
        unfold throw in Hdownload.
        rewrite (Part001_handled L fd P _ _ _ _ Hdownload); [|exact Hfd1].
        simpl. now rewrite <- !app_assoc.
    + unfold try_catch at 1 2. fold download. now rewrite Hdownload.
    + unfold try_catch at 1 2. fold download. now rewrite Hdownload.
  - now apply (Part001_handled L fd P NoReason).
  - unfold try_catch at 1 2. fold download. now rewrite Hdownload.
Qed.

(** ** What a download leaves behind *)

Lemma Resumable_settles_trace (destination : string) (fd : nat) (f : list byte → string)
    (hex : string) (w1 : world) (fetched : outcome IncomingMessage)
    (requests : list event) :
  ∃ tail, trace (Resumable_settles destination fd f hex w1 fetched requests).2
          = (trace w1 ++ requests ++ tail)%list.
Proof.
  unfold Resumable_settles. destruct fetched as [res|e|]; simpl.
  - destruct (refused (body res) false); simpl;
      [eexists; rewrite <- !app_assoc; reflexivity|].
    destruct (ending res) as [|e|]; simpl;
      [|eexists; rewrite <- !app_assoc; reflexivity|eexists; reflexivity].
    destruct (compromised (body res)); simpl;
      [eexists; rewrite <- !app_assoc; reflexivity|].
    destruct (String.eqb _ hex); simpl; eexists; rewrite <- !app_assoc; reflexivity.
  - eexists. reflexivity.
  - exists []. now rewrite app_nil_r.
Qed.

Lemma Part001_settles_trace (url destination : string) (fd : nat)
    (f : list byte → string) (hex : string) (w1 : world) (answer : reply) :
  ∃ tail, trace (Part001_settles url destination fd f hex w1 answer).2
          = (trace w1 ++ [EvRequest url range_zero_only] ++ tail)%list.
Proof.
  unfold Part001_settles. destruct answer as [res| |]; simpl.
  - destruct (Part001.status_rejected (statusCode res)); simpl;
      [eexists; rewrite <- !app_assoc; reflexivity|].
    destruct (refused (body res) false); simpl;
      [eexists; rewrite <- !app_assoc; reflexivity|].
    destruct (ending res) as [|e|]; simpl; [|eexists; reflexivity..].
    destruct (compromised (body res)); simpl;
      [eexists; rewrite <- !app_assoc; reflexivity|].
    destruct (String.eqb _ hex); simpl; eexists; rewrite <- !app_assoc; reflexivity.
  - eexists. rewrite <- !app_assoc. reflexivity.
  - exists []. reflexivity.
Qed.

Lemma events_of_trace {A} (m : M A) (w : world) (evs : list event) :
  trace (m w).2 = (trace w ++ evs)%list → events_of m w = evs.
Proof. intros H. unfold events_of. rewrite H. apply drop_app_length. Qed.

(** C1, on the code.  Whatever the pending file holds when a download starts,
    both generations open it with flag 'w+', which empties it, measure size 0
    and ask for the bytes from offset 0: the first three events of the call
    are taking the lock, the truncating open and a request whose Range header
    is bytes=0-.  The claimed request bytes=N- for N > 0 bytes on disk is
    never sent. *)
Theorem C1_pending_file_emptied_then_range_zero
    (E : Env) (url destination algo hex : string) (f : list byte → string)
    (w : world) (onDisk : list byte) :
  createHash E algo = Some f →
  plf_lock E (destination ++ ".lock") = Return tt →
  files w !! (destination ++ ".dl") = Some (File onDisk) →
  files w !! destination = None →
  files (opened w destination) !! (destination ++ ".dl") = Some (File [])
  ∧ (Fs.openSync (destination ++ ".dl") "w+"
       (add_events w [EvLock (destination ++ ".lock")])).2 = opened w destination
  ∧ (∃ rest,
       events_of (Resumable.eagerAcquireLockAndDownload E url destination algo hex) w
       = EvLock (destination ++ ".lock") :: EvOpen (destination ++ ".dl") "w+"
         :: EvRequest url range_from_zero :: rest)
  ∧ range_from_zero !! "Range" = Some "bytes=0-"
  ∧ (∃ rest,
       events_of (Part001.eagerAcquireLockAndDownload E url destination algo hex) w
       = EvLock (destination ++ ".lock") :: EvOpen (destination ++ ".dl") "w+"
         :: EvRequest url range_zero_only :: rest)
  ∧ range_zero_only !! "Range" = Some "bytes=0-".
Proof.
  intros Hhash Hlock Hdisk Hdest.
  assert (file_or_absent w (destination ++ ".dl")) as Hfile
    by (unfold file_or_absent; now rewrite Hdisk).
  split; [apply lookup_insert_eq|].
  split; [now rewrite (openSync_pending w destination Hfile)|].
  split; [|split; [exact Range_from_zero|split; [|vm_compute; reflexivity]]].
  - destruct (Resumable_run E url destination algo hex f w Hhash Hlock Hfile Hdest)
      as (requests & Hhead & _ & Hrun).
    destruct requests as [|first requests]; [discriminate|]. injection Hhead as ->.
    destruct (Resumable_settles_trace destination (next_fd w) f hex (opened w destination)
                (Http.httpsGetWithRange E url 0 Http.no_options
                   (opened w destination)).1
                (EvRequest url range_from_zero :: requests)) as [tail Htail].
    exists (requests ++ tail)%list. apply events_of_trace.
    rewrite Hrun, Htail. simpl. now rewrite <- !app_assoc.
  - destruct (Part001_settles_trace url destination (next_fd w) f hex
                (opened w destination) (https_get E url range_zero_only))
      as [tail Htail].
    exists tail. apply events_of_trace.
    rewrite (Part001_run E url destination algo hex f w Hhash Hlock Hfile), Htail.
    simpl. now rewrite <- !app_assoc.
Qed.

(** ** The destination appears only by the rename of a verified file *)









(** ** Digest mismatch and lock compromise *)

Lemma refused_compromised (ticks : list tick) :
  compromised ticks = false → refused ticks false = false.
Proof.
  induction ticks as [|[chunk|] ticks IH]; simpl; auto. discriminate.
Qed.




(** ** Publishing the new binary *)

Lemma realpathSync_cases (p : string) (w : world) :
  (∃ q, Fs.realpathSync p w = (Return q, w)) ∨ (∃ e, Fs.realpathSync p w = (Throw e, w)).
Proof.
  unfold Fs.realpathSync, bind, get_files.
  destruct (Fs.resolve (files w) p) as [q|]; [|right; eexists; reflexivity].
  destruct (bool_decide (is_Some (files w !! q)));
    [left; eexists; reflexivity | right; eexists; reflexivity].
Qed.

(** [swallowError] loses a string: ['catch' in returnVal] throws for a value
    that is not an object, and the catch block returns null. *)
Lemma swallowError_string (cb : M string) (w w' : world) (o : outcome string) :
  cb w = (o, w') → o ≠ Pending → Util.swallowError cb w = (Return None, w').
Proof.
  intros H Hsettled. unfold Util.swallowError. rewrite H.
  destruct o; [reflexivity | reflexivity | contradiction].
Qed.

Lemma trySymlinkLatest_run (E : Env) (assetPath : string) (w : world) :
  Cli.trySymlinkLatest E assetPath w
  = match files w !! Cli.LATEST_SYMLINK_PATH E with
    | Some Directory => (Return tt, w)
    | Some _ =>
        (Return tt,
         World (<[Cli.LATEST_SYMLINK_PATH E := Symlink assetPath]>
                  (delete (Cli.LATEST_SYMLINK_PATH E) (files w)))
               (fds w) (next_fd w)
               (trace w ++ [EvUnlink (Cli.LATEST_SYMLINK_PATH E);
                            EvSymlink assetPath (Cli.LATEST_SYMLINK_PATH E)]))
    | None =>
        (Return tt,
         World (<[Cli.LATEST_SYMLINK_PATH E := Symlink assetPath]> (files w))
               (fds w) (next_fd w)
               (trace w ++ [EvSymlink assetPath (Cli.LATEST_SYMLINK_PATH E)]))
    end.
Proof.
  set (latest := Cli.LATEST_SYMLINK_PATH E).
  assert (Util.swallowError (Fs.realpathSync latest) w = (Return None, w)) as Hprev.
  { destruct (realpathSync_cases latest w) as [[q Hq]|[e He]];
      eapply swallowError_string; eauto; discriminate. }
  unfold Cli.trySymlinkLatest. fold latest.
  unfold try_catch at 1. rewrite (bind_Return _ _ _ _ _ Hprev).
  unfold Cli.repoint. fold latest. cbn [JsString.truthy andb]. rewrite bind_run. unfold ret at 1.
  rewrite bind_run. unfold Cli.removeSymlink, try_catch.
  rewrite bind_run. unfold Fs.lstatSync at 1. rewrite bind_run.
  unfold get_files at 1.
  destruct (files w !! latest) as [[content|target|]|] eqn:Hlatest;
    unfold ret at 1 || unfold throw at 1;
    try (unfold Fs.unlinkSync, Fs.symlinkSync, bind, get_files, put_files, emit, throw, ret;
         simpl; rewrite ?Hlatest; simpl; rewrite ?lookup_delete_eq; simpl;
         rewrite <- ?app_assoc; reflexivity).
Qed.

Lemma Part002_publish_run (E : Env) (assetPath : string) (w : world) :
  Part002.publish E assetPath w
  = match files w !! Cli.LATEST_SYMLINK_PATH E with
    | Some _ => (Return tt, w)
    | None =>
        (Return tt,
         World (<[Cli.LATEST_SYMLINK_PATH E := Symlink assetPath]> (files w))
               (fds w) (next_fd w)
               (trace w ++ [EvSymlink assetPath (Cli.LATEST_SYMLINK_PATH E)]))
    end.
Proof.
  set (latest := Cli.LATEST_SYMLINK_PATH E).
  unfold Part002.publish.
  change (Part002.getLatestSymlinkPath E) with latest.
  unfold try_catch at 1. rewrite bind_run.
  destruct (files w !! latest) as [n|] eqn:Hlatest.
  - assert (∃ prev, try_catch (let* p := Fs.realpathSync latest in ret (Some p))
                      (λ _, ret None) w = (Return prev, w)) as [prev ->].
    { unfold try_catch, bind.
      destruct (realpathSync_cases latest w) as [[q ->]|[e ->]]; eexists; reflexivity. }
    unfold Fs.symlinkSync. rewrite !bind_run. unfold get_files at 1.
    rewrite Hlatest. reflexivity.
  - assert (try_catch (let* p := Fs.realpathSync latest in ret (Some p))
              (λ _, ret None) w = (Return None, w)) as ->.
    { unfold try_catch, bind, Fs.realpathSync, bind, get_files.
      rewrite (resolve_plain (files w) latest) by now rewrite Hlatest.
      rewrite Hlatest. reflexivity. }
    unfold Fs.symlinkSync. rewrite !bind_run. unfold get_files at 1.
    rewrite Hlatest. reflexivity.
Qed.

(** C4, on the code.  Neither generation ever removes the previous release's
    directory when it publishes.  In [trySymlinkLatest] the previous target
    is read through [swallowError], which returns null for a string, so the
    removal (written before the repoint) is skipped; the pointer is unlinked
    and created anew, and every other path is left as it was.  In the earlier
    entry point the new link is created while the old one is still there,
    which fails whenever a pointer exists: the pointer then keeps its old
    target and nothing is removed. *)
Theorem C4_previous_release_never_removed (E : Env) (assetPath : string) (w : world) :
  let latest := Cli.LATEST_SYMLINK_PATH E in
  let current := Cli.trySymlinkLatest E assetPath w in
  let earlier := Part002.publish E assetPath w in
  current.1 = Return tt
  ∧ Forall (λ e, is_removal e = false) (events_of (Cli.trySymlinkLatest E assetPath) w)
  ∧ (∀ p, p ≠ latest → files current.2 !! p = files w !! p)
  ∧ (files w !! latest ≠ Some Directory →
     files current.2 !! latest = Some (Symlink assetPath))
  ∧ earlier.1 = Return tt
  ∧ Forall (λ e, is_removal e = false) (events_of (Part002.publish E assetPath) w)
  ∧ (∀ p, p ≠ latest → files earlier.2 !! p = files w !! p)
  ∧ (is_Some (files w !! latest) → earlier.2 = w).
Proof.
  intros latest current earlier. subst current earlier.
  unfold events_of. rewrite trySymlinkLatest_run, Part002_publish_run. fold latest.
  destruct (files w !! latest) as [[content|target|]|] eqn:Hlatest; simpl;
    rewrite ?drop_all, ?drop_app_length;
    repeat split; try (repeat constructor; fail); try congruence;
    try (intros p Hp; rewrite ?lookup_insert_ne, ?lookup_delete_ne by auto; reflexivity);
    try (intros; apply lookup_insert_eq);
    try (intros [? ?]; discriminate).
Qed.

(** The scenario: the cache points at v1 and v2 has just been downloaded.
    After publishing, the v1 directory is still there in both generations,
    and the earlier one still points at v1. *)
Example publish_v2_over_v1 :
  let w := Scenario.world_of
             (<[Scenario.v2_bin := File Scenario.payload]>
                (Scenario.cache_v1 Scenario.yesterday)) in
  let current := (Cli.trySymlinkLatest Scenario.E Scenario.v2_bin w).2 in
  let earlier := (Part002.publish Scenario.E Scenario.v2_bin w).2 in
  trace current = [EvUnlink Scenario.latest; EvSymlink Scenario.v2_bin Scenario.latest]
  ∧ files current !! Scenario.v1_dir = Some Directory
  ∧ is_Some (files current !! Scenario.v1_bin)
  ∧ trace earlier = []
  ∧ files earlier !! Scenario.latest = Some (Symlink Scenario.v1_bin)
  ∧ files earlier !! Scenario.v1_dir = Some Directory.
Proof. vm_compute. repeat split; eauto. Qed.

(** Lines 159-164 as written: had [previousBin] held the previous target, the
    v1 directory would be removed before the pointer is touched. *)
Example repoint_with_previous_target :
  let w := Scenario.world_of
             (<[Scenario.v2_bin := File Scenario.payload]>
                (Scenario.cache_v1 Scenario.yesterday)) in
  let run := Cli.repoint Scenario.E (Some Scenario.v1_bin) Scenario.v2_bin w in
  trace run.2 = [EvRm Scenario.v1_dir; EvUnlink Scenario.latest;
                 EvSymlink Scenario.v2_bin Scenario.latest]
  ∧ files run.2 !! Scenario.v1_bin = None.
Proof. vm_compute. repeat split. Qed.

(** ** The scheduler past the deadline *)

Lemma setNextCheckTimeSync_trace (E : Env) (w w1 : world) :
  Cli.setNextCheckTimeSync E w = (Return tt, w1) →
  ∃ evs, trace w1
         = (trace w ++ evs
            ++ [EvWriteFile (Cli.NEXT_CHECK_PATH E)
                  (Date_toISOString E (Date_now E + Cli.ONE_DAY_MS))])%list
         ∧ Forall (λ e, is_request e = false) evs.
Proof.
  unfold Cli.setNextCheckTimeSync. rewrite bind_run.
  destruct (Fs.mkdirSync _ w) as [[[]|e|] w0] eqn:Hmkdir; try discriminate.
  destruct (mkdirSync_trace _ _ _ _ Hmkdir) as [Htr|Htr].
  - unfold Fs.writeFileSync, bind, get_files, put_files, emit, throw.
    destruct (Fs.resolve (files w0) _) as [q|]; [|discriminate].
    destruct (files w0 !! q) as [[| |]|]; try discriminate;
      intros H; injection H as <-; simpl; rewrite Htr; exists []; split; auto.
  - unfold Fs.writeFileSync, bind, get_files, put_files, emit, throw.
    destruct (Fs.resolve (files w0) _) as [q|]; [|discriminate].
    destruct (files w0 !! q) as [[| |]|]; try discriminate;
      intros H; injection H as <-; simpl; rewrite Htr, <- app_assoc;
      eexists; (split; [reflexivity|]); repeat constructor.
Qed.

(** C5, on the code.  With a valid cache and the deadline reached, both
    generations first rewrite the deadline to now + 24 h.  The earlier entry
    point then returns the cached entry at once and leaves the refresh running
    on its own.  [ensureLatestBinary] of [src/cli.ts] instead awaits the
    refresh: it returns the cached entry only in the world that the whole
    attempt leaves behind, whether the attempt fulfilled or failed, and does
    not return at all while the attempt is pending. *)
Theorem C5_refresh_is_awaited
    (E : Env) (download : string → string → string → string → M unit)
    (w w1 : world) (assetName binPath : string) :
  Github.expectedAssetName E w = (Return assetName, w) →
  Fs.resolve (files w) (Cli.LATEST_SYMLINK_PATH E) = Some binPath →
  is_Some (files w !! binPath) →
  binPath ≠ EmptyString →
  Cli.shouldCheckForUpdate E w = (Return true, w) →
  Cli.setNextCheckTimeSync E w = (Return tt, w1) →
  let attempt := Cli.refresh E assetName w1 in
  let cached := {| binary_tag := Some "cached"; bin := binPath |} in
  (∃ evs, trace w1
          = (trace w ++ evs
             ++ [EvWriteFile (Cli.NEXT_CHECK_PATH E)
                   (Date_toISOString E (Date_now E + Cli.ONE_DAY_MS))])%list
          ∧ Forall (λ e, is_request e = false) evs)
  ∧ Cli.ensureLatestBinary E w
    = match attempt.1 with
      | Pending => (Pending, attempt.2)
      | _ => (Return cached, attempt.2)
      end
  ∧ ∃ assetName',
      Part002.ensureLatestBinarySync E download w
      = (Return (Part002.Cached binPath, Some (Part002.refresh E download assetName')),
         w1).
Proof.
  intros Hasset Hres Hbin Hpath Hcheck Hset attempt cached.
  assert (JsString.truthy (Some binPath) = true) as Htruthy by now apply truthy_Some.
  split; [exact (setNextCheckTimeSync_trace E w w1 Hset)|]. split.
  - unfold Cli.ensureLatestBinary.
    rewrite (bind_Return _ _ _ _ _ Hasset).
    rewrite (bind_Return _ _ _ _ _ (findValidCachedReleaseSync_valid E w binPath Hres Hbin)).
    rewrite Htruthy. cbn [negb].
    rewrite (bind_Return _ _ _ _ _ Hcheck).
    rewrite bind_run, (bind_Return _ _ _ _ _ Hset).
    unfold Util.swallowError at 1. rewrite bind_run. unfold ret at 1.
    cbn [Util.isObject Util.catchMethod Util.promise_value Util.await].
    unfold try_catch. subst attempt.
    destruct (Cli.refresh E assetName w1) as [[[]|e|] w2]; reflexivity.
  - destruct (expectedAssetName_both E w assetName Hasset) as [assetName' Ha'].
    exists assetName'. unfold Part002.ensureLatestBinarySync.
    rewrite (bind_Return _ _ _ _ _ Ha').
    rewrite (bind_Return _ _ _ _ _
               (Part002_findValidCachedReleaseSync_valid E w binPath Hres Hbin)).
    cbn [fmap option_fmap option_map Part002.Cached bin].
    rewrite Htruthy. cbn [negb].
    change (Part002.shouldCheckForUpdate E) with (Cli.shouldCheckForUpdate E).
    rewrite (bind_Return _ _ _ _ _ Hcheck).
    change (Part002.setNextCheckTimeSync E) with (Cli.setNextCheckTimeSync E).
    rewrite (bind_Return _ _ _ _ _ Hset). reflexivity.
Qed.

(** ** The statements at work on the scenarios *)

(** From an empty cache the binary is downloaded, verified, renamed and
    pointed at. *)
Example first_download :
  let run := Cli.ensureLatestBinary Scenario.E (Scenario.world_of ∅) in
  run.1 = Return {| binary_tag := Some "v2"; bin := Scenario.v2_bin |}
  ∧ files run.2 !! Scenario.v2_bin = Some (File Scenario.payload)
  ∧ files run.2 !! (Scenario.v2_bin ++ ".dl") = None
  ∧ files run.2 !! Scenario.latest = Some (Symlink Scenario.v2_bin).
Proof. vm_compute. repeat split. Qed.

(** A download that finds three bytes on disk starts over from offset 0. *)
Example resume_starts_over :
  let run := Resumable.eagerAcquireLockAndDownload Scenario.E Scenario.v2_url
               Scenario.v2_bin "adler32" Scenario.payload_hex Scenario.resuming in
  filter (λ e, is_request e = true) (trace run.2)
    = [EvRequest Scenario.v2_url range_from_zero]
  ∧ range_from_zero !! "Range" = Some "bytes=0-"
  ∧ files run.2 !! Scenario.v2_bin = Some (File Scenario.payload).
Proof. vm_compute. repeat split. Qed.

Lemma C1_witness :
  (createHash Scenario.E "adler32" = Some Fixture.adler32
   ∧ plf_lock Scenario.E (Scenario.v2_bin ++ ".lock") = Return tt
   ∧ files Scenario.resuming !! (Scenario.v2_bin ++ ".dl")
     = Some (File (take 3 Scenario.payload))
   ∧ files Scenario.resuming !! Scenario.v2_bin = None)
  ∧ ∃ rest,
      events_of (Resumable.eagerAcquireLockAndDownload Scenario.E Scenario.v2_url
                   Scenario.v2_bin "adler32" Scenario.payload_hex) Scenario.resuming
      = EvLock (Scenario.v2_bin ++ ".lock") :: EvOpen (Scenario.v2_bin ++ ".dl") "w+"
        :: EvRequest Scenario.v2_url range_from_zero :: rest.
Proof.
  assert (createHash Scenario.E "adler32" = Some Fixture.adler32) as H1
    by reflexivity.
  assert (plf_lock Scenario.E (Scenario.v2_bin ++ ".lock") = Return tt) as H2
    by reflexivity.
  assert (files Scenario.resuming !! (Scenario.v2_bin ++ ".dl")
          = Some (File (take 3 Scenario.payload))) as H3
    by (vm_compute; reflexivity).
  assert (files Scenario.resuming !! Scenario.v2_bin = None) as H4
    by (vm_compute; reflexivity).
  split; [repeat split; assumption|].
  exact (proj1 (proj2 (proj2
    (C1_pending_file_emptied_then_range_zero Scenario.E Scenario.v2_url Scenario.v2_bin
       "adler32" Scenario.payload_hex Fixture.adler32 Scenario.resuming
       (take 3 Scenario.payload) H1 H2 H3 H4)))).
Defined.




Lemma C6_witness :
  (Github.expectedAssetName Scenario.E (Scenario.world_of (Scenario.cache_v1 Scenario.tomorrow))
   = (Return Scenario.asset, Scenario.world_of (Scenario.cache_v1 Scenario.tomorrow))
   ∧ Fs.resolve (Scenario.cache_v1 Scenario.tomorrow) (Cli.LATEST_SYMLINK_PATH Scenario.E)
     = Some Scenario.v1_bin
   ∧ is_Some (Scenario.cache_v1 Scenario.tomorrow !! Scenario.v1_bin)
   ∧ Scenario.v1_bin ≠ EmptyString
   ∧ stored_text (Cli.NEXT_CHECK_PATH Scenario.E)
       (Scenario.world_of (Scenario.cache_v1 Scenario.tomorrow)) = Some Scenario.tomorrow
   ∧ Date_parse Scenario.E (JsString.trim Scenario.tomorrow) = Some 1793664000000
   ∧ Date_now Scenario.E ≤ 1793664000000)
  ∧ Cli.ensureLatestBinary Scenario.E (Scenario.world_of (Scenario.cache_v1 Scenario.tomorrow))
    = (Return {| binary_tag := Some "cached"; bin := Scenario.v1_bin |},
       Scenario.world_of (Scenario.cache_v1 Scenario.tomorrow)).
Proof.
  set (w := Scenario.world_of (Scenario.cache_v1 Scenario.tomorrow)).
  assert (Github.expectedAssetName Scenario.E w = (Return Scenario.asset, w)) as H1
    by reflexivity.
  assert (Fs.resolve (files w) (Cli.LATEST_SYMLINK_PATH Scenario.E)
          = Some Scenario.v1_bin) as H2 by (vm_compute; reflexivity).
  assert (is_Some (files w !! Scenario.v1_bin)) as H3 by (vm_compute; eauto).
  assert (Scenario.v1_bin ≠ EmptyString) as H4 by discriminate.
  assert (stored_text (Cli.NEXT_CHECK_PATH Scenario.E) w = Some Scenario.tomorrow) as H5
    by (vm_compute; reflexivity).
  assert (Date_parse Scenario.E (JsString.trim Scenario.tomorrow) = Some 1793664000000)
    as H6 by (vm_compute; reflexivity).
  assert (Date_now Scenario.E ≤ 1793664000000) as H7 by (vm_compute; discriminate).
  split; [repeat split; assumption|].
  exact (proj1 (C6_cached_before_deadline Scenario.E
                  (Resumable.eagerAcquireLockAndDownload Scenario.E) w Scenario.asset
                  Scenario.v1_bin Scenario.tomorrow 1793664000000
                  H1 H2 H3 H4 H5 H6 H7)).
Defined.

Lemma C5_witness :
  (Github.expectedAssetName Scenario.E_stalled
     (Scenario.world_of (Scenario.cache_v1 Scenario.yesterday))
   = (Return Scenario.asset, Scenario.world_of (Scenario.cache_v1 Scenario.yesterday))
   ∧ Fs.resolve (Scenario.cache_v1 Scenario.yesterday)
       (Cli.LATEST_SYMLINK_PATH Scenario.E_stalled) = Some Scenario.v1_bin
   ∧ is_Some (Scenario.cache_v1 Scenario.yesterday !! Scenario.v1_bin)
   ∧ Scenario.v1_bin ≠ EmptyString
   ∧ (Cli.shouldCheckForUpdate Scenario.E_stalled
        (Scenario.world_of (Scenario.cache_v1 Scenario.yesterday))).1 = Return true
   ∧ (Cli.setNextCheckTimeSync Scenario.E_stalled
        (Scenario.world_of (Scenario.cache_v1 Scenario.yesterday))).1 = Return tt)
  ∧ (Cli.ensureLatestBinary Scenario.E_stalled
       (Scenario.world_of (Scenario.cache_v1 Scenario.yesterday))).1 = Pending
  ∧ ∃ task,
      (Part002.ensureLatestBinarySync Scenario.E_stalled
         (Resumable.eagerAcquireLockAndDownload Scenario.E_stalled)
         (Scenario.world_of (Scenario.cache_v1 Scenario.yesterday))).1
      = Return (Part002.Cached Scenario.v1_bin, Some task).
Proof.
  set (w := Scenario.world_of (Scenario.cache_v1 Scenario.yesterday)).
  set (w1 := (Cli.setNextCheckTimeSync Scenario.E_stalled w).2).
  assert (Github.expectedAssetName Scenario.E_stalled w = (Return Scenario.asset, w))
    as H1 by reflexivity.
  assert (Fs.resolve (files w) (Cli.LATEST_SYMLINK_PATH Scenario.E_stalled)
          = Some Scenario.v1_bin) as H2 by (vm_compute; reflexivity).
  assert (is_Some (files w !! Scenario.v1_bin)) as H3 by (vm_compute; eauto).
  assert (Scenario.v1_bin ≠ EmptyString) as H4 by discriminate.
  assert (Cli.shouldCheckForUpdate Scenario.E_stalled w = (Return true, w)) as H5
    by (vm_compute; reflexivity).
  assert (Cli.setNextCheckTimeSync Scenario.E_stalled w = (Return tt, w1)) as H6
    by (vm_compute; reflexivity).
  split; [repeat split; first [assumption | now rewrite H5 | now rewrite H6]|].
  destruct (C5_refresh_is_awaited Scenario.E_stalled
              (Resumable.eagerAcquireLockAndDownload Scenario.E_stalled) w w1
              Scenario.asset Scenario.v1_bin H1 H2 H3 H4 H5 H6)
    as (_ & Hcurrent & assetName' & Hearlier).
  split.
  - rewrite Hcurrent.
    assert ((Cli.refresh Scenario.E_stalled Scenario.asset w1).1 = Pending) as ->
      by (vm_compute; reflexivity).
    reflexivity.
  - rewrite Hearlier. eexists. reflexivity.
Defined.

(** * Further properties of the code *)

(** ** [swallowError] *)

(** X1.  [swallowError] never throws and keeps the effects of its callback;
    a callback that returns a string (or throws) gets [null] back, whatever
    the string; and awaiting what it returns for a promise never rejects. *)
Theorem X1_swallowError_never_throws (w : world) :
  (∀ (T : Type) (V : Util.JsValue T) (cb : M T),
      (∀ e, (Util.swallowError cb w).1 ≠ Throw e)
      ∧ (Util.swallowError cb w).2 = (cb w).2)
  ∧ (∀ cb : M string,
        (Util.swallowError cb w).1
        = match (cb w).1 with Pending => Pending | _ => Return None end)
  ∧ (∀ (cb : M (M unit)) (e : exn),
        ((let* p := Util.swallowError cb in Util.await p) w).1 ≠ Throw e).
Proof.
  split; [|split].
  - intros T V cb. unfold Util.swallowError.
    destruct (cb w) as [[v|e'|] w']; cbn.
    + destruct (Util.isObject v); [destruct (Util.catchMethod v)|];
        (split; [discriminate | reflexivity]).
    + split; [discriminate | reflexivity].
    + split; [discriminate | reflexivity].
  - intros cb. unfold Util.swallowError.
    destruct (cb w) as [[v|e'|] w']; reflexivity.
  - intros cb e. rewrite bind_run. unfold Util.swallowError.
    destruct (cb w) as [[p|e'|] w']; cbn; try discriminate.
    unfold try_catch. destruct (p w') as [[[]|e'|] w'']; cbn; discriminate.
Qed.

(** ** The text and JSON fetchers *)

Lemma string_of_list_byte_app (a b : list byte) :
  string_of_list_byte (a ++ b) = string_of_list_byte a ++ string_of_list_byte b.
Proof.
  induction a as [|c a IH]; [reflexivity|].
  change (string_of_list_byte ((c :: a) ++ b))
    with (String (ascii_of_byte c) (string_of_list_byte (a ++ b))).
  rewrite IH. reflexivity.
Qed.

Lemma text_of_payload (ticks : list tick) :
  Http.text_of ticks = string_of_list_byte (payload_of ticks).
Proof.
  induction ticks as [|[chunk|] ticks IH]; [reflexivity| |exact IH].
  cbn [Http.text_of payload_of]. rewrite string_of_list_byte_app, IH. reflexivity.
Qed.

Lemma getText_run (E : Env) (url : string) (options : Http.HttpGetOptions) (w : world) :
  Http.getText E url options w
  = match Http.httpsGet E url options w with
    | (Return res, w') =>
        (match ending res with
         | End => Return (string_of_list_byte (payload_of (body res)))
         | StreamError e => Throw e
         | Stalled => Pending
         end, w')
    | (Throw e, w') => (Throw e, w')
    | (Pending, w') => (Pending, w')
    end.
Proof.
  unfold Http.getText. rewrite bind_run.
  destruct (Http.httpsGet E url options w) as [[res|e|] w']; try reflexivity.
  unfold Http.drain. rewrite text_of_payload. destruct (ending res); reflexivity.
Qed.

Lemma getJSON_world (E : Env) (url : string) (options : Http.HttpGetOptions) (w : world) :
  (Http.getJSON E url options w).2 = (Http.httpsGet E url options w).2.
Proof.
  unfold Http.getJSON. rewrite bind_run, getText_run.
  destruct (Http.httpsGet E url options w) as [[res|e|] w']; try reflexivity.
  destruct (ending res); try reflexivity.
  destruct (JSON_parse E _); reflexivity.
Qed.

(** X2.  [getJSON] returns a document exactly when the fetch succeeds, the
    body ends, and the chunks of the body, joined in order however the body
    was cut into chunks, parse to it; it does nothing but the requests of the
    fetch. *)
Theorem X2_getJSON_returns_iff (E : Env) (url : string) (options : Http.HttpGetOptions)
    (w : world) (json : ReleaseJson) :
  ((Http.getJSON E url options w).1 = Return json ↔
   ∃ res, (Http.httpsGet E url options w).1 = Return res
          ∧ ending res = End
          ∧ JSON_parse E (string_of_list_byte (payload_of (body res))) = Some json)
  ∧ (Http.getJSON E url options w).2 = (Http.httpsGet E url options w).2.
Proof.
  split; [|apply getJSON_world].
  unfold Http.getJSON. rewrite bind_run, getText_run.
  destruct (Http.httpsGet E url options w) as [[res|e|] w']; cbn.
  - destruct (ending res) eqn:Hend; cbn.
    + destruct (JSON_parse E _) as [json'|] eqn:Hparse; cbn; split.
      * intros [= <-]. exists res. auto.
      * intros (res' & Hres & _ & Hjson). congruence.
      * discriminate.
      * intros (res' & Hres & _ & Hjson). congruence.
    + split; [discriminate|]. intros (res' & Hres & Hne & _). congruence.
    + split; [discriminate|]. intros (res' & Hres & Hne & _). congruence.
  - split; [discriminate|]. intros (res' & Hne & _). discriminate.
  - split; [discriminate|]. intros (res' & Hne & _). discriminate.
Qed.

Lemma X2_witness :
  (Http.getJSON Scenario.E Github.LATEST_API Http.no_options Cases.fresh).1
  = Return (Scenario.release_v2 ("adler32:" ++ Scenario.payload_hex)).
Proof.
  apply (proj1 (X2_getJSON_returns_iff Scenario.E Github.LATEST_API Http.no_options
                  Cases.fresh _)).
  exists (Scenario.whole [Data (list_byte_of_string "v2")]).
  repeat split; vm_compute; reflexivity.
Defined.


(** ** The release listing *)

Lemma listing_headers_eq (E : Env) :
  Http.request_headers {| Http.headers := None; Http.maxRedirects := None;
                          Http.userAgent := Some (Github.USER_AGENT E) |}
  = listing_headers E.
Proof.
  unfold Http.request_headers, listing_headers. cbn [Http.headers Http.userAgent default].
  change (JsString.truthy (Some (Github.USER_AGENT E))) with true.
  cbv iota. unfold id. apply map_empty_union.
Qed.

Lemma Part002_listing_headers_eq (E : Env) :
  Http.request_headers {| Http.headers := Some ∅; Http.maxRedirects := None;
                          Http.userAgent := Some (Part002.USER_AGENT E) |}
  = Part002_listing_headers E.
Proof.
  unfold Http.request_headers, Part002_listing_headers.
  cbn [Http.headers Http.userAgent default].
  change (JsString.truthy (Some (Part002.USER_AGENT E))) with true.
  cbv iota. unfold id. apply map_empty_union.
Qed.

Lemma Part002_getJSON_world (E : Env) (url : string) (w : world) :
  (Part002.getJSON E url ∅ w).2 = (Part002.get E url ∅ 5 w).2.
Proof.
  unfold Part002.getJSON, Part002.getText. rewrite !bind_run.
  destruct (Part002.get E url ∅ 5 w) as [[res|e|] w']; try reflexivity.
  unfold Http.drain. destruct (ending res); try reflexivity.
  cbn. destruct (JSON_parse E _); reflexivity.
Qed.

(** X4.  Fetching the release listing does nothing but send at most six
    requests, the first to the listing's address, each with the product's
    User-Agent ([sfw-free/<version>]; [sfw-lite/<version>] in the earlier
    entry point) as its only header; and the release that comes back is named
    after its tag when the document has no name or an empty one. *)
Theorem X4_fetchLatest_requests (E : Env) (w : world) :
  (∃ requests,
      (Github.fetchLatest E w).2 = add_events w requests
      ∧ head requests = Some (EvRequest Github.LATEST_API (listing_headers E))
      ∧ Forall (λ e, ∃ u, e = EvRequest u (listing_headers E)) requests
      ∧ (List.length requests ≤ 6)%nat)
  ∧ (∃ requests,
        (Part002.fetchLatest E w).2 = add_events w requests
        ∧ head requests
          = Some (EvRequest Part002.LATEST_API (Part002_listing_headers E))
        ∧ Forall (λ e, ∃ u, e = EvRequest u (Part002_listing_headers E)) requests
        ∧ (List.length requests ≤ 6)%nat)
  ∧ listing_headers E !! "User-Agent" = Some ("sfw-free/" ++ PACKAGE_VERSION E)
  ∧ Part002_listing_headers E !! "User-Agent" = Some ("sfw-lite/" ++ PACKAGE_VERSION E)
  ∧ (∀ rel, (Github.fetchLatest E w).1 = Return rel
            ∨ (Part002.fetchLatest E w).1 = Return rel →
            name rel = tag rel ∨ ∃ n, name rel = Some n ∧ n ≠ EmptyString).
Proof.
  split; [|split; [|split; [|split]]].
  - set (opts := {| Http.headers := None; Http.maxRedirects := None;
                    Http.userAgent := Some (Github.USER_AGENT E) |}).
    destruct (httpsGet_with_run E opts 5 Github.LATEST_API w)
      as (n & final & requests & Hn & _ & _ & Hw & Hlen & Hhead & Hall & _).
    exists requests. unfold opts in *. rewrite listing_headers_eq in *.
    repeat split; try assumption; [|lia].
    unfold Github.fetchLatest. rewrite bind_run.
    pose proof (getJSON_world E Github.LATEST_API
                  {| Http.headers := None; Http.maxRedirects := None;
                     Http.userAgent := Some (Github.USER_AGENT E) |} w) as Hj.
    destruct (Http.getJSON E Github.LATEST_API _ w) as [[json|e|] w'];
      cbn in Hj |- *; rewrite Hj; exact Hw.
  - set (opts := {| Http.headers := Some ∅; Http.maxRedirects := None;
                    Http.userAgent := Some (Part002.USER_AGENT E) |}).
    destruct (httpsGet_with_run E opts 5 Part002.LATEST_API w)
      as (n & final & requests & Hn & _ & _ & Hw & Hlen & Hhead & Hall & _).
    exists requests. unfold opts in *. rewrite Part002_listing_headers_eq in *.
    repeat split; try assumption; [|lia].
    unfold Part002.fetchLatest. rewrite bind_run.
    pose proof (Part002_getJSON_world E Part002.LATEST_API w) as Hj.
    rewrite Part002_get_eq in Hj.
    destruct (Part002.getJSON E Part002.LATEST_API ∅ w) as [[json|e|] w'];
      cbn in Hj |- *; rewrite Hj; exact Hw.
  - apply lookup_singleton_eq.
  - apply lookup_singleton_eq.
  - assert (∀ json : ReleaseJson,
              let named := if JsString.truthy (json_name json) then json_name json
                           else json_tag_name json in
              named = json_tag_name json ∨ ∃ n, named = Some n ∧ n ≠ EmptyString) as Hname.
    { intros json. cbn zeta. destruct (json_name json) as [n|] eqn:Hn; [|left; reflexivity].
      destruct (JsString.truthy (Some n)) eqn:Ht; [|left; reflexivity].
      right. exists n. split; [reflexivity|]. intros ->. discriminate. }
    intros rel [Hrel|Hrel].
    + unfold Github.fetchLatest in Hrel. rewrite bind_run in Hrel.
      destruct (Http.getJSON E Github.LATEST_API _ w) as [[json|e|] w'];
        try discriminate.
      cbn in Hrel. injection Hrel as <-. apply Hname.
    + unfold Part002.fetchLatest in Hrel. rewrite bind_run in Hrel.
      destruct (Part002.getJSON E Part002.LATEST_API ∅ w) as [[json|e|] w'];
        try discriminate.
      cbn in Hrel. injection Hrel as <-. apply Hname.
Qed.

(** ** The integrity check and the 'data' listener *)

(** X5.  [checkIntegrity] reads the file behind the descriptor from offset 0
    to its end, whatever its size against the 64 KiB buffer, feeds the bytes to
    the hash after what the hash was fed before, compares the hex digest with
    the expected one, and changes nothing. *)
Theorem X5_checkIntegrity_whole_file (fd : nat) (path : string) (content : list byte)
    (hash : Hash) (expectedDigestHex : string) (w : world) :
  fds w !! fd = Some path →
  files w !! path = Some (File content) →
  Resumable.checkIntegrity fd hash expectedDigestHex w
  = (Return (String.eqb (hex_of hash (fed hash ++ content)) expectedDigestHex), w).
Proof.
  intros Hfd Hfile. unfold Resumable.checkIntegrity.
  rewrite (bind_Return _ _ _ _ _ (fstatSync_size_run _ _ _ _ Hfd Hfile)).
  assert (List.length content - 0 < S (List.length content))%nat as Hfuel by lia.
  rewrite (bind_Return _ _ _ _ _
             (checkIntegrity_loop_run fd path content w Hfd Hfile _ _ _ Hfuel)).
  reflexivity.
Qed.

Lemma X5_witness :
  (fds Cases.reading !! 3%nat = Some Scenario.v1_bin
   ∧ files Cases.reading !! Scenario.v1_bin = Some (File (list_byte_of_string "old")))
  ∧ Resumable.checkIntegrity 3 {| hex_of := Fixture.adler32; fed := [] |} "028c0140"
      Cases.reading
    = (Return true, Cases.reading).
Proof.
  assert (fds Cases.reading !! 3%nat = Some Scenario.v1_bin) as H1
    by (vm_compute; reflexivity).
  assert (files Cases.reading !! Scenario.v1_bin
          = Some (File (list_byte_of_string "old"))) as H2 by (vm_compute; reflexivity).
  split; [split; assumption|].
  rewrite (X5_checkIntegrity_whole_file 3 Scenario.v1_bin (list_byte_of_string "old")
             {| hex_of := Fixture.adler32; fed := [] |} "028c0140" Cases.reading H1 H2).
  reflexivity.
Defined.

(** X6.  [saveToDisk] started at the end of the file appends: with the file
    holding [content] and [bytesAlreadyDownloaded = |content|], the file ends
    as [content] followed by the chunks that arrived before the lock was
    compromised, each written at the offset where the one before ended; no
    other path and no descriptor changes; and the promise fulfils exactly when
    the stream ends with the lock never compromised. *)
Theorem X6_saveToDisk_appends (res : IncomingMessage) (fd : nat) (path : string)
    (content : list byte) (w : world) :
  fds w !! fd = Some path →
  files w !! path = Some (File content) →
  let run := Resumable.saveToDisk res fd (List.length content) false w in
  files run.2 !! path = Some (File (content ++ accepted (body res)))
  ∧ (∀ p, p ≠ path → files run.2 !! p = files w !! p)
  ∧ fds run.2 = fds w
  ∧ events_of (Resumable.saveToDisk res fd (List.length content) false) w
    = writes path (List.length content) (body res)
  ∧ (run.1 = Return tt ↔ ending res = End ∧ compromised (body res) = false).
Proof.
  intros Hfd Hfile run.
  assert (run
          = (if refused (body res) false then Throw NoReason
             else match ending res with
                  | End => if compromised (body res) then Throw NoReason else Return tt
                  | StreamError e => Throw e
                  | Stalled => Pending
                  end,
             World (<[path := File (content ++ accepted (body res))]> (files w))
                   (fds w) (next_fd w)
                   (trace w ++ writes path (List.length content) (body res)))) as Hrun.
  { unfold run, Resumable.saveToDisk.
    rewrite (bind_Return _ _ _ _ _
               (saveToDisk_data_run (body res) fd path content false w Hfd Hfile)).
    cbn [orb]. destruct (refused (body res) false); [reflexivity|].
    destruct (ending res); [|reflexivity|reflexivity].
    destruct (compromised (body res)); reflexivity. }
  split; [|split; [|split; [|split]]].
  - rewrite Hrun. cbn. apply lookup_insert_eq.
  - intros p Hp. rewrite Hrun. cbn. now apply lookup_insert_ne.
  - rewrite Hrun. reflexivity.
  - apply events_of_trace. fold run. rewrite Hrun. reflexivity.
  - rewrite Hrun. cbn [fst]. split.
    + destruct (refused (body res) false); [discriminate|].
      destruct (ending res); [|discriminate|discriminate].
      destruct (compromised (body res)); [discriminate|]. auto.
    + intros [-> Hc]. rewrite (refused_compromised _ Hc), Hc. reflexivity.
Qed.

Lemma X6_witness :
  (fds Cases.reading !! 3%nat = Some Scenario.v1_bin
   ∧ files Cases.reading !! Scenario.v1_bin = Some (File (list_byte_of_string "old")))
  ∧ files (Resumable.saveToDisk (Scenario.whole Scenario.interrupted) 3 3 false
             Cases.reading).2 !! Scenario.v1_bin
    = Some (File (list_byte_of_string "oldhel")).
Proof.
  assert (fds Cases.reading !! 3%nat = Some Scenario.v1_bin) as H1
    by (vm_compute; reflexivity).
  assert (files Cases.reading !! Scenario.v1_bin
          = Some (File (list_byte_of_string "old"))) as H2 by (vm_compute; reflexivity).
  split; [split; assumption|].
  exact (proj1 (X6_saveToDisk_appends (Scenario.whole Scenario.interrupted) 3
                  Scenario.v1_bin (list_byte_of_string "old") Cases.reading H1 H2)).
Defined.

(** ** The asset of this platform *)

Lemma expectedAssetName_Throw (E : Env) (w w' : world) (e : exn) :
  Github.expectedAssetName E w = (Throw e, w') →
  w' = w ∧ Part002.expectedAssetName E w = (Throw e, w).
Proof.
  platform_cases E; intros H; first [discriminate | injection H as <- <-; auto].
Qed.

(** X7.  [expectedAssetName] knows four assets: it returns a name exactly on
    Windows/x64, macOS/x64, macOS/arm64 and Linux/x64 (under Node's names
    [win32], [darwin], [linux], [x64], [arm64], or the published names
    themselves), the name being [sfw-free-<platform>-<arch>] with [.exe] on
    Windows; on anything else, Linux/arm64 included, it throws
    'No published asset for <process.platform>/<process.arch>'.  It changes
    nothing, and the earlier entry point accepts the same platforms. *)
Theorem X7_expectedAssetName_published (E : Env) (w : world) :
  let windows := platform E = "win32" ∨ platform E = "windows" in
  let macos := platform E = "darwin" ∨ platform E = "macos" in
  let linux := platform E = "linux" in
  let x86_64 := arch E = "x64" ∨ arch E = "x86_64" in
  let arm64 := arch E = "arm64" in
  let published := (windows ∧ x86_64) ∨ (macos ∧ (x86_64 ∨ arm64)) ∨ (linux ∧ x86_64) in
  (published →
   Github.expectedAssetName E w
   = (Return ("sfw-free-" ++ Github.mapPlatform E ++ "-" ++ Github.mapArch E
              ++ (if String.eqb (Github.mapPlatform E) "windows" then ".exe"
                  else EmptyString)), w)
   ∧ ∃ n, Part002.expectedAssetName E w = (Return n, w))
  ∧ (¬ published →
     Github.expectedAssetName E w
     = (Throw (JsError ("No published asset for " ++ platform E ++ "/" ++ arch E)), w)
     ∧ Part002.expectedAssetName E w
       = (Throw (JsError ("No published asset for " ++ platform E ++ "/" ++ arch E)), w)).
Proof.
  platform_cases E;
    (split;
     [intros Hpub; first
        [ split; [reflexivity | eexists; reflexivity]
        | exfalso; intuition congruence ]
     |intros Hnot; first
        [ split; reflexivity
        | exfalso; apply Hnot; intuition congruence ]]).
Qed.

Lemma X7_witness :
  Github.expectedAssetName Scenario.E Cases.fresh
  = (Return "sfw-free-linux-x86_64", Cases.fresh)
  ∧ Github.expectedAssetName Cases.E_arm64 Cases.fresh
    = (Throw (JsError "No published asset for linux/arm64"), Cases.fresh).
Proof.
  destruct (X7_expectedAssetName_published Scenario.E Cases.fresh) as [Hpublished _].
  destruct (X7_expectedAssetName_published Cases.E_arm64 Cases.fresh) as [_ Hother].
  split.
  - apply Hpublished. right. right. split; [reflexivity | left; reflexivity].
  - apply Hother. intros [[[H|H] _]|[[[H|H] _]|[_ [H|H]]]]; discriminate H.
Defined.

(** X8.  [findAssetUrl] returns the address and digest of the first asset of
    the list whose name is exactly the one asked for, and nothing exactly when
    no asset has that name; the earlier entry point's copy does the same. *)
Theorem X8_findAssetUrl_first_match (assets : list Asset) (name : string) :
  match Github.findAssetUrl assets name with
  | Some (url, digest_) =>
      ∃ before a after,
        assets = (before ++ a :: after)%list
        ∧ Forall (λ x, asset_name x ≠ name) before
        ∧ asset_name a = name
        ∧ url = browser_download_url a ∧ digest_ = digest a
  | None => Forall (λ x, asset_name x ≠ name) assets
  end
  ∧ Part002.findAssetUrl assets name = Github.findAssetUrl assets name.
Proof.
  split; [|reflexivity].
  unfold Github.findAssetUrl.
  induction assets as [|x assets IH]; [constructor|].
  cbn [List.find]. destruct (String.eqb_spec (asset_name x) name) as [Hx|Hx].
  - exists [], x, assets. repeat split; [constructor | exact Hx].
  - destruct (List.find _ assets) as [a|].
    + destruct IH as (before & a' & after & -> & Hbefore & Ha & Hurl & Hdigest).
      exists (x :: before), a', after. repeat split; try assumption.
      constructor; assumption.
    + constructor; assumption.
Qed.

(** ** The cached release *)

Lemma findValidCachedReleaseSync_run (E : Env) (w : world) :
  let cached :=
    match Fs.resolve (files w) (Cli.LATEST_SYMLINK_PATH E) with
    | Some q => if bool_decide (is_Some (files w !! q)) then Some q else None
    | None => None
    end in
  Cli.findValidCachedReleaseSync E w = (Return cached, w)
  ∧ Part002.findValidCachedReleaseSync E w = (Return (Part002.Cached <$> cached), w).
Proof.
  cbn zeta.
  destruct (Fs.resolve (files w) (Cli.LATEST_SYMLINK_PATH E)) as [q|] eqn:Hres.
  - destruct (decide (is_Some (files w !! q))) as [Hq|Hq].
    + rewrite (bool_decide_eq_true_2 _ Hq).
      now rewrite (findValidCachedReleaseSync_valid E w q Hres Hq),
        (Part002_findValidCachedReleaseSync_valid E w q Hres Hq).
    + rewrite (bool_decide_eq_false_2 _ Hq).
      unfold Cli.findValidCachedReleaseSync, Part002.findValidCachedReleaseSync,
        Part002.getLatestSymlinkPath, Part002.getInstallRoot, try_catch.
      fold (Cli.LATEST_SYMLINK_PATH E).
      rewrite !bind_run, existsSync_run, Hres, (bool_decide_eq_false_2 _ Hq).
      split; reflexivity.
  - unfold Cli.findValidCachedReleaseSync, Part002.findValidCachedReleaseSync,
      Part002.getLatestSymlinkPath, Part002.getInstallRoot, try_catch.
    fold (Cli.LATEST_SYMLINK_PATH E).
    rewrite !bind_run, existsSync_run, Hres.
    split; reflexivity.
Qed.

(** X9.  [findValidCachedReleaseSync] never throws and changes nothing.  It
    returns a path exactly when the chain of links from [.sfw-cache/latest]
    ends at an entry that exists, and then that path; a missing pointer, a
    pointer whose target is gone and a loop of links all give [null].  The
    earlier entry point returns the same path as [{ bin }]. *)
Theorem X9_findValidCachedReleaseSync_iff (E : Env) (w : world) :
  ∃ cached : option string,
    Cli.findValidCachedReleaseSync E w = (Return cached, w)
    ∧ Part002.findValidCachedReleaseSync E w = (Return (Part002.Cached <$> cached), w)
    ∧ ∀ binPath, cached = Some binPath ↔
                 Fs.resolve (files w) (Cli.LATEST_SYMLINK_PATH E) = Some binPath
                 ∧ is_Some (files w !! binPath).
Proof.
  destruct (findValidCachedReleaseSync_run E w) as [Hcli Hearlier].
  eexists. split; [exact Hcli|]. split; [exact Hearlier|].
  intros binPath.
  destruct (Fs.resolve (files w) (Cli.LATEST_SYMLINK_PATH E)) as [q|].
  - destruct (decide (is_Some (files w !! q))) as [Hq|Hq].
    + rewrite (bool_decide_eq_true_2 _ Hq). split.
      * intros [= <-]. split; [reflexivity | exact Hq].
      * intros [[= ->] _]. reflexivity.
    + rewrite (bool_decide_eq_false_2 _ Hq). split; [discriminate|].
      intros [[= ->] Hsome]. contradiction.
  - split; [discriminate|]. intros [[=] _].
Qed.

Lemma trySymlinkLatest_files (E : Env) (assetPath : string) (entry : node) (w : world) :
  files w !! assetPath = Some entry →
  assetPath ≠ Cli.LATEST_SYMLINK_PATH E →
  files w !! Cli.LATEST_SYMLINK_PATH E ≠ Some Directory →
  files (Cli.trySymlinkLatest E assetPath w).2 !! Cli.LATEST_SYMLINK_PATH E
  = Some (Symlink assetPath)
  ∧ files (Cli.trySymlinkLatest E assetPath w).2 !! assetPath = Some entry.
Proof.
  intros Hasset Hne Hdir. rewrite trySymlinkLatest_run.
  destruct (files w !! Cli.LATEST_SYMLINK_PATH E) as [[| |]|] eqn:Hold;
    [| |contradiction|]; cbn [snd files].
  - split; [apply lookup_insert_eq|].
    rewrite lookup_insert_ne, lookup_delete_ne by congruence. exact Hasset.
  - split; [apply lookup_insert_eq|].
    rewrite lookup_insert_ne, lookup_delete_ne by congruence. exact Hasset.
  - split; [apply lookup_insert_eq|].
    rewrite lookup_insert_ne by congruence. exact Hasset.
Qed.

Lemma pointer_found (E : Env) (assetPath : string) (content : list byte) (w : world) :
  files w !! Cli.LATEST_SYMLINK_PATH E = Some (Symlink assetPath) →
  files w !! assetPath = Some (File content) →
  Cli.findValidCachedReleaseSync E w = (Return (Some assetPath), w).
Proof.
  intros Hlink Hfile. apply findValidCachedReleaseSync_valid.
  - unfold Fs.resolve. cbn [Fs.follow]. rewrite Hlink. cbn [Fs.follow].
    rewrite Hfile. reflexivity.
  - rewrite Hfile. eauto.
Qed.

(** X10.  A pointer published by [trySymlinkLatest] to a binary that exists is
    what [findValidCachedReleaseSync] returns next, whatever the pointer led to
    before, unless a directory stands at the pointer's path. *)
Theorem X10_published_pointer_is_found (E : Env) (assetPath : string)
    (content : list byte) (w : world) :
  files w !! assetPath = Some (File content) →
  assetPath ≠ Cli.LATEST_SYMLINK_PATH E →
  files w !! Cli.LATEST_SYMLINK_PATH E ≠ Some Directory →
  Cli.findValidCachedReleaseSync E (Cli.trySymlinkLatest E assetPath w).2
  = (Return (Some assetPath), (Cli.trySymlinkLatest E assetPath w).2).
Proof.
  intros Hasset Hne Hdir.
  destruct (trySymlinkLatest_files E assetPath _ w Hasset Hne Hdir) as [Hlink Hfile].
  exact (pointer_found E assetPath content _ Hlink Hfile).
Qed.

Lemma X10_witness :
  (files Cases.has_v2 !! Scenario.v2_bin = Some (File Scenario.payload)
   ∧ Scenario.v2_bin ≠ Cli.LATEST_SYMLINK_PATH Scenario.E
   ∧ files Cases.has_v2 !! Cli.LATEST_SYMLINK_PATH Scenario.E ≠ Some Directory)
  ∧ (Cli.findValidCachedReleaseSync Scenario.E
       (Cli.trySymlinkLatest Scenario.E Scenario.v2_bin Cases.has_v2).2).1
    = Return (Some Scenario.v2_bin).
Proof.
  assert (files Cases.has_v2 !! Scenario.v2_bin = Some (File Scenario.payload)) as H1
    by (vm_compute; reflexivity).
  assert (Scenario.v2_bin ≠ Cli.LATEST_SYMLINK_PATH Scenario.E) as H2
    by (vm_compute; discriminate).
  assert (files Cases.has_v2 !! Cli.LATEST_SYMLINK_PATH Scenario.E ≠ Some Directory)
    as H3 by (vm_compute; discriminate).
  split; [repeat split; assumption|].
  now rewrite (X10_published_pointer_is_found Scenario.E Scenario.v2_bin
                 Scenario.payload Cases.has_v2 H1 H2 H3).
Defined.

(** ** The deadline, written and read back *)

Lemma follow_insert_file (fs : gmap string node) (q : string) (content : list byte) :
  ∀ fuel p, Fs.follow fuel fs p = Some q →
            Fs.follow fuel (<[q := File content]> fs) p = Some q.
Proof.
  induction fuel as [|fuel IH]; intros p Hp; cbn [Fs.follow] in *.
  - destruct (fs !! p) as [[| |]|] eqn:Hfs; try discriminate;
      injection Hp as ->; now rewrite lookup_insert_eq.
  - destruct (fs !! p) as [[|target|]|] eqn:Hfs;
      try (injection Hp as ->; now rewrite lookup_insert_eq).
    assert (p ≠ q) as Hne.
    { intros ->. pose proof (follow_fixed _ _ _ _ Hp (S fuel)) as Hq.
      cbn [Fs.follow] in Hq. rewrite Hfs in Hq.
      pose proof (follow_fixed _ _ _ _ Hp 0%nat) as Hq0.
      cbn [Fs.follow] in Hq0. rewrite Hfs in Hq0. discriminate. }
    rewrite lookup_insert_ne by congruence. rewrite Hfs. now apply IH.
Qed.

Lemma writeFileSync_stored (p data : string) (w w1 : world) :
  Fs.writeFileSync p data w = (Return tt, w1) → stored_text p w1 = Some data.
Proof.
  unfold Fs.writeFileSync. rewrite bind_run. cbn [get_files].
  destruct (Fs.resolve (files w) p) as [q|] eqn:Hres; [|discriminate].
  assert (∀ w', (put_files (<[q := File (list_byte_of_string data)]> (files w)) ;;
                 emit (EvWriteFile p data)) w = (Return tt, w') →
                stored_text p w' = Some data) as Hput.
  { intros w' [= <-]. unfold stored_text, Fs.resolve. cbn [files].
    rewrite (follow_insert_file _ _ _ _ _ Hres), lookup_insert_eq.
    now rewrite string_of_list_byte_of_string. }
  destruct (files w !! q) as [[| |]|]; [apply Hput|apply Hput|discriminate|apply Hput].
Qed.

(** X11.  What [setNextCheckTimeSync] writes is what [shouldCheckForUpdate]
    reads: once the write has succeeded the next-check file holds the ISO
    text of now + 24 h and, with a [Date] that parses back what it prints,
    the check answers [false]: no second listing request in the same
    instant.  Both entry points. *)
Theorem X11_deadline_round_trip (E : Env) (w w1 : world) :
  Date_parse E (JsString.trim (Date_toISOString E (Date_now E + Cli.ONE_DAY_MS)))
  = Some (Date_now E + Cli.ONE_DAY_MS) →
  Cli.setNextCheckTimeSync E w = (Return tt, w1) →
  stored_text (Cli.NEXT_CHECK_PATH E) w1
  = Some (Date_toISOString E (Date_now E + Cli.ONE_DAY_MS))
  ∧ Cli.shouldCheckForUpdate E w1 = (Return false, w1)
  ∧ Part002.shouldCheckForUpdate E w1 = (Return false, w1)
  ∧ Part002.setNextCheckTimeSync E w = (Return tt, w1).
Proof.
  intros Hparse Hset.
  assert (stored_text (Cli.NEXT_CHECK_PATH E) w1
          = Some (Date_toISOString E (Date_now E + Cli.ONE_DAY_MS))) as Hstored.
  { unfold Cli.setNextCheckTimeSync in Hset. rewrite bind_run in Hset.
    destruct (Fs.mkdirSync _ w) as [[[]|e|] w0]; try discriminate.
    exact (writeFileSync_stored _ _ _ _ Hset). }
  assert (Cli.shouldCheckForUpdate E w1 = (Return false, w1)) as Hcheck.
  { rewrite shouldCheckForUpdate_run, Hstored, Hparse.
    assert ((Date_now E >? Date_now E + Cli.ONE_DAY_MS) = false) as ->; [|reflexivity].
    rewrite Z.gtb_ltb. apply Z.ltb_ge. unfold Cli.ONE_DAY_MS. lia. }
  split; [exact Hstored|]. split; [exact Hcheck|].
  split; [now rewrite Part002_shouldCheckForUpdate_eq | exact Hset].
Qed.

Lemma X11_witness :
  (Date_parse Scenario.E
     (JsString.trim (Date_toISOString Scenario.E (Date_now Scenario.E + Cli.ONE_DAY_MS)))
   = Some (Date_now Scenario.E + Cli.ONE_DAY_MS)
   ∧ (Cli.setNextCheckTimeSync Scenario.E Cases.fresh).1 = Return tt)
  ∧ stored_text (Cli.NEXT_CHECK_PATH Scenario.E)
      (Cli.setNextCheckTimeSync Scenario.E Cases.fresh).2
    = Some "2026-11-03T00:00:00.123Z"
  ∧ (Cli.shouldCheckForUpdate Scenario.E
       (Cli.setNextCheckTimeSync Scenario.E Cases.fresh).2).1 = Return false.
Proof.
  set (w1 := (Cli.setNextCheckTimeSync Scenario.E Cases.fresh).2).
  assert (Date_parse Scenario.E
            (JsString.trim
               (Date_toISOString Scenario.E (Date_now Scenario.E + Cli.ONE_DAY_MS)))
          = Some (Date_now Scenario.E + Cli.ONE_DAY_MS)) as H1
    by (vm_compute; reflexivity).
  assert (Cli.setNextCheckTimeSync Scenario.E Cases.fresh = (Return tt, w1)) as H2
    by (vm_compute; reflexivity).
  split; [split; [exact H1 | now rewrite H2]|].
  destruct (X11_deadline_round_trip Scenario.E Cases.fresh w1 H1 H2)
    as (Hstored & Hcheck & _).
  split; [rewrite Hstored; vm_compute; reflexivity | now rewrite Hcheck].
Defined.

(** ** A release whose binary is already in the cache, or is not listed *)

Lemma findAssetUrl_None (assets : list Asset) (name : string) :
  Forall (λ a, asset_name a ≠ name) assets → Github.findAssetUrl assets name = None.
Proof.
  unfold Github.findAssetUrl. induction 1 as [|a assets Ha _ IH]; [reflexivity|].
  cbn [List.find]. rewrite (proj2 (String.eqb_neq _ _) Ha).
  destruct (List.find _ assets); [discriminate | reflexivity].
Qed.

(** X12.  When the binary of the listed release is already in the cache,
    [downloadAndVerifyReleaseSync] returns it at once: apart from the [mkdir]
    of the cache directory it does nothing, takes no lock, sends no request,
    and does not touch the [latest] pointer either.  Both entry points. *)
Theorem X12_binary_already_present
    (E : Env) (download : string → string → string → string → M unit)
    (release : LatestRelease) (releaseName assetName url digest_ algo hex : string)
    (w w' : world) :
  name release = Some releaseName →
  Github.findAssetUrl (assets release) assetName = Some (url, digest_) →
  digest_fields digest_ = Some (algo, hex) →
  Fs.mkdirSync (Cli.getCachePaths E releaseName assetName).1 w = (Return tt, w') →
  (Fs.existsSync (Cli.getCachePaths E releaseName assetName).2 w').1 = Return true →
  let cacheDir := (Cli.getCachePaths E releaseName assetName).1 in
  let found := {| binary_tag := Some releaseName;
                  bin := (Cli.getCachePaths E releaseName assetName).2 |} in
  Cli.downloadAndVerifyReleaseSync E release assetName w = (Return found, w')
  ∧ Part002.downloadAndVerifyReleaseSync E download release assetName w
    = (Return found, w')
  ∧ (w' = w
     ∨ w' = World (<[cacheDir := Directory]> (files w)) (fds w) (next_fd w)
                  (trace w ++ [EvMkdir cacheDir])).
Proof.
  intros Hname Hasset Hfields Hmkdir Hpresent cacheDir found.
  assert (Fs.existsSync (Cli.getCachePaths E releaseName assetName).2 w'
          = (Return true, w')) as Hexists.
  { rewrite existsSync_run. rewrite existsSync_run in Hpresent.
    f_equal. exact Hpresent. }
  assert (w' = w
          ∨ w' = World (<[cacheDir := Directory]> (files w)) (fds w) (next_fd w)
                       (trace w ++ [EvMkdir cacheDir])) as Hw'.
  { subst cacheDir. revert Hmkdir. unfold Fs.mkdirSync. rewrite bind_run.
    cbn [get_files].
    destruct (files w !! _) as [[| |]|]; try discriminate.
    - intros [= <-]. left. reflexivity.
    - intros [= <-]. right. reflexivity. }
  unfold Cli.downloadAndVerifyReleaseSync, Part002.downloadAndVerifyReleaseSync.
  rewrite Hname.
  change (Part002.getCachePaths E releaseName assetName)
    with (Cli.getCachePaths E releaseName assetName).
  change (Part002.findAssetUrl (assets release) assetName)
    with (Github.findAssetUrl (assets release) assetName).
  subst found cacheDir.
  destruct (Cli.getCachePaths E releaseName assetName) as [dir path] eqn:Hpaths.
  simpl in Hmkdir, Hexists, Hw' |- *.
  rewrite !(bind_Return _ _ _ _ _ Hmkdir), Hasset, Hfields.
  rewrite !(bind_Return _ _ _ _ _ Hexists). repeat split. exact Hw'.
Qed.

Lemma X12_witness :
  (name (Scenario.listed "adler32:062c0215") = Some "v2"
   ∧ Github.findAssetUrl (assets (Scenario.listed "adler32:062c0215")) Scenario.asset
     = Some (Scenario.v2_url, "adler32:062c0215")
   ∧ digest_fields "adler32:062c0215" = Some ("adler32", "062c0215")
   ∧ Fs.mkdirSync (Cli.getCachePaths Scenario.E "v2" Scenario.asset).1 Cases.has_v2
     = (Return tt, Cases.has_v2)
   ∧ (Fs.existsSync (Cli.getCachePaths Scenario.E "v2" Scenario.asset).2
        Cases.has_v2).1 = Return true)
  ∧ Cli.downloadAndVerifyReleaseSync Scenario.E (Scenario.listed "adler32:062c0215")
      Scenario.asset Cases.has_v2
    = (Return {| binary_tag := Some "v2"; bin := Scenario.v2_bin |}, Cases.has_v2).
Proof.
  assert (name (Scenario.listed "adler32:062c0215") = Some "v2") as H1 by reflexivity.
  assert (Github.findAssetUrl (assets (Scenario.listed "adler32:062c0215"))
            Scenario.asset = Some (Scenario.v2_url, "adler32:062c0215")) as H2
    by reflexivity.
  assert (digest_fields "adler32:062c0215" = Some ("adler32", "062c0215")) as H3
    by (vm_compute; reflexivity).
  assert (Fs.mkdirSync (Cli.getCachePaths Scenario.E "v2" Scenario.asset).1 Cases.has_v2
          = (Return tt, Cases.has_v2)) as H4 by (vm_compute; reflexivity).
  assert ((Fs.existsSync (Cli.getCachePaths Scenario.E "v2" Scenario.asset).2
             Cases.has_v2).1 = Return true) as H5 by (vm_compute; reflexivity).
  split; [repeat split; assumption|].
  exact (proj1 (X12_binary_already_present Scenario.E
                  (Resumable.eagerAcquireLockAndDownload Scenario.E)
                  (Scenario.listed "adler32:062c0215") "v2" Scenario.asset
                  Scenario.v2_url "adler32:062c0215" "adler32" "062c0215"
                  Cases.has_v2 Cases.has_v2 H1 H2 H3 H4 H5)).
Defined.

(** X13.  When no asset of the listed release has the name of this platform's
    asset, [downloadAndVerifyReleaseSync] throws 'Latest release does not
    contain asset <name>' right after the [mkdir] of the cache directory: the
    digest is not looked at, and nothing is locked, requested or published.
    Both entry points. *)
Theorem X13_asset_not_listed
    (E : Env) (download : string → string → string → string → M unit)
    (release : LatestRelease) (releaseName assetName : string) (w w' : world) :
  name release = Some releaseName →
  Forall (λ a, asset_name a ≠ assetName) (assets release) →
  Fs.mkdirSync (Cli.getCachePaths E releaseName assetName).1 w = (Return tt, w') →
  let cacheDir := (Cli.getCachePaths E releaseName assetName).1 in
  Cli.downloadAndVerifyReleaseSync E release assetName w
  = (Throw (JsError ("Latest release does not contain asset " ++ assetName)), w')
  ∧ Part002.downloadAndVerifyReleaseSync E download release assetName w
    = (Throw (JsError ("Latest release does not contain asset " ++ assetName)), w')
  ∧ (trace w' = trace w ∨ trace w' = (trace w ++ [EvMkdir cacheDir])%list).
Proof.
  intros Hname Hnone Hmkdir cacheDir. apply findAssetUrl_None in Hnone.
  unfold Cli.downloadAndVerifyReleaseSync, Part002.downloadAndVerifyReleaseSync.
  rewrite Hname.
  change (Part002.getCachePaths E releaseName assetName)
    with (Cli.getCachePaths E releaseName assetName).
  change (Part002.findAssetUrl (assets release) assetName)
    with (Github.findAssetUrl (assets release) assetName).
  subst cacheDir.
  destruct (Cli.getCachePaths E releaseName assetName) as [dir path] eqn:Hpaths.
  simpl in Hmkdir |- *. rewrite !(bind_Return _ _ _ _ _ Hmkdir), Hnone.
  repeat split. exact (mkdirSync_trace _ _ _ _ Hmkdir).
Qed.

Lemma X13_witness :
  (name (Scenario.listed "adler32:062c0215") = Some "v2"
   ∧ Forall (λ a, asset_name a ≠ "sfw-free-macos-arm64")
       (assets (Scenario.listed "adler32:062c0215"))
   ∧ (Fs.mkdirSync (Cli.getCachePaths Scenario.E "v2" "sfw-free-macos-arm64").1
        Cases.fresh).1 = Return tt)
  ∧ (Cli.downloadAndVerifyReleaseSync Scenario.E (Scenario.listed "adler32:062c0215")
       "sfw-free-macos-arm64" Cases.fresh).1
    = Throw (JsError "Latest release does not contain asset sfw-free-macos-arm64").
Proof.
  set (w' := (Fs.mkdirSync (Cli.getCachePaths Scenario.E "v2" "sfw-free-macos-arm64").1
                Cases.fresh).2).
  assert (name (Scenario.listed "adler32:062c0215") = Some "v2") as H1 by reflexivity.
  assert (Forall (λ a, asset_name a ≠ "sfw-free-macos-arm64")
            (assets (Scenario.listed "adler32:062c0215"))) as H2
    by (repeat constructor; discriminate).
  assert (Fs.mkdirSync (Cli.getCachePaths Scenario.E "v2" "sfw-free-macos-arm64").1
            Cases.fresh = (Return tt, w')) as H3 by (vm_compute; reflexivity).
  split; [repeat split; first [assumption | now rewrite H3]|].
  now rewrite (proj1 (X13_asset_not_listed Scenario.E
                        (Resumable.eagerAcquireLockAndDownload Scenario.E)
                        (Scenario.listed "adler32:062c0215") "v2"
                        "sfw-free-macos-arm64" Cases.fresh w' H1 H2 H3)).
Defined.

(** ** The scheduler without a usable cache *)

(** X14.  On a platform for which no asset is published the entry point fails
    with the error of [expectedAssetName] before anything else: nothing is
    read, written or requested, and a valid cached release is not used
    either.  Both entry points. *)
Theorem X14_unsupported_platform_fails_first
    (E : Env) (download : string → string → string → string → M unit)
    (w : world) (e : exn) :
  (Github.expectedAssetName E w).1 = Throw e →
  Cli.ensureLatestBinary E w = (Throw e, w)
  ∧ Part002.ensureLatestBinarySync E download w = (Throw e, w).
Proof.
  intros Hthrow.
  destruct (Github.expectedAssetName E w) as [o w0] eqn:Hname. cbn in Hthrow. subst o.
  destruct (expectedAssetName_Throw E w w0 e Hname) as [-> Hearlier].
  unfold Cli.ensureLatestBinary, Part002.ensureLatestBinarySync.
  now rewrite (bind_Throw _ _ _ _ _ Hname), (bind_Throw _ _ _ _ _ Hearlier).
Qed.

Lemma X14_witness :
  (Github.expectedAssetName Cases.E_arm64
     (Scenario.world_of (Scenario.cache_v1 Scenario.tomorrow))).1
  = Throw (JsError "No published asset for linux/arm64")
  ∧ Cli.ensureLatestBinary Cases.E_arm64
      (Scenario.world_of (Scenario.cache_v1 Scenario.tomorrow))
    = (Throw (JsError "No published asset for linux/arm64"),
       Scenario.world_of (Scenario.cache_v1 Scenario.tomorrow)).
Proof.
  assert ((Github.expectedAssetName Cases.E_arm64
             (Scenario.world_of (Scenario.cache_v1 Scenario.tomorrow))).1
          = Throw (JsError "No published asset for linux/arm64")) as H1 by reflexivity.
  split; [exact H1|].
  exact (proj1 (X14_unsupported_platform_fails_first Cases.E_arm64
                  (Resumable.eagerAcquireLockAndDownload Cases.E_arm64) _ _ H1)).
Defined.

(** X15.  Without a valid cached release the deadline is written first and
    the listing is fetched next; whatever makes that fetch fail, the entry
    point fails with 'Unable to fetch latest release and no valid cached
    release found.', having done nothing but the deadline write and the
    requests of the fetch.  Both entry points. *)
Theorem X15_no_cache_and_no_listing
    (E : Env) (download : string → string → string → string → M unit)
    (w w1 : world) (assetName : string) :
  Github.expectedAssetName E w = (Return assetName, w) →
  Cli.findValidCachedReleaseSync E w = (Return None, w) →
  Cli.setNextCheckTimeSync E w = (Return tt, w1) →
  let unable :=
    JsError "Unable to fetch latest release and no valid cached release found." in
  (∀ e, (Github.fetchLatest E w1).1 = Throw e →
        Cli.ensureLatestBinary E w = (Throw unable, (Github.fetchLatest E w1).2))
  ∧ (∀ e, (Part002.fetchLatest E w1).1 = Throw e →
          Part002.ensureLatestBinarySync E download w
          = (Throw unable, (Part002.fetchLatest E w1).2)).
Proof.
  intros Hname Hnone Hset unable.
  destruct (expectedAssetName_both E w assetName Hname) as [assetName' Hname'].
  assert (Part002.findValidCachedReleaseSync E w = (Return None, w)) as Hnone'.
  { destruct (findValidCachedReleaseSync_run E w) as [Hcli Hearlier].
    rewrite Hcli in Hnone. injection Hnone as Hnone.
    rewrite Hearlier, Hnone. reflexivity. }
  split; intros e Hfetch.
  - unfold Cli.ensureLatestBinary.
    rewrite (bind_Return _ _ _ _ _ Hname), (bind_Return _ _ _ _ _ Hnone).
    cbn [JsString.truthy negb]. rewrite bind_run. cbn [ret].
    rewrite (bind_Return _ _ _ _ _ Hset). rewrite bind_run. unfold try_catch.
    destruct (Github.fetchLatest E w1) as [[rel|e'|] w2]; try discriminate.
    reflexivity.
  - unfold Part002.ensureLatestBinarySync.
    rewrite (bind_Return _ _ _ _ _ Hname'), (bind_Return _ _ _ _ _ Hnone').
    cbn [fmap option_fmap option_map JsString.truthy negb]. rewrite bind_run. cbn [ret].
    change (Part002.setNextCheckTimeSync E) with (Cli.setNextCheckTimeSync E).
    rewrite (bind_Return _ _ _ _ _ Hset). rewrite bind_run. unfold try_catch.
    destruct (Part002.fetchLatest E w1) as [[rel|e'|] w2]; try discriminate.
    reflexivity.
Qed.

Lemma X15_witness :
  (Github.expectedAssetName Cases.E_not_modified Cases.fresh
   = (Return Scenario.asset, Cases.fresh)
   ∧ Cli.findValidCachedReleaseSync Cases.E_not_modified Cases.fresh
     = (Return None, Cases.fresh)
   ∧ (Cli.setNextCheckTimeSync Cases.E_not_modified Cases.fresh).1 = Return tt
   ∧ (Github.fetchLatest Cases.E_not_modified
        (Cli.setNextCheckTimeSync Cases.E_not_modified Cases.fresh).2).1
     = Throw (JsError ("GET " ++ Github.LATEST_API ++ " failed with 304")))
  ∧ (Cli.ensureLatestBinary Cases.E_not_modified Cases.fresh).1
    = Throw (JsError "Unable to fetch latest release and no valid cached release found.").
Proof.
  set (w1 := (Cli.setNextCheckTimeSync Cases.E_not_modified Cases.fresh).2).
  assert (Github.expectedAssetName Cases.E_not_modified Cases.fresh
          = (Return Scenario.asset, Cases.fresh)) as H1 by reflexivity.
  assert (Cli.findValidCachedReleaseSync Cases.E_not_modified Cases.fresh
          = (Return None, Cases.fresh)) as H2 by (vm_compute; reflexivity).
  assert (Cli.setNextCheckTimeSync Cases.E_not_modified Cases.fresh = (Return tt, w1))
    as H3 by (vm_compute; reflexivity).
  assert ((Github.fetchLatest Cases.E_not_modified w1).1
          = Throw (JsError ("GET " ++ Github.LATEST_API ++ " failed with 304"))) as H4
    by (vm_compute; reflexivity).
  split; [repeat split; first [assumption | now rewrite H3]|].
  now rewrite (proj1 (X15_no_cache_and_no_listing Cases.E_not_modified
                        (Resumable.eagerAcquireLockAndDownload Cases.E_not_modified)
                        Cases.fresh w1 Scenario.asset H1 H2 H3) _ H4).
Defined.

(** ** What a download that settles leaves behind *)

Lemma httpsGet_with_outcome (E : Env) (options : Http.HttpGetOptions) :
  ∀ (limit : nat) (url : string) (w w' : world),
    (Http.httpsGet_with E limit url options w).1
    = (Http.httpsGet_with E limit url options w').1.
Proof.
  induction limit as [|limit IH]; intros url w w';
    cbn [Http.httpsGet_with]; rewrite !bind_run, !emit_run;
    destruct (https_get E url (Http.request_headers options)) as [res| |];
    try reflexivity;
    destruct (statusCode res) as [status|]; try reflexivity;
    destruct (Http.redirectTo status (location res)) as [next|];
    try apply IH;
    unfold throw, ret; destruct ((status <? 200) || (300 <=? status)); reflexivity.
Qed.

Lemma accepted_payload (ticks : list tick) :
  compromised ticks = false → accepted ticks = payload_of ticks.
Proof.
  induction ticks as [|[chunk|] ticks IH]; cbn; intros Hc;
    [reflexivity | now rewrite IH | discriminate].
Qed.

Lemma Resumable_settles_clean (destination : string) (fd : nat) (f : list byte → string)
    (hex : string) (w1 : world) (fetched : outcome IncomingMessage)
    (requests : list event) :
  let result := Resumable_settles destination fd f hex w1 fetched requests in
  result.1 = Pending
  ∨ (fds result.2 = delete fd (fds w1)
     ∧ ∃ evs, trace result.2 = (trace w1 ++ evs)%list
              ∧ EvRelease (destination ++ ".lock") ∈ evs
              ∧ EvClose fd ∈ evs).
Proof.
  assert (∀ (a b c d : list event), ((a ++ b ++ c) ++ d = a ++ (b ++ c ++ d))%list)
    as Hassoc by (intros; now rewrite <- !app_assoc).
  unfold Resumable_settles. cbn zeta.
  destruct fetched as [res|e|]; [|right|left; reflexivity].
  - destruct (refused (body res) false);
      [|destruct (ending res);
        [destruct (compromised (body res));
         [|destruct (String.eqb _ hex)]| |left; reflexivity]];
      right; cbn [fst snd fds trace]; (split; [reflexivity|]);
      rewrite Hassoc; eexists; (split; [reflexivity|]);
      rewrite !elem_of_app, !elem_of_cons; auto 10.
  - cbn [fst snd fds trace]. split; [reflexivity|].
    eexists. split; [reflexivity|]. rewrite !elem_of_app, !elem_of_cons. auto 10.
Qed.

Lemma Part001_settles_clean (url destination : string) (fd : nat)
    (f : list byte → string) (hex : string) (w1 : world) (answer : reply) :
  let result := Part001_settles url destination fd f hex w1 answer in
  result.1 = Pending
  ∨ (result.1 = Return tt
     ∧ fds result.2 = delete fd (fds w1)
     ∧ ∃ evs, trace result.2 = (trace w1 ++ evs)%list
              ∧ EvRelease (destination ++ ".lock") ∈ evs
              ∧ EvClose fd ∈ evs).
Proof.
  unfold Part001_settles. cbn zeta.
  destruct answer as [res| |]; [|right|left; reflexivity].
  - destruct (Part001.status_rejected (statusCode res));
      [|destruct (refused (body res) false);
        [|destruct (ending res);
          [destruct (compromised (body res));
           [|destruct (String.eqb _ hex)]
          |left; reflexivity|left; reflexivity]]];
      right; cbn [fst snd fds trace add_events]; (split; [reflexivity|]);
      (split; [reflexivity|]);
      rewrite <- ?app_assoc; eexists; (split; [reflexivity|]);
      rewrite ?elem_of_app, !elem_of_cons; auto 12.
  - cbn [fst snd fds trace add_events]. split; [reflexivity|]. split; [reflexivity|].
    rewrite <- ?app_assoc. eexists. split; [reflexivity|].
    rewrite ?elem_of_app, !elem_of_cons. auto 10.
Qed.

(** X16.  Once the lock is held and the pending file is open, a download
    that settles has released the lock and closed its descriptor, on every
    path: success, failed fetch, stream error, compromised lock, digest
    mismatch.  The earlier downloader does the same and, besides, never
    rejects: it fulfils or stays pending. *)
Theorem X16_settled_download_is_clean
    (E : Env) (url destination algo hex : string) (f : list byte → string) (w : world) :
  createHash E algo = Some f →
  plf_lock E (destination ++ ".lock") = Return tt →
  file_or_absent w (destination ++ ".dl") →
  files w !! destination = None →
  fds w !! next_fd w = None →
  let clean (m : M unit) :=
    fds (m w).2 = fds w
    ∧ EvRelease (destination ++ ".lock") ∈ events_of m w
    ∧ EvClose (next_fd w) ∈ events_of m w in
  let current := Resumable.eagerAcquireLockAndDownload E url destination algo hex in
  let earlier := Part001.eagerAcquireLockAndDownload E url destination algo hex in
  ((current w).1 = Pending ∨ clean current)
  ∧ ((earlier w).1 = Pending ∨ ((earlier w).1 = Return tt ∧ clean earlier)).
Proof.
  intros Hhash Hlock Hpending Hdest Hfd clean current earlier.
  assert (delete (next_fd w) (fds (opened w destination)) = fds w) as Hfds
    by (cbn [opened fds]; now apply delete_insert_id).
  split.
  - destruct (Resumable_run E url destination algo hex f w Hhash Hlock Hpending Hdest)
      as (requests & _ & _ & Hrun).
    subst clean current. cbn beta. unfold events_of. rewrite Hrun.
    destruct (Resumable_settles_clean destination (next_fd w) f hex (opened w destination)
                (Http.httpsGetWithRange E url 0 Http.no_options
                   (opened w destination)).1 requests)
      as [Hp|(Hclosed & evs & Htrace & Hrel & Hclose)]; [left; exact Hp|right].
    rewrite Hclosed, Htrace, Hfds. cbn [opened trace].
    rewrite <- !app_assoc, drop_app_length.
    rewrite !elem_of_app. auto.
  - pose proof (Part001_run E url destination algo hex f w Hhash Hlock Hpending) as Hrun.
    subst clean earlier. cbn beta. unfold events_of. rewrite Hrun.
    destruct (Part001_settles_clean url destination (next_fd w) f hex
                (opened w destination) (https_get E url range_zero_only))
      as [Hp|(Hret & Hclosed & evs & Htrace & Hrel & Hclose)]; [left; exact Hp|right].
    rewrite Hclosed, Htrace, Hfds. cbn [opened trace].
    rewrite <- !app_assoc, drop_app_length.
    rewrite !elem_of_app. auto.
Qed.

Lemma X16_witness :
  (createHash Scenario.E_wrong_digest "adler32" = Some Fixture.adler32
   ∧ plf_lock Scenario.E_wrong_digest (Scenario.v2_bin ++ ".lock") = Return tt
   ∧ file_or_absent Scenario.resuming (Scenario.v2_bin ++ ".dl")
   ∧ files Scenario.resuming !! Scenario.v2_bin = None
   ∧ fds Scenario.resuming !! next_fd Scenario.resuming = None)
  ∧ fds (Resumable.eagerAcquireLockAndDownload Scenario.E_wrong_digest Scenario.v2_url
           Scenario.v2_bin "adler32" "00000000" Scenario.resuming).2
    = fds Scenario.resuming
  ∧ (Part001.eagerAcquireLockAndDownload Scenario.E_wrong_digest Scenario.v2_url
       Scenario.v2_bin "adler32" "00000000" Scenario.resuming).1 = Return tt.
Proof.
  assert (createHash Scenario.E_wrong_digest "adler32" = Some Fixture.adler32) as H1
    by reflexivity.
  assert (plf_lock Scenario.E_wrong_digest (Scenario.v2_bin ++ ".lock") = Return tt)
    as H2 by reflexivity.
  assert (file_or_absent Scenario.resuming (Scenario.v2_bin ++ ".dl")) as H3
    by (vm_compute; exact I).
  assert (files Scenario.resuming !! Scenario.v2_bin = None) as H4
    by (vm_compute; reflexivity).
  assert (fds Scenario.resuming !! next_fd Scenario.resuming = None) as H5
    by (vm_compute; reflexivity).
  split; [repeat split; assumption|].
  destruct (X16_settled_download_is_clean Scenario.E_wrong_digest Scenario.v2_url
              Scenario.v2_bin "adler32" "00000000" Fixture.adler32 Scenario.resuming
              H1 H2 H3 H4 H5) as [Hcurrent Hearlier].
  split.
  - destruct Hcurrent as [Hp|[Hfds _]]; [|exact Hfds].
    exfalso. revert Hp. vm_compute. discriminate.
  - destruct Hearlier as [Hp|[Hret _]]; [|exact Hret].
    exfalso. revert Hp. vm_compute. discriminate.
Defined.

(** X17.  When the pending path is a directory, the [openSync] that follows
    the acquisition of the lock throws EISDIR outside every [try]: the call
    fails holding the lock, which nothing releases, and without a request.
    Both generations. *)
Theorem X17_lock_kept_when_open_fails
    (E : Env) (url destination algo hex : string) (f : list byte → string) (w : world) :
  createHash E algo = Some f →
  plf_lock E (destination ++ ".lock") = Return tt →
  files w !! (destination ++ ".dl") = Some Directory →
  Resumable.eagerAcquireLockAndDownload E url destination algo hex w
  = (Throw Fs.EISDIR, add_events w [EvLock (destination ++ ".lock")])
  ∧ Part001.eagerAcquireLockAndDownload E url destination algo hex w
    = (Throw Fs.EISDIR, add_events w [EvLock (destination ++ ".lock")]).
Proof.
  intros Hhash Hlock Hdir.
  assert (Lockfile.lock E (destination ++ ".lock") w
          = (Return (Lockfile.release (destination ++ ".lock")),
             add_events w [EvLock (destination ++ ".lock")])) as Hlocked.
  { unfold Lockfile.lock. rewrite Hlock, bind_run, emit_run. reflexivity. }
  assert (Fs.openSync (destination ++ ".dl") "w+"
            (add_events w [EvLock (destination ++ ".lock")])
          = (Throw Fs.EISDIR, add_events w [EvLock (destination ++ ".lock")])) as Hopen.
  { unfold Fs.openSync. rewrite bind_run. cbn [get_files add_events files].
    rewrite resolve_plain by (now rewrite Hdir). rewrite Hdir. reflexivity. }
  unfold Resumable.eagerAcquireLockAndDownload, Part001.eagerAcquireLockAndDownload,
    crypto_createHash.
  rewrite Hhash. cbn zeta.
  rewrite !(bind_Return _ _ _ _ _ (eq_refl : ret _ w = (Return _, w))).
  rewrite !(bind_Return _ _ _ _ _ Hlocked).
  rewrite !(bind_Throw _ _ _ _ _ Hopen). split; reflexivity.
Qed.

Lemma X17_witness :
  (createHash Scenario.E "adler32" = Some Fixture.adler32
   ∧ plf_lock Scenario.E (Scenario.v2_bin ++ ".lock") = Return tt
   ∧ files Cases.blocked !! (Scenario.v2_bin ++ ".dl") = Some Directory)
  ∧ Resumable.eagerAcquireLockAndDownload Scenario.E Scenario.v2_url Scenario.v2_bin
      "adler32" Scenario.payload_hex Cases.blocked
    = (Throw Fs.EISDIR, add_events Cases.blocked [EvLock (Scenario.v2_bin ++ ".lock")]).
Proof.
  assert (createHash Scenario.E "adler32" = Some Fixture.adler32) as H1 by reflexivity.
  assert (plf_lock Scenario.E (Scenario.v2_bin ++ ".lock") = Return tt) as H2
    by reflexivity.
  assert (files Cases.blocked !! (Scenario.v2_bin ++ ".dl") = Some Directory) as H3
    by (vm_compute; reflexivity).
  split; [repeat split; assumption|].
  exact (proj1 (X17_lock_kept_when_open_fails Scenario.E Scenario.v2_url Scenario.v2_bin
                  "adler32" Scenario.payload_hex Fixture.adler32 Cases.blocked
                  H1 H2 H3)).
Defined.

(** ** A download that succeeds *)

Lemma Resumable_settles_success (destination : string) (fd : nat)
    (f : list byte → string) (hex : string) (w1 : world) (res : IncomingMessage)
    (requests : list event) :
  ending res = End →
  compromised (body res) = false →
  f (payload_of (body res)) = hex →
  Resumable_settles destination fd f hex w1 (Return res) requests
  = (Return tt,
     World (<[destination := File (payload_of (body res))]>
              (delete (destination ++ ".dl")
                 (<[destination ++ ".dl" := File (payload_of (body res))]> (files w1))))
           (delete fd (fds w1)) (next_fd w1)
           ((trace w1 ++ requests ++ writes (destination ++ ".dl") 0 (body res))
              ++ [EvFsync (destination ++ ".dl"); EvClose fd;
                  EvRelease (destination ++ ".lock");
                  EvRename (destination ++ ".dl") destination])).
Proof.
  intros Hend Hc Hf. unfold Resumable_settles. cbn zeta.
  rewrite (refused_compromised _ Hc), Hend, Hc, (accepted_payload _ Hc), Hf.
  now rewrite String.eqb_refl.
Qed.

Lemma Resumable_success (E : Env) (url destination algo hex : string)
    (f : list byte → string) (w : world) (res : IncomingMessage) :
  createHash E algo = Some f →
  plf_lock E (destination ++ ".lock") = Return tt →
  file_or_absent w (destination ++ ".dl") →
  files w !! destination = None →
  (Http.httpsGetWithRange E url 0 Http.no_options w).1 = Return res →
  ending res = End →
  compromised (body res) = false →
  f (payload_of (body res)) = hex →
  ∃ w2, Resumable.eagerAcquireLockAndDownload E url destination algo hex w
        = (Return tt, w2)
        ∧ files w2 !! destination = Some (File (payload_of (body res)))
        ∧ files w2 !! (destination ++ ".dl") = None
        ∧ ∀ p, p ≠ destination → p ≠ destination ++ ".dl" →
               files w2 !! p = files w !! p.
Proof.
  intros Hhash Hlock Hpending Hdest Hfetch Hend Hc Hf.
  destruct (Resumable_run E url destination algo hex f w Hhash Hlock Hpending Hdest)
    as (requests & _ & _ & Hrun).
  assert ((Http.httpsGetWithRange E url 0 Http.no_options (opened w destination)).1
          = Return res) as Hfetch'.
  { rewrite <- Hfetch. apply httpsGet_with_outcome. }
  rewrite Hfetch', (Resumable_settles_success _ _ _ _ _ _ _ Hend Hc Hf) in Hrun.
  pose proof (pending_path_fresh destination) as Hfresh.
  eexists. split; [exact Hrun|]. cbn [files opened].
  split; [apply lookup_insert_eq|].
  split; [rewrite lookup_insert_ne by congruence; apply lookup_delete_eq|].
  intros p Hp Hp'.
  rewrite lookup_insert_ne, lookup_delete_ne, !lookup_insert_ne by congruence.
  reflexivity.
Qed.

(** X18.  A download whose range fetch returns a response that ends, with
    the lock never compromised and the digest of the body's bytes equal to
    the expected one, fulfils and leaves exactly those bytes at the
    destination; the pending file is gone and no other path has changed. *)
Theorem X18_download_stores_the_body (E : Env) (url destination algo hex : string)
    (f : list byte → string) (w : world) (res : IncomingMessage) :
  createHash E algo = Some f →
  plf_lock E (destination ++ ".lock") = Return tt →
  file_or_absent w (destination ++ ".dl") →
  files w !! destination = None →
  (Http.httpsGetWithRange E url 0 Http.no_options w).1 = Return res →
  ending res = End →
  compromised (body res) = false →
  f (payload_of (body res)) = hex →
  let run := Resumable.eagerAcquireLockAndDownload E url destination algo hex w in
  run.1 = Return tt
  ∧ files run.2 !! destination = Some (File (payload_of (body res)))
  ∧ files run.2 !! (destination ++ ".dl") = None
  ∧ ∀ p, p ≠ destination → p ≠ destination ++ ".dl" → files run.2 !! p = files w !! p.
Proof.
  intros Hhash Hlock Hpending Hdest Hfetch Hend Hc Hf run.
  destruct (Resumable_success E url destination algo hex f w res
              Hhash Hlock Hpending Hdest Hfetch Hend Hc Hf)
    as (w2 & Hrun & Hfile & Hgone & Hrest).
  subst run. rewrite Hrun. auto.
Qed.

Lemma X18_witness :
  (createHash Scenario.E "adler32" = Some Fixture.adler32
   ∧ plf_lock Scenario.E (Scenario.v2_bin ++ ".lock") = Return tt
   ∧ file_or_absent Scenario.resuming (Scenario.v2_bin ++ ".dl")
   ∧ files Scenario.resuming !! Scenario.v2_bin = None
   ∧ (Http.httpsGetWithRange Scenario.E Scenario.v2_url 0 Http.no_options
        Scenario.resuming).1 = Return (Scenario.whole Scenario.in_two_chunks)
   ∧ ending (Scenario.whole Scenario.in_two_chunks) = End
   ∧ compromised (body (Scenario.whole Scenario.in_two_chunks)) = false
   ∧ Fixture.adler32 (payload_of (body (Scenario.whole Scenario.in_two_chunks)))
     = Scenario.payload_hex)
  ∧ files (Resumable.eagerAcquireLockAndDownload Scenario.E Scenario.v2_url
             Scenario.v2_bin "adler32" Scenario.payload_hex Scenario.resuming).2
      !! Scenario.v2_bin
    = Some (File (list_byte_of_string "hello")).
Proof.
  assert (createHash Scenario.E "adler32" = Some Fixture.adler32) as H1 by reflexivity.
  assert (plf_lock Scenario.E (Scenario.v2_bin ++ ".lock") = Return tt) as H2
    by reflexivity.
  assert (file_or_absent Scenario.resuming (Scenario.v2_bin ++ ".dl")) as H3
    by (vm_compute; exact I).
  assert (files Scenario.resuming !! Scenario.v2_bin = None) as H4
    by (vm_compute; reflexivity).
  assert ((Http.httpsGetWithRange Scenario.E Scenario.v2_url 0 Http.no_options
             Scenario.resuming).1 = Return (Scenario.whole Scenario.in_two_chunks)) as H5
    by (vm_compute; reflexivity).
  assert (ending (Scenario.whole Scenario.in_two_chunks) = End) as H6 by reflexivity.
  assert (compromised (body (Scenario.whole Scenario.in_two_chunks)) = false) as H7
    by reflexivity.
  assert (Fixture.adler32 (payload_of (body (Scenario.whole Scenario.in_two_chunks)))
          = Scenario.payload_hex) as H8 by (vm_compute; reflexivity).
  split; [repeat split; assumption|].
  destruct (X18_download_stores_the_body Scenario.E Scenario.v2_url Scenario.v2_bin
              "adler32" Scenario.payload_hex Fixture.adler32 Scenario.resuming
              (Scenario.whole Scenario.in_two_chunks) H1 H2 H3 H4 H5 H6 H7 H8)
    as (_ & Hfile & _).
  exact Hfile.
Defined.

(** X19.  The earlier downloader follows no redirect and reports no HTTP
    failure: on any status other than 2xx (a 302 with a Location included) it
    sends its one request, writes nothing, releases the lock, closes the
    descriptor, leaves the emptied pending file behind and fulfils. *)
Theorem X19_earlier_download_drops_other_statuses
    (E : Env) (url destination algo hex : string) (f : list byte → string) (w : world)
    (res : IncomingMessage) (status : Z) :
  createHash E algo = Some f →
  plf_lock E (destination ++ ".lock") = Return tt →
  file_or_absent w (destination ++ ".dl") →
  https_get E url range_zero_only = Responds res →
  statusCode res = Some status →
  status ≠ 0 →
  status < 200 ∨ 300 ≤ status →
  Part001.eagerAcquireLockAndDownload E url destination algo hex w
  = (Return tt,
     World (<[destination ++ ".dl" := File []]> (files w))
           (delete (next_fd w) (<[next_fd w := destination ++ ".dl"]> (fds w)))
           (S (next_fd w))
           (trace w ++ [EvLock (destination ++ ".lock");
                        EvOpen (destination ++ ".dl") "w+";
                        EvRequest url range_zero_only;
                        EvRelease (destination ++ ".lock");
                        EvClose (next_fd w)])).
Proof.
  intros Hhash Hlock Hpending Hreply Hstatus Hnonzero Hother.
  rewrite (Part001_run E url destination algo hex f w Hhash Hlock Hpending).
  unfold Part001_settles. cbn zeta. rewrite Hreply, Hstatus.
  assert (Part001.status_rejected (Some status) = true) as ->.
  { unfold Part001.status_rejected.
    apply andb_true_intro. split; [apply andb_true_intro; split|].
    - apply negb_true_iff, Z.eqb_neq. exact Hnonzero.
    - apply orb_true_iff. destruct Hother; [left; now apply Z.ltb_lt|right; now apply Z.leb_le].
    - apply negb_true_iff, Z.eqb_neq. lia. }
  cbn [add_events opened files fds next_fd trace]. rewrite <- !app_assoc. reflexivity.
Qed.

Lemma X19_witness :
  (createHash (Scenario.env Cases.moved "adler32:062c0215") "adler32"
   = Some Fixture.adler32
   ∧ plf_lock (Scenario.env Cases.moved "adler32:062c0215") (Scenario.v2_bin ++ ".lock")
     = Return tt
   ∧ file_or_absent Cases.fresh (Scenario.v2_bin ++ ".dl")
   ∧ https_get (Scenario.env Cases.moved "adler32:062c0215") Scenario.v2_url
       range_zero_only
     = Responds {| statusCode := Some 302; location := None; body := [];
                   ending := End |}
   ∧ 302 ≠ 0 ∧ (302 < 200 ∨ 300 ≤ 302))
  ∧ (Part001.eagerAcquireLockAndDownload (Scenario.env Cases.moved "adler32:062c0215")
       Scenario.v2_url Scenario.v2_bin "adler32" "062c0215" Cases.fresh).1
    = Return tt.
Proof.
  assert (createHash (Scenario.env Cases.moved "adler32:062c0215") "adler32"
          = Some Fixture.adler32) as H1 by reflexivity.
  assert (plf_lock (Scenario.env Cases.moved "adler32:062c0215")
            (Scenario.v2_bin ++ ".lock") = Return tt) as H2 by reflexivity.
  assert (file_or_absent Cases.fresh (Scenario.v2_bin ++ ".dl")) as H3
    by (vm_compute; exact I).
  assert (https_get (Scenario.env Cases.moved "adler32:062c0215") Scenario.v2_url
            range_zero_only
          = Responds {| statusCode := Some 302; location := None; body := [];
                        ending := End |}) as H4 by reflexivity.
  assert (302 ≠ 0) as H5 by lia.
  assert (302 < 200 ∨ 300 ≤ 302) as H6 by lia.
  split; [repeat split; assumption|].
  now rewrite (X19_earlier_download_drops_other_statuses
                 (Scenario.env Cases.moved "adler32:062c0215") Scenario.v2_url
                 Scenario.v2_bin "adler32" "062c0215" Fixture.adler32 Cases.fresh
                 _ 302 H1 H2 H3 H4 eq_refl H5 H6).
Defined.

(** ** The published digest is read without regard to case *)









(** ** From a listed release to the cached binary *)

Lemma ensureExecutable_run (E : Env) (p : string) (w : world) :
  ∃ evs, Cli.ensureExecutable E p w = (Return tt, add_events w evs).
Proof.
  assert (w = add_events w []) as Hnil by (symmetry; apply add_events_nil).
  unfold Cli.ensureExecutable.
  destruct (negb (String.eqb (platform E) "win32")); [|exists []; now rewrite <- Hnil].
  rewrite bind_run. unfold Util.swallowError, Fs.chmodSync. rewrite bind_run.
  cbn [get_files].
  destruct (Fs.resolve (files w) p) as [q|]; [|exists []; now rewrite <- Hnil].
  destruct (bool_decide (is_Some (files w !! q))); [|exists []; now rewrite <- Hnil].
  rewrite emit_run. exists [EvChmod p]. reflexivity.
Qed.

Lemma tryClearQuarantine_run (E : Env) (p : string) (w : world) :
  ∃ evs, Cli.tryClearQuarantine E p w = (Return tt, add_events w evs).
Proof.
  assert (w = add_events w []) as Hnil by (symmetry; apply add_events_nil).
  unfold Cli.tryClearQuarantine.
  destruct (negb (String.eqb (platform E) "darwin")); [exists []; now rewrite <- Hnil|].
  rewrite emit_run. eexists. reflexivity.
Qed.

(** X21.  From a listed release to the cache: when the release lists this
    platform's asset with a well-formed digest, the binary is not in the
    cache yet, and its download succeeds with the published digest, then
    [downloadAndVerifyReleaseSync] returns the binary's path under the
    release's own directory, the file there holds the bytes served, and the
    [latest] pointer now leads to it, so that [findValidCachedReleaseSync]
    returns it from then on. *)
Theorem X21_downloaded_release_becomes_the_cache
    (E : Env) (release : LatestRelease)
    (releaseName assetName url digest_ algo hex : string) (f : list byte → string)
    (w w' : world) (res : IncomingMessage) :
  let assetPath := (Cli.getCachePaths E releaseName assetName).2 in
  name release = Some releaseName →
  Github.findAssetUrl (assets release) assetName = Some (url, digest_) →
  digest_fields digest_ = Some (algo, hex) →
  Fs.mkdirSync (Cli.getCachePaths E releaseName assetName).1 w = (Return tt, w') →
  files w' !! assetPath = None →
  file_or_absent w' (assetPath ++ ".dl") →
  assetPath ≠ Cli.LATEST_SYMLINK_PATH E →
  files w' !! Cli.LATEST_SYMLINK_PATH E ≠ Some Directory →
  createHash E algo = Some f →
  plf_lock E (assetPath ++ ".lock") = Return tt →
  (Http.httpsGetWithRange E url 0 Http.no_options w').1 = Return res →
  ending res = End →
  compromised (body res) = false →
  f (payload_of (body res)) = hex →
  let run := Cli.downloadAndVerifyReleaseSync E release assetName w in
  run.1 = Return {| binary_tag := Some releaseName; bin := assetPath |}
  ∧ files run.2 !! assetPath = Some (File (payload_of (body res)))
  ∧ Cli.findValidCachedReleaseSync E run.2 = (Return (Some assetPath), run.2).
Proof.
  intros assetPath Hname Hasset Hfields Hmkdir Habsent Hpending Hne Hdir
    Hhash Hlock Hfetch Hend Hc Hf run.
  destruct (Resumable_success E url assetPath algo hex f w' res
              Hhash Hlock Hpending Habsent Hfetch Hend Hc Hf)
    as (w2 & Hdownload & Hfile & Hgone & Hrest).
  destruct (ensureExecutable_run E assetPath w2) as [evs1 Hexec].
  destruct (tryClearQuarantine_run E assetPath (add_events w2 evs1)) as [evs2 Hclear].
  set (w4 := add_events (add_events w2 evs1) evs2) in *.
  assert (files w4 !! assetPath = Some (File (payload_of (body res)))) as Hfile4
    by exact Hfile.
  assert (files w4 !! Cli.LATEST_SYMLINK_PATH E ≠ Some Directory) as Hdir4.
  { cbn [w4 add_events files].
    destruct (decide (Cli.LATEST_SYMLINK_PATH E = assetPath ++ ".dl")) as [->|Hne'].
    - rewrite Hgone. discriminate.
    - rewrite Hrest by congruence. exact Hdir. }
  destruct (trySymlinkLatest_files E assetPath _ w4 Hfile4 Hne Hdir4) as [Hlink Hkept].
  assert (Fs.existsSync assetPath w' = (Return false, w')) as Hexists.
  { rewrite existsSync_run, resolve_plain by (now rewrite Habsent).
    rewrite Habsent. reflexivity. }
  assert (run = (Return {| binary_tag := Some releaseName; bin := assetPath |},
                 (Cli.trySymlinkLatest E assetPath w4).2)) as Hrun.
  { subst run. unfold Cli.downloadAndVerifyReleaseSync. rewrite Hname.
    subst assetPath.
    destruct (Cli.getCachePaths E releaseName assetName) as [dir path] eqn:Hpaths.
    cbn [fst snd] in *.
    rewrite (bind_Return _ _ _ _ _ Hmkdir), Hasset, Hfields.
    rewrite (bind_Return _ _ _ _ _ Hexists). cbv iota.
    rewrite (bind_Return _ _ _ _ _ Hdownload), (bind_Return _ _ _ _ _ Hexec),
      (bind_Return _ _ _ _ _ Hclear).
    fold w4. rewrite bind_run, trySymlinkLatest_run.
    destruct (files w4 !! Cli.LATEST_SYMLINK_PATH E) as [[| |]|]; reflexivity. }
  rewrite Hrun. cbn [fst snd].
  split; [reflexivity|]. split; [exact Hkept|].
  exact (pointer_found E assetPath _ _ Hlink Hkept).
Qed.

Lemma X21_witness :
  (name (Scenario.listed "ADLER32:062C0215") = Some "v2"
   ∧ Github.findAssetUrl (assets (Scenario.listed "ADLER32:062C0215")) Scenario.asset
     = Some (Scenario.v2_url, "ADLER32:062C0215")
   ∧ digest_fields "ADLER32:062C0215" = Some ("adler32", "062c0215")
   ∧ Fs.mkdirSync (Cli.getCachePaths Scenario.E "v2" Scenario.asset).1
       (Scenario.world_of (Scenario.cache_v1 Scenario.yesterday))
     = (Return tt, Cases.v2_dir_made)
   ∧ files Cases.v2_dir_made !! Scenario.v2_bin = None
   ∧ file_or_absent Cases.v2_dir_made (Scenario.v2_bin ++ ".dl")
   ∧ Scenario.v2_bin ≠ Cli.LATEST_SYMLINK_PATH Scenario.E
   ∧ files Cases.v2_dir_made !! Cli.LATEST_SYMLINK_PATH Scenario.E ≠ Some Directory
   ∧ createHash Scenario.E "adler32" = Some Fixture.adler32
   ∧ plf_lock Scenario.E (Scenario.v2_bin ++ ".lock") = Return tt
   ∧ (Http.httpsGetWithRange Scenario.E Scenario.v2_url 0 Http.no_options
        Cases.v2_dir_made).1 = Return (Scenario.whole Scenario.in_two_chunks)
   ∧ ending (Scenario.whole Scenario.in_two_chunks) = End
   ∧ compromised (body (Scenario.whole Scenario.in_two_chunks)) = false
   ∧ Fixture.adler32 (payload_of (body (Scenario.whole Scenario.in_two_chunks)))
     = "062c0215")
  ∧ (Cli.findValidCachedReleaseSync Scenario.E
       (Cli.downloadAndVerifyReleaseSync Scenario.E (Scenario.listed "ADLER32:062C0215")
          Scenario.asset (Scenario.world_of (Scenario.cache_v1 Scenario.yesterday))).2).1
    = Return (Some Scenario.v2_bin).
Proof.
  set (w := Scenario.world_of (Scenario.cache_v1 Scenario.yesterday)).
  assert (name (Scenario.listed "ADLER32:062C0215") = Some "v2") as H1 by reflexivity.
  assert (Github.findAssetUrl (assets (Scenario.listed "ADLER32:062C0215"))
            Scenario.asset = Some (Scenario.v2_url, "ADLER32:062C0215")) as H2
    by reflexivity.
  assert (digest_fields "ADLER32:062C0215" = Some ("adler32", "062c0215")) as H3
    by (vm_compute; reflexivity).
  assert (Fs.mkdirSync (Cli.getCachePaths Scenario.E "v2" Scenario.asset).1 w
          = (Return tt, Cases.v2_dir_made)) as H4 by (vm_compute; reflexivity).
  assert (files Cases.v2_dir_made !! Scenario.v2_bin = None) as H5
    by (vm_compute; reflexivity).
  assert (file_or_absent Cases.v2_dir_made (Scenario.v2_bin ++ ".dl")) as H6
    by (vm_compute; exact I).
  assert (Scenario.v2_bin ≠ Cli.LATEST_SYMLINK_PATH Scenario.E) as H7
    by (vm_compute; discriminate).
  assert (files Cases.v2_dir_made !! Cli.LATEST_SYMLINK_PATH Scenario.E
          ≠ Some Directory) as H8 by (vm_compute; discriminate).
  assert (createHash Scenario.E "adler32" = Some Fixture.adler32) as H9 by reflexivity.
  assert (plf_lock Scenario.E (Scenario.v2_bin ++ ".lock") = Return tt) as H10
    by reflexivity.
  assert ((Http.httpsGetWithRange Scenario.E Scenario.v2_url 0 Http.no_options
             Cases.v2_dir_made).1 = Return (Scenario.whole Scenario.in_two_chunks))
    as H11 by (vm_compute; reflexivity).
  assert (ending (Scenario.whole Scenario.in_two_chunks) = End) as H12 by reflexivity.
  assert (compromised (body (Scenario.whole Scenario.in_two_chunks)) = false) as H13
    by reflexivity.
  assert (Fixture.adler32 (payload_of (body (Scenario.whole Scenario.in_two_chunks)))
          = "062c0215") as H14 by (vm_compute; reflexivity).
  split; [repeat split; assumption|].
  destruct (X21_downloaded_release_becomes_the_cache Scenario.E
              (Scenario.listed "ADLER32:062C0215") "v2" Scenario.asset Scenario.v2_url
              "ADLER32:062C0215" "adler32" "062c0215" Fixture.adler32 w
              Cases.v2_dir_made (Scenario.whole Scenario.in_two_chunks)
              H1 H2 H3 H4 H5 H6 H7 H8 H9 H10 H11 H12 H13 H14) as (_ & _ & Hfound).
  now rewrite Hfound.
Defined.

(** ** A download whose transport fails *)

(** X22.  A failed range fetch and an 'error' event of the response are
    reported as they are: the call rejects with that very error, nothing
    appears at the destination, and the pending file stays, empty after a
    failed fetch and holding the bytes received before a stream error. *)
Theorem X22_transport_failure_is_reported
    (E : Env) (url destination algo hex : string) (f : list byte → string) (w : world) :
  createHash E algo = Some f →
  plf_lock E (destination ++ ".lock") = Return tt →
  file_or_absent w (destination ++ ".dl") →
  files w !! destination = None →
  let run := Resumable.eagerAcquireLockAndDownload E url destination algo hex w in
  let fetched := (Http.httpsGetWithRange E url 0 Http.no_options w).1 in
  (∀ e, fetched = Throw e →
        run.1 = Throw e
        ∧ files run.2 !! (destination ++ ".dl") = Some (File [])
        ∧ files run.2 !! destination = None)
  ∧ (∀ res e, fetched = Return res →
              ending res = StreamError e →
              compromised (body res) = false →
              run.1 = Throw e
              ∧ files run.2 !! (destination ++ ".dl")
                = Some (File (payload_of (body res)))
              ∧ files run.2 !! destination = None).
Proof.
  intros Hhash Hlock Hpending Hdest run fetched.
  destruct (Resumable_run E url destination algo hex f w Hhash Hlock Hpending Hdest)
    as (requests & _ & _ & Hrun).
  assert ((Http.httpsGetWithRange E url 0 Http.no_options (opened w destination)).1
          = fetched) as Hfetch by apply httpsGet_with_outcome.
  rewrite Hfetch in Hrun. subst run. rewrite Hrun.
  pose proof (pending_path_fresh destination) as Hfresh.
  split.
  - intros e ->. unfold Resumable_settles. cbn [fst snd files opened].
    split; [reflexivity|]. split; [apply lookup_insert_eq|].
    rewrite lookup_insert_ne by congruence. exact Hdest.
  - intros res e -> Hend Hc. unfold Resumable_settles. cbn zeta.
    rewrite (refused_compromised _ Hc), Hend, (accepted_payload _ Hc).
    cbn [fst snd files opened].
    split; [reflexivity|]. split; [apply lookup_insert_eq|].
    rewrite !lookup_insert_ne by congruence. exact Hdest.
Qed.

Lemma X22_witness :
  (createHash Cases.E_not_modified "adler32" = Some Fixture.adler32
   ∧ plf_lock Cases.E_not_modified (Scenario.v2_bin ++ ".lock") = Return tt
   ∧ file_or_absent Scenario.resuming (Scenario.v2_bin ++ ".dl")
   ∧ files Scenario.resuming !! Scenario.v2_bin = None
   ∧ (Http.httpsGetWithRange Cases.E_not_modified Scenario.v2_url 0 Http.no_options
        Scenario.resuming).1
     = Throw (JsError ("GET " ++ Scenario.v2_url ++ " failed with 304")))
  ∧ (Resumable.eagerAcquireLockAndDownload Cases.E_not_modified Scenario.v2_url
       Scenario.v2_bin "adler32" Scenario.payload_hex Scenario.resuming).1
    = Throw (JsError ("GET " ++ Scenario.v2_url ++ " failed with 304")).
Proof.
  assert (createHash Cases.E_not_modified "adler32" = Some Fixture.adler32) as H1
    by reflexivity.
  assert (plf_lock Cases.E_not_modified (Scenario.v2_bin ++ ".lock") = Return tt) as H2
    by reflexivity.
  assert (file_or_absent Scenario.resuming (Scenario.v2_bin ++ ".dl")) as H3
    by (vm_compute; exact I).
  assert (files Scenario.resuming !! Scenario.v2_bin = None) as H4
    by (vm_compute; reflexivity).
  assert ((Http.httpsGetWithRange Cases.E_not_modified Scenario.v2_url 0 Http.no_options
             Scenario.resuming).1
          = Throw (JsError ("GET " ++ Scenario.v2_url ++ " failed with 304"))) as H5
    by (vm_compute; reflexivity).
  split; [repeat split; assumption|].
  destruct (X22_transport_failure_is_reported Cases.E_not_modified Scenario.v2_url
              Scenario.v2_bin "adler32" Scenario.payload_hex Fixture.adler32
              Scenario.resuming H1 H2 H3 H4) as [Hfailed _].
  exact (proj1 (Hfailed _ H5)).
Defined.
